(** * Konfam backend: detection, verification, response and publication

    A shallow embedding of the pipeline: the verification, synthesis and
    publication service ([src/services/verification-response.service.ts]),
    the detection service ([detectAndStorePost], carried in [src/app.ts])
    and the verification queue ([src/queues/verification.queue.ts]), with
    the properties of the written specification stated and settled against
    it.  Around them come the callers: the detection worker and the
    approval and verification routes of the application, and the analysis
    controller ([src/controller/detection.controller.ts]); the second part
    of the properties follows the services through every way a run can end.

    Conventions of the model.  Strings are sequences of UTF-16 code units.
    Numbers are exact rationals with NaN and the infinities, so the rounding
    of doubles is left out.  Database tables are lists of rows; the client
    rejects a value that is not a string for a string column, and number
    columns take every number.  The evidence store, the oracle, the target
    platform, the sentiment lexicon, the clock and the random source are
    inputs ([Env]); what the process changes is the [World]: its tables,
    the events handed to the broadcaster, the requests sent to the platform
    and the jobs queued.  Console output is left out. *)

From Stdlib Require Import List String Ascii Bool ZArith NArith QArith Qabs
  Qminmax DecimalString Lia.
Import ListNotations.

Local Open Scope N_scope.

Set Warnings "-register-all".

(** ** The JavaScript values the services compute with *)

Module Js.

(** A JavaScript string is a sequence of UTF-16 code units; [length] and
    [slice] count code units. *)
Definition char16 := N.
Definition jsstring := list char16.

(** The code units of an ASCII literal. *)
Definition js (s : string) : jsstring :=
  List.map N_of_ascii (list_ascii_of_string s).

Definition DQ : jsstring := [34].
Definition NL : jsstring := [10].

Fixpoint str_eqb (a b : jsstring) : bool :=
  match a, b with
  | [], [] => true
  | x :: a', y :: b' => N.eqb x y && str_eqb a' b'
  | _, _ => false
  end.

Definition concat (l : list jsstring) : jsstring := List.concat l.

(** [Array.prototype.join]. *)
Fixpoint join (sep : jsstring) (l : list jsstring) : jsstring :=
  match l with
  | [] => []
  | [x] => x
  | x :: r => x ++ sep ++ join sep r
  end.

(** [String.prototype.slice 0 n]. *)
Definition slice0 (n : nat) (s : jsstring) : jsstring := firstn n s.

(** WhiteSpace and LineTerminator code units: what [trim] strips and what
    [\s] matches. *)
Definition is_space (c : char16) : bool :=
  existsb (N.eqb c)
    [9; 10; 11; 12; 13; 32; 160; 5760; 8232; 8233; 8239; 8287; 12288; 65279]
  || (N.leb 8192 c && N.leb c 8202).

Fixpoint trimStart (s : jsstring) : jsstring :=
  match s with
  | c :: r => if is_space c then trimStart r else s
  | [] => []
  end.

Definition trim (s : jsstring) : jsstring :=
  rev (trimStart (rev (trimStart s))).

(** [s.split(/\s+/)]: the pieces between maximal runs of white space, the
    empty leading and trailing pieces included. *)
Fixpoint split_ws_aux (cur : jsstring) (inWs : bool) (s : jsstring)
  : list jsstring :=
  match s with
  | [] => [rev cur]
  | c :: r =>
      if is_space c then
        if inWs then split_ws_aux cur true r
        else rev cur :: split_ws_aux [] true r
      else split_ws_aux (c :: cur) false r
  end.

Definition split_ws (s : jsstring) : list jsstring := split_ws_aux [] false s.

Definition nonempty (s : jsstring) : bool :=
  match s with [] => false | _ => true end.

(** ASCII lower-casing, the part of [toLowerCase] the keyword match of
    plain-text keywords relies on: on text outside ASCII the runtime's
    mapping follows the Unicode tables, which are not modelled. *)
Definition lower_unit (c : char16) : char16 :=
  if N.leb 65 c && N.leb c 90 then c + 32 else c.

Definition toLowerCase (s : jsstring) : jsstring := List.map lower_unit s.

Fixpoint startsWith (p s : jsstring) : bool :=
  match p, s with
  | [], _ => true
  | x :: p', y :: s' => N.eqb x y && startsWith p' s'
  | _ :: _, [] => false
  end.

(** [String.prototype.includes]. *)
Fixpoint includes (s p : jsstring) : bool :=
  startsWith p s ||
  match s with
  | [] => false
  | _ :: r => includes r p
  end.

(** *** Numbers

    A number is NaN, an infinity, or a finite value, kept as an exact
    rational: the rounding of IEEE doubles is not part of the model. *)
Inductive JsNum : Type :=
| NaN
| Fin (q : Q)
| PInf
| NInf.

Definition num (z : Z) : JsNum := Fin (inject_Z z).

Definition jn_truthy (n : JsNum) : bool :=
  match n with
  | NaN => false
  | Fin q => negb (Qeq_bool q 0)
  | _ => true
  end.

(** [a <= b]; every comparison with NaN is false. *)
Definition jn_le (a b : JsNum) : bool :=
  match a, b with
  | NaN, _ | _, NaN => false
  | NInf, _ => true
  | _, PInf => true
  | Fin x, Fin y => Qle_bool x y
  | _, _ => false
  end.

Definition jn_ge (a b : JsNum) : bool := jn_le b a.

Definition jn_lt (a b : JsNum) : bool :=
  match a, b with
  | NaN, _ | _, NaN => false
  | _, _ => negb (jn_le b a)
  end.

Definition jn_gt (a b : JsNum) : bool := jn_lt b a.

(** [Math.min] and [Math.max] of two numbers. *)
Definition Math_min (a b : JsNum) : JsNum :=
  match a, b with
  | NaN, _ | _, NaN => NaN
  | _, _ => if jn_le a b then a else b
  end.

Definition Math_max (a b : JsNum) : JsNum :=
  match a, b with
  | NaN, _ | _, NaN => NaN
  | _, _ => if jn_le a b then b else a
  end.

Definition Math_abs (a : JsNum) : JsNum :=
  match a with
  | NaN => NaN
  | Fin q => Fin (Qabs q)
  | _ => PInf
  end.

Definition jn_add (a b : JsNum) : JsNum :=
  match a, b with
  | NaN, _ | _, NaN => NaN
  | PInf, NInf | NInf, PInf => NaN
  | PInf, _ | _, PInf => PInf
  | NInf, _ | _, NInf => NInf
  | Fin x, Fin y => Fin (x + y)
  end.

Definition jn_sign (a : JsNum) : comparison :=
  match a with
  | NaN => Eq
  | Fin q => (0 ?= q)%Q
  | PInf => Lt
  | NInf => Gt
  end.

Definition jn_mul (a b : JsNum) : JsNum :=
  match a, b with
  | NaN, _ | _, NaN => NaN
  | Fin x, Fin y => Fin (x * y)
  | _, _ =>
      match jn_sign a, jn_sign b with
      | Eq, _ | _, Eq => NaN
      | Lt, Lt | Gt, Gt => PInf
      | _, _ => NInf
      end
  end.


(** *** JSON values and [JSON.parse] *)

Inductive JsValue : Type :=
| JNull
| JBool (b : bool)
| JNum (n : JsNum)
| JStr (s : jsstring)
| JArr (l : list JsValue)
| JObj (members : list (jsstring * JsValue)).

Definition is_json_ws (c : char16) : bool :=
  existsb (N.eqb c) [32; 9; 10; 13].

Fixpoint skip_ws (s : jsstring) : jsstring :=
  match s with
  | c :: r => if is_json_ws c then skip_ws r else s
  | [] => []
  end.

Definition digit_val (c : char16) : option N :=
  if N.leb 48 c && N.leb c 57 then Some (c - 48) else None.

Definition hex_val (c : char16) : option N :=
  if N.leb 48 c && N.leb c 57 then Some (c - 48)
  else if N.leb 97 c && N.leb c 102 then Some (c - 87)
  else if N.leb 65 c && N.leb c 70 then Some (c - 55)
  else None.

(** The longest prefix of digits in the given base: its value, how many
    digits it has, and the rest. *)
Fixpoint read_digits (dv : char16 -> option N) (base : N) (acc : N) (n : nat)
  (s : jsstring) : N * nat * jsstring :=
  match s with
  | c :: r =>
      match dv c with
      | Some d => read_digits dv base (acc * base + d) (S n) r
      | None => (acc, n, s)
      end
  | [] => (acc, n, s)
  end.

Definition pow10 (e : Z) : Q :=
  match e with
  | Z0 => 1%Q
  | Zpos p => inject_Z (10 ^ Zpos p)
  | Zneg p => Qmake 1 (10 ^ p)
  end.

(** The optional exponent part [[eE][+-]?digits]; without digits after the
    mark the text is not an exponent and nothing is read. *)
Definition read_exponent (s : jsstring) : Z * jsstring :=
  match s with
  | c :: r =>
      if N.eqb c 101 || N.eqb c 69 then
        let '(neg, r1) :=
          match r with
          | 45 :: r' => (true, r')
          | 43 :: r' => (false, r')
          | _ => (false, r)
          end in
        match read_digits digit_val 10 0 0%nat r1 with
        | (_, O, _) => (0%Z, s)
        | (e, _, r2) => ((if neg then - Z.of_N e else Z.of_N e)%Z, r2)
        end
      else (0%Z, s)
  | [] => (0%Z, s)
  end.

(** A JSON number: [-? (0 | [1-9][0-9]* ) (. [0-9]+)? ([eE][+-]?[0-9]+)?]. *)
Definition parse_number (s : jsstring) : option (Q * jsstring) :=
  let '(neg, s1) := match s with 45 :: r => (true, r) | _ => (false, s) end in
  match s1 with
  | [] => None
  | c0 :: _ =>
      match read_digits digit_val 10 0 0%nat s1 with
      | (_, O, _) => None
      | (ip, n, s2) =>
          if N.eqb c0 48 && negb (Nat.eqb n 1) then None
          else
            let frac :=
              match s2 with
              | 46 :: r =>
                  match read_digits digit_val 10 0 0%nat r with
                  | (_, O, _) => None
                  | (fp, k, s3) =>
                      Some (Qmake (Z.of_N fp) (10 ^ Pos.of_nat k), s3)
                  end
              | _ => Some (0%Q, s2)
              end in
            match frac with
            | None => None
            | Some (f, s3) =>
                let '(e, s4) := read_exponent s3 in
                let m := (inject_Z (Z.of_N ip) + f)%Q in
                let v := (m * pow10 e)%Q in
                Some (Qred (if neg then - v else v)%Q, s4)
            end
      end
  end.

Definition hex4 (a b c d : char16) : option char16 :=
  match hex_val a, hex_val b, hex_val c, hex_val d with
  | Some x, Some y, Some z, Some w => Some (((x * 16 + y) * 16 + z) * 16 + w)
  | _, _, _, _ => None
  end.

(** The code unit a one-letter escape stands for. *)
Definition escape_unit (e : char16) : option char16 :=
  match e with
  | 34 => Some 34
  | 92 => Some 92
  | 47 => Some 47
  | 98 => Some 8
  | 102 => Some 12
  | 110 => Some 10
  | 114 => Some 13
  | 116 => Some 9
  | _ => None
  end.

Definition cons_unit (c : char16) (o : option (jsstring * jsstring))
  : option (jsstring * jsstring) :=
  match o with
  | Some (t, r) => Some (c :: t, r)
  | None => None
  end.

(** The body of a JSON string, after its opening quote: the string and the
    text after its closing quote. *)
Fixpoint parse_string (s : jsstring) : option (jsstring * jsstring) :=
  match s with
  | [] => None
  | c :: r =>
      if N.eqb c 34 then Some ([], r)
      else if N.eqb c 92 then
        match r with
        | [] => None
        | e :: r1 =>
            if N.eqb e 117 then
              match r1 with
              | h1 :: h2 :: h3 :: h4 :: r2 =>
                  match hex4 h1 h2 h3 h4 with
                  | Some u => cons_unit u (parse_string r2)
                  | None => None
                  end
              | _ => None
              end
            else
              match escape_unit e with
              | Some u => cons_unit u (parse_string r1)
              | None => None
              end
        end
      else if N.ltb c 32 then None
      else cons_unit c (parse_string r)
  end.

(** A literal name at the head of the text. *)
Definition literal (name : jsstring) (v : JsValue) (s : jsstring)
  : option (JsValue * jsstring) :=
  if startsWith name s then Some (v, skipn (List.length name) s) else None.

(** One JSON value, with the white space before it.  Elements and members
    are read by the two companions; the fuel bounds the nesting of calls,
    and twice the length of the text is always enough
    ([parse_value_fuel] below). *)
Fixpoint parse_value (fuel : nat) (s : jsstring)
  : option (JsValue * jsstring) :=
  match fuel with
  | O => None
  | S fuel' =>
      match skip_ws s with
      | [] => None
      | c :: r =>
          if N.eqb c 34 then
            match parse_string r with
            | Some (t, r') => Some (JStr t, r')
            | None => None
            end
          else if N.eqb c 91 then
            match skip_ws r with
            | c' :: r' =>
                if N.eqb c' 93 then Some (JArr [], r')
                else
                  match parse_elements fuel' r with
                  | Some (vs, r'') => Some (JArr vs, r'')
                  | None => None
                  end
            | [] => None
            end
          else if N.eqb c 123 then
            match skip_ws r with
            | c' :: r' =>
                if N.eqb c' 125 then Some (JObj [], r')
                else
                  match parse_members fuel' r with
                  | Some (ms, r'') => Some (JObj ms, r'')
                  | None => None
                  end
            | [] => None
            end
          else if N.eqb c 110 then literal (js "null") JNull (c :: r)
          else if N.eqb c 116 then literal (js "true") (JBool true) (c :: r)
          else if N.eqb c 102 then literal (js "false") (JBool false) (c :: r)
          else
            match parse_number (c :: r) with
            | Some (q, r') => Some (JNum (Fin q), r')
            | None => None
            end
      end
  end
with parse_elements (fuel : nat) (s : jsstring)
  : option (list JsValue * jsstring) :=
  match fuel with
  | O => None
  | S fuel' =>
      match parse_value fuel' s with
      | Some (v, r) =>
          match skip_ws r with
          | c :: r' =>
              if N.eqb c 44 then
                match parse_elements fuel' r' with
                | Some (vs, r'') => Some (v :: vs, r'')
                | None => None
                end
              else if N.eqb c 93 then Some ([v], r')
              else None
          | [] => None
          end
      | None => None
      end
  end
with parse_members (fuel : nat) (s : jsstring)
  : option (list (jsstring * JsValue) * jsstring) :=
  match fuel with
  | O => None
  | S fuel' =>
      match skip_ws s with
      | c :: r =>
          if N.eqb c 34 then
            match parse_string r with
            | Some (k, r1) =>
                match skip_ws r1 with
                | c1 :: r2 =>
                    if N.eqb c1 58 then
                      match parse_value fuel' r2 with
                      | Some (v, r3) =>
                          match skip_ws r3 with
                          | c3 :: r4 =>
                              if N.eqb c3 44 then
                                match parse_members fuel' r4 with
                                | Some (ms, r5) => Some ((k, v) :: ms, r5)
                                | None => None
                                end
                              else if N.eqb c3 125 then Some ([(k, v)], r4)
                              else None
                          | [] => None
                          end
                      | None => None
                      end
                    else None
                | [] => None
                end
            | None => None
            end
          else None
      | [] => None
      end
  end.

(** [JSON.parse text]: the value, or [None] where it throws a SyntaxError. *)
Definition JSON_parse (text : jsstring) : option JsValue :=
  match parse_value (2 * List.length text + 2) text with
  | Some (v, r) =>
      match skip_ws r with
      | [] => Some v
      | _ => None
      end
  | None => None
  end.


(** *** Coercions

    [undefined] is [None] in an [option JsValue]. *)

Definition expect_end (r : JsNum * jsstring) : JsNum :=
  match r with
  | (v, []) => v
  | _ => NaN
  end.

(** An unsigned decimal literal as [Number] reads it: [digits (. digits? )?]
    or [. digits], then an optional exponent. *)
Definition read_decimal (s : jsstring) : JsNum * jsstring :=
  let '(ip, n, s1) := read_digits digit_val 10 0 0%nat s in
  let '(fp, k, s2) :=
    match s1 with
    | 46 :: r => read_digits digit_val 10 0 0%nat r
    | _ => (0, 0%nat, s1)
    end in
  match (n + k)%nat with
  | O => (NaN, s)
  | _ =>
      let '(e, s3) := read_exponent s2 in
      let f := Qmake (Z.of_N fp) (10 ^ Pos.of_nat k) in
      (Fin (Qred ((inject_Z (Z.of_N ip) + f) * pow10 e)), s3)
  end.

Definition read_radix (dv : char16 -> option N) (base : N) (s : jsstring)
  : JsNum :=
  match read_digits dv base 0 0%nat s with
  | (_, O, _) => NaN
  | (v, _, []) => Fin (inject_Z (Z.of_N v))
  | _ => NaN
  end.

Definition oct_val (c : char16) : option N :=
  if N.leb 48 c && N.leb c 55 then Some (c - 48) else None.

Definition bin_val (c : char16) : option N :=
  if N.leb 48 c && N.leb c 49 then Some (c - 48) else None.

Definition jn_neg (n : JsNum) : JsNum :=
  match n with
  | NaN => NaN
  | Fin q => Fin (- q)
  | PInf => NInf
  | NInf => PInf
  end.

Definition read_unsigned (s : jsstring) : JsNum :=
  if str_eqb s (js "Infinity") then PInf else expect_end (read_decimal s).

(** StringToNumber: what [Number] makes of a string. *)
Definition StringToNumber (s : jsstring) : JsNum :=
  match trim s with
  | [] => num 0
  | 48 :: 120 :: r | 48 :: 88 :: r => read_radix hex_val 16 r
  | 48 :: 111 :: r | 48 :: 79 :: r => read_radix oct_val 8 r
  | 48 :: 98 :: r | 48 :: 66 :: r => read_radix bin_val 2 r
  | 43 :: r => read_unsigned r
  | 45 :: r => jn_neg (read_unsigned r)
  | t => read_unsigned t
  end.

(** ToNumber of a JSON value.  An array goes through its string form: the
    empty array reads as the empty string, a one-element array as its
    element's string (a number prints and reads back as itself), and longer
    arrays contain a comma. *)
Fixpoint ToNumber_val (v : JsValue) : JsNum :=
  match v with
  | JNull => num 0
  | JBool b => if b then num 1 else num 0
  | JNum n => n
  | JStr s => StringToNumber s
  | JArr [] => num 0
  | JArr [x] =>
      match x with
      | JNull => num 0
      | JBool _ => NaN
      | JObj _ => NaN
      | _ => ToNumber_val x
      end
  | JArr _ => NaN
  | JObj _ => NaN
  end.

(** [Number(x)]. *)
Definition Number (x : option JsValue) : JsNum :=
  match x with
  | None => NaN
  | Some v => ToNumber_val v
  end.

(** ToBoolean, the test behind [||], [!] and [if]. *)
Definition truthy (x : option JsValue) : bool :=
  match x with
  | None => false
  | Some JNull => false
  | Some (JBool b) => b
  | Some (JNum n) => jn_truthy n
  | Some (JStr s) => nonempty s
  | Some _ => true
  end.

(** [x || d]. *)
Definition or_else (x : option JsValue) (d : JsValue) : JsValue :=
  match x with
  | Some v => if truthy x then v else d
  | None => d
  end.

(** [x ?? d]. *)
Definition nullish_or (x : option JsValue) (d : JsValue) : JsValue :=
  match x with
  | None | Some JNull => d
  | Some v => v
  end.

Fixpoint lookup_member (k : jsstring) (ms : list (jsstring * JsValue))
  : option JsValue :=
  match ms with
  | [] => None
  | (k', v) :: r =>
      match lookup_member k r with
      | Some v' => Some v'
      | None => if str_eqb k k' then Some v else None
      end
  end.

(** [v.k] for a name [k] that no built-in prototype defines: [None] where
    the access throws a TypeError (on [null]), [Some None] for [undefined].
    Of two members with one key the later one counts. *)
Definition get_prop (v : JsValue) (k : jsstring) : option (option JsValue) :=
  match v with
  | JNull => None
  | JObj ms => Some (lookup_member k ms)
  | _ => Some None
  end.

(** A thrown [Error]: its class name and its message. *)
Record JsError : Type := mkError {
  err_name : jsstring;
  err_message : jsstring
}.

Definition Error (msg : jsstring) : JsError := mkError (js "Error") msg.
Definition TypeError (msg : jsstring) : JsError := mkError (js "TypeError") msg.
Definition SyntaxError (msg : jsstring) : JsError :=
  mkError (js "SyntaxError") msg.

(** Decimal digits of a natural number. *)
Definition decimal (n : N) : jsstring :=
  js (NilEmpty.string_of_uint (N.to_uint n)).

End Js.

Import Js.

(** ** Data model: the rows the services read and write *)

Definition Id := jsstring.

(** The enums of the database schema, with the members the sources name. *)
Inductive ThreatStatus : Type := NEW | RESPONDED | RESOLVED.
Inductive ResponseStatus : Type := PENDING | POSTED | FAILED.
Inductive ThreatSeverity : Type := LOW | MEDIUM | HIGH | CRITICAL.
Inductive ThreatType : Type := NEGATIVE_SENTIMENT | VIRAL_RISK | CRISIS.

Record DetectedPost : Type := mkDetectedPost {
  dp_id : Id;
  dp_monitorId : Id;
  dp_brandId : Id;
  externalPostId : option jsstring;
  dp_platform : jsstring;
  dp_content : jsstring;
  authorHandle : jsstring;
  authorId : option jsstring;
  likeCount : Z;
  retweetCount : Z;
  replyCount : Z;
  viewCount : Z;
  dp_viralScore : JsNum;
  dp_engagementRate : JsNum;
  sentimentPolarity : JsNum;
  emotionalTone : jsstring;
  matchedKeywords : list jsstring;
  dp_postedAt : Z;
  capturedAt : Z;
  isFlagged : bool;
  flagReason : option jsstring
}.

(** The verification status is kept as a string, the type of the variable
    [verifyThreat] writes to the column. *)
Record Threat : Type := mkThreat {
  t_id : Id;
  t_detectedPostId : Id;
  t_brandId : Id;
  t_monitorId : Id;
  severity : ThreatSeverity;
  threatType : ThreatType;
  t_status : ThreatStatus;
  threatScore : JsNum;
  sentimentImpact : JsNum;
  viralityImpact : JsNum;
  credibilityImpact : JsNum;
  analysisReasons : list jsstring;
  predictedReach : Z;
  verificationStatus : option jsstring;
  verificationConfidence : option JsNum;
  verificationSummary : option jsstring;
  verificationEvidenceIds : list Id
}.

Record Response : Type := mkResponse {
  r_id : Id;
  r_threatId : Id;
  r_platform : jsstring;
  r_content : jsstring;
  r_sourcesUsed : list jsstring;
  r_confidence : JsNum;
  r_status : ResponseStatus;
  autoGenerated : bool;
  postedAt : option Z
}.

Record Brand : Type := mkBrand {
  b_id : Id;
  b_name : jsstring
}.

Record Monitor : Type := mkMonitor {
  m_id : Id;
  m_name : jsstring;
  keywords : list jsstring;
  sentimentThreshold : Q;
  viralityThreshold : Q
}.

(** A row of the evidence store. *)
Record ScrapedItem : Type := mkScrapedItem {
  s_id : Id;
  s_url : jsstring;
  s_title : option jsstring;
  credibility : option Q
}.

(** ** External collaborators *)

(** The two evidence queries of the service, with their [take]. *)
Inductive ScrapedQuery : Type :=
| ByBrandKeyword (brandId : Id) (keyword : jsstring) (take : nat)
| ByIds (ids : list Id) (take : nat).

Definition query_take (q : ScrapedQuery) : nat :=
  match q with
  | ByBrandKeyword _ _ n => n
  | ByIds _ n => n
  end.

(** The judgment oracle: a chat completion request and what comes back. *)
Record ChatMessage : Type := mkChatMessage {
  role : jsstring;
  content : jsstring
}.

Record ChatRequest : Type := mkChatRequest {
  model : jsstring;
  temperature : Q;
  messages : list ChatMessage
}.

Record Choice : Type := mkChoice {
  message_content : option jsstring
}.

Record ChatCompletion : Type := mkChatCompletion {
  choices : list Choice
}.

Inductive GroqOutcome : Type :=
| GroqRejects (e : JsError)
| GroqResolves (c : ChatCompletion).

(** The outbound request of the publisher and the platform's answer. *)
Record TweetPayload : Type := mkTweetPayload {
  text : jsstring;
  quote_tweet : jsstring;
  language : jsstring;
  is_konfam_response : bool
}.

Record HttpRequest : Type := mkHttpRequest {
  url : jsstring;
  method : jsstring;
  contentType : jsstring;
  body : TweetPayload
}.

Record HttpResponse : Type := mkHttpResponse {
  status : N;
  responseText : jsstring
}.

(** [res.ok]: a status in the range 200 to 299. *)
Definition ok (res : HttpResponse) : bool :=
  N.leb 200 (status res) && N.leb (status res) 299.

Inductive FetchOutcome : Type :=
| FetchRejects (e : JsError)
| FetchResolves (res : HttpResponse).

(** What the process is given from outside: the evidence store (read-only,
    already filtered and ordered as the query asks), the oracle, the target
    platform, the local sentiment lexicon, the random source, the clock and
    the environment variable of the platform's address. *)
Record Env : Type := mkEnv {
  evidence : ScrapedQuery -> list ScrapedItem;
  groq_create : ChatRequest -> GroqOutcome;
  fetch : HttpRequest -> FetchOutcome;
  sentiment_comparative : jsstring -> JsNum;
  Math_random : nat -> Q;
  now : Z;
  XCLONE_API_URL : option jsstring
}.

(** ** Notifications and jobs *)

Inductive WsPayload : Type :=
| ResponseReady (threatId responseId preview : jsstring) (confidence : JsNum)
    (sourcesUsed : list jsstring)
| ResponsePosted (responseId threatId : jsstring) (postedAt : Z)
| ResponseFailed (responseId threatId error : jsstring)
| VerificationNotice (threatId status message : jsstring).

Record WsEvent : Type := mkWsEvent {
  event : jsstring;
  payload : WsPayload
}.

Record Job : Type := mkJob {
  job_name : jsstring;
  job_threatId : Id;
  job_autopost : bool
}.

(** ** The state of the process *)

Record World : Type := mkWorld {
  detectedPosts : list DetectedPost;
  threats : list Threat;
  responses : list Response;
  brands : list Brand;
  monitors : list Monitor;
  wsBroadcast : bool;          (* is a broadcaster bound? *)
  emitted : list WsEvent;      (* what the bound broadcaster was given *)
  requests : list HttpRequest; (* the requests sent to the platform *)
  queued : list Job;           (* jobs added to the verification queue *)
  idCounter : N                (* source of generated row ids *)
}.

(** ** Computations that may throw *)

Inductive Result (A : Type) : Type :=
| Ok (a : A)
| Throw (e : JsError).
Arguments Ok {A} a.
Arguments Throw {A} e.

Definition M (A : Type) : Type := World -> Result A * World.

Definition ret {A} (a : A) : M A := fun w => (Ok a, w).
Definition throw {A} (e : JsError) : M A := fun w => (Throw e, w).

Definition bind {A B} (m : M A) (k : A -> M B) : M B :=
  fun w =>
    match m w with
    | (Ok a, w') => k a w'
    | (Throw e, w') => (Throw e, w')
    end.

(** [try { m } catch (err) { h err }]. *)
Definition try_catch {A} (m : M A) (h : JsError -> M A) : M A :=
  fun w =>
    match m w with
    | (Ok a, w') => (Ok a, w')
    | (Throw e, w') => h e w'
    end.

Declare Scope js_scope.
Delimit Scope js_scope with js.
Notation "x <- m ;; k" := (bind m (fun x => k))
  (at level 100, m at next level, right associativity) : js_scope.
Notation "m ;;; k" := (bind m (fun _ => k))
  (at level 100, right associativity) : js_scope.
Local Open Scope js_scope.

Definition get : M World := fun w => (Ok w, w).
Definition modify (f : World -> World) : M unit := fun w => (Ok tt, f w).

(** [await p] for an oracle call. *)
Definition await_groq (o : GroqOutcome) : M ChatCompletion :=
  match o with
  | GroqRejects e => throw e
  | GroqResolves c => ret c
  end.

(** The world once [wsBroadcast?.(event, payload)] has run: the event goes
    out when a broadcaster is bound, and nowhere otherwise. *)
Definition notify (ev : jsstring) (p : WsPayload) (w : World) : World :=
  if wsBroadcast w then
    mkWorld (detectedPosts w) (threats w) (responses w) (brands w)
      (monitors w) (wsBroadcast w) (emitted w ++ [mkWsEvent ev p])
      (requests w) (queued w) (idCounter w)
  else w.

(** [wsBroadcast?.(event, payload)]. *)
Definition broadcast (ev : jsstring) (p : WsPayload) : M unit :=
  modify (notify ev p).

Definition set_threats (f : list Threat -> list Threat) (w : World) : World :=
  mkWorld (detectedPosts w) (f (threats w)) (responses w) (brands w)
    (monitors w) (wsBroadcast w) (emitted w) (requests w) (queued w)
    (idCounter w).

Definition set_responses (f : list Response -> list Response) (w : World)
  : World :=
  mkWorld (detectedPosts w) (threats w) (f (responses w)) (brands w)
    (monitors w) (wsBroadcast w) (emitted w) (requests w) (queued w)
    (idCounter w).

Definition set_detectedPosts (f : list DetectedPost -> list DetectedPost)
  (w : World) : World :=
  mkWorld (f (detectedPosts w)) (threats w) (responses w) (brands w)
    (monitors w) (wsBroadcast w) (emitted w) (requests w) (queued w)
    (idCounter w).

(** A generated row id (the schema's [cuid()] default). *)
Definition freshId : M Id :=
  fun w =>
    (Ok (js "c" ++ decimal (idCounter w)),
     mkWorld (detectedPosts w) (threats w) (responses w) (brands w)
       (monitors w) (wsBroadcast w) (emitted w) (requests w) (queued w)
       (idCounter w + 1)).

(** The world once a request has left for the platform. *)
Definition sent (req : HttpRequest) (w : World) : World :=
  mkWorld (detectedPosts w) (threats w) (responses w) (brands w)
    (monitors w) (wsBroadcast w) (emitted w) (requests w ++ [req])
    (queued w) (idCounter w).

(** [await fetch(url, init)]: the request goes out, then the answer. *)
Definition do_fetch (env : Env) (req : HttpRequest) : M HttpResponse :=
  fun w =>
    match fetch env req with
    | FetchRejects e => (Throw e, sent req w)
    | FetchResolves res => (Ok res, sent req w)
    end.

(** [verificationQueue.add(name, data)]. *)
Definition queue_add (j : Job) : M unit :=
  modify (fun w =>
    mkWorld (detectedPosts w) (threats w) (responses w) (brands w)
      (monitors w) (wsBroadcast w) (emitted w) (requests w)
      (queued w ++ [j]) (idCounter w)).

(** [prisma.scrapedItem.findMany]: the matching rows in the order asked for,
    at most [take] of them. *)
Definition scrapedItem_findMany (env : Env) (q : ScrapedQuery)
  : list ScrapedItem :=
  firstn (query_take q) (evidence env q).

(** ** The database client

    Tables are lists of rows; unique keys pick the first matching row. *)

Definition PrismaValidationError (field : jsstring) : JsError :=
  mkError (js "PrismaClientValidationError")
    (js "Invalid value provided for argument " ++ field).

Definition PrismaNotFoundError : JsError :=
  mkError (js "PrismaClientKnownRequestError")
    (js "Record to update not found.").

(** The client checks its arguments when called: a column of type String
    takes a string and nothing else. *)
Definition expect_string (field : jsstring) (v : JsValue) : M jsstring :=
  match v with
  | JStr s => ret s
  | _ => throw (PrismaValidationError field)
  end.

Definition find_threat (id : Id) (w : World) : option Threat :=
  find (fun t => str_eqb (t_id t) id) (threats w).

Definition find_detectedPost (id : Id) (w : World) : option DetectedPost :=
  find (fun d => str_eqb (dp_id d) id) (detectedPosts w).

Definition find_brand (id : Id) (w : World) : option Brand :=
  find (fun b => str_eqb (b_id b) id) (brands w).

Definition find_monitor (id : Id) (w : World) : option Monitor :=
  find (fun m => str_eqb (m_id m) id) (monitors w).

Definition find_response (id : Id) (w : World) : option Response :=
  find (fun r => str_eqb (r_id r) id) (responses w).

Definition find_response_by_threat (threatId : Id) (w : World)
  : option Response :=
  find (fun r => str_eqb (r_threatId r) threatId) (responses w).

(** Replace the first row that satisfies [p] by its image under [f]. *)
Fixpoint update_first {A} (p : A -> bool) (f : A -> A) (l : list A) : list A :=
  match l with
  | [] => []
  | x :: r => if p x then f x :: r else x :: update_first p f r
  end.

(** [prisma.threat.findUnique({ where: { id }, include: { detectedPost } })] *)
Definition threat_findUnique (id : Id) : M (option Threat) :=
  w <- get ;; ret (find_threat id w).

(** Reading a required relation of a loaded row; a dangling reference
    surfaces as the TypeError of reading a property of [null]. *)
Definition relation {A} (name : jsstring) (o : option A) : M A :=
  match o with
  | Some a => ret a
  | None =>
      throw (TypeError (js "Cannot read properties of null (reading '"
                        ++ name ++ js "')"))
  end.

Definition set_verification (st : jsstring) (conf : JsNum) (sm : jsstring)
  (ids : list Id) (t : Threat) : Threat :=
  mkThreat (t_id t) (t_detectedPostId t) (t_brandId t) (t_monitorId t)
    (severity t) (threatType t) (t_status t) (threatScore t)
    (sentimentImpact t) (viralityImpact t) (credibilityImpact t)
    (analysisReasons t) (predictedReach t)
    (Some st) (Some conf) (Some sm) ids.

(** [prisma.threat.update({ where: { id }, data: { verification... } })];
    hands back the two strings it stored. *)
Definition threat_update_verification (id : Id) (st : JsValue) (conf : JsNum)
  (sm : JsValue) (ids : list Id) : M (jsstring * jsstring) :=
  st' <- expect_string (js "verificationStatus") st ;;
  sm' <- expect_string (js "verificationSummary") sm ;;
  w <- get ;;
  match find_threat id w with
  | None => throw PrismaNotFoundError
  | Some _ =>
      modify (set_threats
        (update_first (fun t => str_eqb (t_id t) id)
           (set_verification st' conf sm' ids))) ;;;
      ret (st', sm')
  end.

(** ** Verification: [verifyThreat] *)

Record VerifyResult : Type := mkVerifyResult {
  vr_verificationStatus : jsstring;
  vr_verificationConfidence : JsNum;
  vr_verificationSummary : jsstring;
  vr_evidenceIds : list Id
}.

Definition llm_model : jsstring := js "llama-3.3-70b-versatile".

Definition Q_of_option (d : Q) (o : option Q) : Q :=
  match o with Some q => q | None => d end.

(** [(s.credibility ?? 0.5) >= 0.7] *)
Definition is_credible (s : ScrapedItem) : bool :=
  Qle_bool (7 # 10) (Q_of_option (1 # 2) (credibility s)).

(** [`- ${s.title ?? s.url}`] *)
Definition headline (s : ScrapedItem) : jsstring :=
  js "- " ++ match s_title s with Some t => t | None => s_url s end.

Definition judge_request (claim headlines : jsstring) : ChatRequest :=
  mkChatRequest llm_model (2 # 10)
    [ mkChatMessage (js "system")
        (js "You judge whether a social claim is confirmed by the listed sources. Return JSON only.");
      mkChatMessage (js "user")
        (js "Claim: " ++ DQ ++ claim ++ DQ ++ NL ++ NL
         ++ js "Sources:" ++ NL ++ headlines ++ NL ++ NL
         ++ js "Return JSON:" ++ NL
         ++ js "{" ++ DQ ++ js "verdict" ++ DQ ++ js ":" ++ DQ
         ++ js "TRUE|FALSE|UNVERIFIED" ++ DQ ++ js ","
         ++ DQ ++ js "confidence" ++ DQ ++ js ":0-100,"
         ++ DQ ++ js "reason" ++ DQ ++ js ":" ++ DQ ++ js "short" ++ DQ
         ++ js "}" ++ NL) ].

(** [c.choices[0]?.message?.content?.trim()], [None] for [undefined]. *)
Definition first_content (c : ChatCompletion) : option jsstring :=
  match choices c with
  | [] => None
  | ch :: _ =>
      match message_content ch with
      | Some s => Some (trim s)
      | None => None
      end
  end.

(** [claim.split(/\s+/).filter(Boolean)[0] ?? ""] *)
Definition firstKeyword (claim : jsstring) : jsstring :=
  nth 0 (filter nonempty (split_ws claim)) [].

(** [credible.slice(0, 5).map(...).join("\n")] *)
Definition headlines_of (credible : list ScrapedItem) : jsstring :=
  join NL (List.map headline (firstn 5 credible)).

(** The summaries of the branches that do not use the oracle's words. *)
Definition NO_COVERAGE : jsstring :=
  js "No relevant coverage found among trusted sources.".
Definition NO_TRUSTED_OUTLET : jsstring :=
  js "No trusted outlet confirms this claim; appears unsubstantiated.".
Definition JUDGE_FALLBACK : jsstring := js "Judge fallback".
Definition JUDGE_SUMMARY : jsstring := js "LLM judge summary".

(** The three verification variables of [verifyThreat]. *)
Definition Verdict : Type := (JsValue * JsNum * JsValue)%type.

(** [judge.choices[0]?.message?.content?.trim() ?? ""] *)
Definition raw_of (completion : ChatCompletion) : jsstring :=
  match first_content completion with Some s => s | None => [] end.

(** The body of the [try] block around the oracle call. *)
Definition judge (env : Env) (claim headlines : jsstring) : M Verdict :=
  completion <- await_groq (groq_create env (judge_request claim headlines)) ;;
  match JSON_parse (raw_of completion) with
  | None => throw (SyntaxError (js "Unexpected token in JSON"))
  | Some parsed =>
      match get_prop parsed (js "verdict"),
            get_prop parsed (js "confidence"),
            get_prop parsed (js "reason") with
      | Some verdict, Some confidence, Some reason =>
          let verificationStatus := nullish_or verdict (JStr (js "UNVERIFIED")) in
          let verificationConfidence :=
            Math_max (num 0)
              (Math_min (num 100)
                 (let n := Number confidence in
                  if jn_truthy n then n else num 60)) in
          let verificationSummary := or_else reason (JStr JUDGE_SUMMARY) in
          ret (verificationStatus, verificationConfidence, verificationSummary)
      | _, _, _ =>
          throw (TypeError (js "Cannot read properties of null"))
      end
  end.

Definition verifyThreat (env : Env) (threatId : Id) : M VerifyResult :=
  found <- threat_findUnique threatId ;;
  match found with
  | None => throw (Error (js "Threat not found"))
  | Some threat =>
      w <- get ;;
      detectedPost <-
        relation (js "content") (find_detectedPost (t_detectedPostId threat) w) ;;
      let claim := dp_content detectedPost in
      let brandId := t_brandId threat in
      let scraped :=
        scrapedItem_findMany env
          (ByBrandKeyword brandId (firstKeyword claim) 15) in
      let credible := filter is_credible scraped in
      let evidenceIds := List.map s_id scraped in
      verdict <-
        (if Nat.eqb (List.length scraped) 0 then
           ret (JStr (js "UNVERIFIED"), num 35, JStr NO_COVERAGE)
         else if Nat.eqb (List.length credible) 0 then
           ret (JStr (js "FALSE"), num 80, JStr NO_TRUSTED_OUTLET)
         else
           try_catch (judge env claim (headlines_of credible))
             (fun _ =>
                ret (JStr (js "UNVERIFIED"), num 60, JStr JUDGE_FALLBACK))) ;;
      let '(verificationStatus, verificationConfidence, verificationSummary) :=
        verdict in
      stored <-
        threat_update_verification threatId verificationStatus
          verificationConfidence verificationSummary evidenceIds ;;
      ret (mkVerifyResult (fst stored) verificationConfidence (snd stored)
             evidenceIds)
  end.

(** The evidence [verifyThreat] retrieves for a threat and its post. *)
Definition scraped_for (env : Env) (threat : Threat) (dp : DetectedPost)
  : list ScrapedItem :=
  scrapedItem_findMany env
    (ByBrandKeyword (t_brandId threat) (firstKeyword (dp_content dp)) 15).

(** The oracle call fails or its output is unusable: the call rejects, or
    the text that comes back is not JSON, or is the JSON text [null]. *)
Definition judge_unusable (env : Env) (claim headlines : jsstring) : bool :=
  match groq_create env (judge_request claim headlines) with
  | GroqRejects _ => true
  | GroqResolves c =>
      match JSON_parse (raw_of c) with
      | None | Some JNull => true
      | Some _ => false
      end
  end.

(** The oracle's output is JSON, but without any of the three members
    asked for: an empty object, or a value that is not an object. *)
Definition judge_incomplete (env : Env) (claim headlines : jsstring) : bool :=
  match groq_create env (judge_request claim headlines) with
  | GroqRejects _ => false
  | GroqResolves c =>
      match JSON_parse (raw_of c) with
      | None => false
      | Some parsed =>
          match get_prop parsed (js "verdict"),
                get_prop parsed (js "confidence"),
                get_prop parsed (js "reason") with
          | Some None, Some None, Some None => true
          | _, _, _ => false
          end
      end
  end.

(** The world once a verification result is stored on threat [threatId]. *)
Definition verified_as (threatId : Id) (v : VerifyResult) (w : World) : World :=
  set_threats
    (update_first (fun t => str_eqb (t_id t) threatId)
       (set_verification (vr_verificationStatus v)
          (vr_verificationConfidence v) (vr_verificationSummary v)
          (vr_evidenceIds v)))
    w.

(** The Threat row [threatId] of [w] carries the verification result [v]. *)
Definition stores (threatId : Id) (v : VerifyResult) (w : World) : Prop :=
  exists t,
    find_threat threatId w = Some t
    /\ verificationStatus t = Some (vr_verificationStatus v)
    /\ verificationConfidence t = Some (vr_verificationConfidence v)
    /\ verificationSummary t = Some (vr_verificationSummary v)
    /\ verificationEvidenceIds t = vr_evidenceIds v.

(** ** Synthesis: [generateResponseForFalse] *)

Definition ELLIPSIS : jsstring := [8230].

Definition correction_request (brandName claim : jsstring) : ChatRequest :=
  mkChatRequest llm_model (2 # 10)
    [ mkChatMessage (js "system")
        (js "Write a short, calm, factual brand correction (2" ++ [8211]
         ++ js "3 sentences). No insults. No speculation. Do NOT include sources. Return plain text only.");
      mkChatMessage (js "user")
        (js "Brand: " ++ brandName ++ NL
         ++ js "Claim: " ++ DQ ++ claim ++ DQ ++ NL ++ NL
         ++ js "Write a concise correction that clearly states the claim is false. No more than 450 characters. Return *only* the correction text.") ].

(** [`<li><a href="${src}" target="_blank">${src}</a></li>`] *)
Definition source_item (src : jsstring) : jsstring :=
  js "<li><a href=" ++ DQ ++ src ++ DQ ++ js " target=" ++ DQ ++ js "_blank"
  ++ DQ ++ js ">" ++ src ++ js "</a></li>".

Definition verifiedSourcesHTML (sourcesUsed : list jsstring) : jsstring :=
  if Nat.ltb 0 (List.length sourcesUsed) then
    js "<ul>" ++ join [] (List.map source_item sourcesUsed) ++ js "</ul>"
  else js "<p>No verified press sources available yet.</p>".

(** The character budget of the correction text. *)
Definition MAX_CHARS : nat := 580.

(** [if (rawContent.length > 580) rawContent = rawContent.slice(0, 580) + "…"] *)
Definition enforce_limit (rawContent : jsstring) : jsstring :=
  if Nat.ltb MAX_CHARS (List.length rawContent) then
    slice0 MAX_CHARS rawContent ++ ELLIPSIS
  else rawContent.

Definition style_attr : jsstring :=
  js "style=" ++ DQ ++ js "color:#007bff;font-weight:600;" ++ DQ.

(** What follows the correction paragraph in the stored HTML, up to the
    sources block. *)
Definition footer : jsstring :=
  js "</p>" ++ NL ++ NL ++ js "<br/>" ++ NL ++ NL
  ++ js "<p>" ++ NL
  ++ js "  For instant support, please chat with " ++ NL
  ++ js "  <span " ++ style_attr ++ js ">Zenith Bank" ++ [8217]
  ++ js "s official assistant, ZiVA</span>," ++ NL
  ++ js "  on WhatsApp at " ++ NL
  ++ js "  <a href=" ++ DQ ++ js "https://wa.me/2347040004422" ++ DQ
  ++ js " " ++ style_attr ++ js ">" ++ NL
  ++ js "    07040004422" ++ NL
  ++ js "  </a>." ++ NL
  ++ js "</p>" ++ NL ++ NL ++ js "<br/>" ++ NL ++ NL
  ++ js "<h4>Verified Sources</h4>" ++ NL.

(** The template literal of [htmlContent], before its [.trim()]. *)
Definition html_template (rawContent sources : jsstring) : jsstring :=
  NL ++ js "<p>" ++ rawContent ++ footer ++ sources ++ NL ++ js "  ".

Definition htmlContent (rawContent sources : jsstring) : jsstring :=
  trim (html_template rawContent sources).

Definition fallback_correction (brandName : jsstring) : jsstring :=
  brandName ++ js ": This claim is incorrect. Operations remain normal.".

(** [completion.choices[0]?.message?.content?.trim() || fallback] *)
Definition rawContent_of (completion : ChatCompletion) (brandName : jsstring)
  : jsstring :=
  match first_content completion with
  | Some s => if nonempty s then s else fallback_correction brandName
  | None => fallback_correction brandName
  end.

Definition num_or (d : JsNum) (o : option JsNum) : JsNum :=
  match o with Some n => n | None => d end.

Definition set_response_content (c : jsstring) (srcs : list jsstring)
  (conf : JsNum) (r : Response) : Response :=
  mkResponse (r_id r) (r_threatId r) (r_platform r) c srcs conf PENDING true
    (postedAt r).

(** [prisma.response.upsert({ where: { threatId }, update, create })] *)
Definition response_upsert (threatId : Id) (platform : jsstring)
  (c : jsstring) (srcs : list jsstring) (conf : JsNum) : M Response :=
  w <- get ;;
  match find_response_by_threat threatId w with
  | Some r =>
      let r' := set_response_content c srcs conf r in
      modify (set_responses
        (update_first (fun x => str_eqb (r_threatId x) threatId)
           (set_response_content c srcs conf))) ;;;
      ret r'
  | None =>
      id <- freshId ;;
      let r' := mkResponse id threatId platform c srcs conf PENDING true None in
      modify (set_responses (fun l => l ++ [r'])) ;;;
      ret r'
  end.

Definition generateResponseForFalse (env : Env) (threatId : Id) : M Response :=
  found <- threat_findUnique threatId ;;
  match found with
  | None => throw (Error (js "Threat not found"))
  | Some threat =>
      w <- get ;;
      detectedPost <-
        relation (js "content") (find_detectedPost (t_detectedPostId threat) w) ;;
      brand <- relation (js "name") (find_brand (t_brandId threat) w) ;;
      let claim := dp_content detectedPost in
      let brandName := b_name brand in
      let evidence :=
        scrapedItem_findMany env (ByIds (verificationEvidenceIds threat) 3) in
      let sourcesUsed := List.map s_url evidence in
      let sources := verifiedSourcesHTML sourcesUsed in
      completion <-
        await_groq (groq_create env (correction_request brandName claim)) ;;
      let rawContent := enforce_limit (rawContent_of completion brandName) in
      let html := htmlContent rawContent sources in
      response <-
        response_upsert threatId (dp_platform detectedPost) html sourcesUsed
          (num_or (num 80) (verificationConfidence threat)) ;;
      broadcast (js "response_ready")
        (ResponseReady threatId (r_id response) (slice0 240 rawContent)
           (r_confidence response) sourcesUsed) ;;;
      ret response
  end.

(** ** Publication: [postResponseToXClone] *)

Definition set_response_status (st : ResponseStatus) (at_ : option Z)
  (r : Response) : Response :=
  mkResponse (r_id r) (r_threatId r) (r_platform r) (r_content r)
    (r_sourcesUsed r) (r_confidence r) st (autoGenerated r)
    (match at_ with Some z => Some z | None => postedAt r end).

(** The world once the Response [id] has its status (and time) set. *)
Definition mark_response (id : Id) (st : ResponseStatus) (at_ : option Z)
  (w : World) : World :=
  set_responses
    (update_first (fun r => str_eqb (r_id r) id) (set_response_status st at_))
    w.

(** [prisma.response.update({ where: { id }, data: { status, postedAt? } })] *)
Definition response_update (id : Id) (st : ResponseStatus) (at_ : option Z)
  : M unit :=
  w <- get ;;
  match find_response id w with
  | None => throw PrismaNotFoundError
  | Some _ => modify (mark_response id st at_)
  end.

(** [`${process.env.XCLONE_API_URL}/api/twitter/tweets`] *)
Definition tweets_url (env : Env) : jsstring :=
  match XCLONE_API_URL env with Some u => u | None => js "undefined" end
  ++ js "/api/twitter/tweets".

(** [!detectedPostId] *)
Definition missing (o : option jsstring) : bool :=
  match o with
  | None => true
  | Some s => negb (nonempty s)
  end.

(** The request of the publisher: the payload
    [{ text: `@${authorHandle} ${content}`, quote_tweet, language,
       is_konfam_response }] posted as JSON to the tweets endpoint. *)
Definition tweet_request (env : Env) (authorHandle content ext : jsstring)
  : HttpRequest :=
  mkHttpRequest (tweets_url env) (js "POST") (js "application/json")
    (mkTweetPayload (js "@" ++ authorHandle ++ js " " ++ content) ext
       (js "ENGLISH") true).

Definition postResponseToXClone (env : Env) (responseId : Id) : M unit :=
  w <- get ;;
  match find_response responseId w with
  | None => throw (Error (js "Response not found"))
  | Some response =>
      let threatId := r_threatId response in
      target <-
        match find_threat threatId w with
        | None => ret None
        | Some threat =>
            dp <- relation (js "externalPostId")
                    (find_detectedPost (t_detectedPostId threat) w) ;;
            ret (Some dp)
        end ;;
      let detectedPostId :=
        match target with Some dp => externalPostId dp | None => None end in
      let authorHandle :=
        match target with
        | Some dp => authorHandle dp
        | None => js "undefined"
        end in
      if missing detectedPostId then
        throw (Error (js "Detected post not found for threat"))
      else
        let req :=
          tweet_request env authorHandle (r_content response)
            (match detectedPostId with Some ext => ext | None => [] end) in
        try_catch
          (res <- do_fetch env req ;;
           let text := responseText res in
           (if negb (ok res)
            then throw (Error (js "X-clone response: " ++ text))
            else ret tt) ;;;
           response_update responseId POSTED (Some (now env)) ;;;
           broadcast (js "response_posted")
             (ResponsePosted responseId (r_threatId response) (now env)))
          (fun err =>
             response_update responseId FAILED None ;;;
             broadcast (js "response_failed")
               (ResponseFailed responseId (r_threatId response)
                  (err_message err)) ;;;
             throw err)
  end.

(** ** The orchestrated chain: [handleThreatVerifyRespond] *)

Record HandleResult : Type := mkHandleResult {
  verified : bool;
  action : jsstring;
  hr_responseId : option Id;
  hr_status : option jsstring
}.

Definition CHECK_MARK : jsstring := [9989].
Definition EM_DASH : jsstring := [8212].

Definition handleThreatVerifyRespond (env : Env) (threatId : Id)
  (autopost : bool) : M HandleResult :=
  v <- verifyThreat env threatId ;;
  let verificationStatus := vr_verificationStatus v in
  if str_eqb verificationStatus (js "FALSE")
     || str_eqb verificationStatus (js "UNVERIFIED") then
    resp <- generateResponseForFalse env threatId ;;
    (if autopost then postResponseToXClone env (r_id resp) else ret tt) ;;;
    ret (mkHandleResult false (js "responded") (Some (r_id resp)) None)
  else
    broadcast (js "verification_complete")
      (VerificationNotice threatId (js "VERIFIED_TRUE")
         (CHECK_MARK ++ js " Verified as true " ++ EM_DASH
          ++ js " no response needed")) ;;;
    ret (mkHandleResult true (js "no_response_needed") None
           (Some verificationStatus)).

(** ** Detection: [detectAndStorePost] *)

Record PostData : Type := mkPostData {
  pd_monitorId : Id;
  pd_brandId : Id;
  pd_externalPostId : jsstring;
  pd_platform : jsstring;
  pd_content : jsstring;
  pd_authorHandle : jsstring;
  pd_authorId : option jsstring;
  pd_likeCount : Z;
  pd_retweetCount : Z;
  pd_replyCount : Z;
  pd_viewCount : Z;
  pd_postedAt : Z
}.

Definition sentiment_request (content : jsstring) : ChatRequest :=
  mkChatRequest llm_model (2 # 10)
    [ mkChatMessage (js "system")
        (js "You are a precise and concise sentiment analysis model.");
      mkChatMessage (js "user")
        (NL
         ++ js "You are an AI sentiment analysis engine for brand reputation monitoring."
         ++ NL
         ++ js "Analyze the following post and return a valid JSON exactly in this format:"
         ++ NL ++ js "{" ++ NL
         ++ js "  " ++ DQ ++ js "sentimentScore" ++ DQ ++ js ": -0.8," ++ NL
         ++ js "  " ++ DQ ++ js "tone" ++ DQ ++ js ": " ++ DQ ++ js "ANGER" ++ DQ
         ++ js "," ++ NL
         ++ js "  " ++ DQ ++ js "summary" ++ DQ ++ js ": " ++ DQ
         ++ js "User is frustrated about Zenith Bank app downtime." ++ DQ ++ NL
         ++ js "}" ++ NL ++ NL
         ++ js "Text: " ++ DQ ++ DQ ++ DQ ++ content ++ DQ ++ DQ ++ DQ ++ NL) ].

(** The three sentiment variables of [detectAndStorePost]. *)
Definition Sentiment : Type := (JsNum * JsValue * JsValue)%type.

(** [Math.max(-1, Math.min(1, x))] *)
Definition clamp_polarity (x : JsNum) : JsNum :=
  Math_max (num (-1)) (Math_min (num 1) x).

(** The body of the inner [try]: the oracle's reading of the post. *)
Definition groq_sentiment (env : Env) (content : jsstring) : M Sentiment :=
  response <- await_groq (groq_create env (sentiment_request content)) ;;
  match first_content response with
  | None | Some [] => throw (Error (js "Empty Groq response"))
  | Some raw =>
      match JSON_parse raw with
      | None => throw (SyntaxError (js "Unexpected token in JSON"))
      | Some parsed =>
          match get_prop parsed (js "sentimentScore"),
                get_prop parsed (js "tone"),
                get_prop parsed (js "summary") with
          | Some score, Some tone, Some summary =>
              ret (clamp_polarity (Number score),
                   or_else tone (JStr (js "NEUTRAL")),
                   or_else summary (JStr (js "No summary provided.")))
          | _, _, _ =>
              throw (TypeError (js "Cannot read properties of null"))
          end
      end
  end.

(** The [catch] of the inner [try]: the local lexicon and its tone bands. *)
Definition local_sentiment (env : Env) (content : jsstring) : Sentiment :=
  let sentimentScore := clamp_polarity (sentiment_comparative env content) in
  let sentimentTone :=
    if jn_lt sentimentScore (Fin (- (4 # 10))) then js "ANGER"
    else if jn_lt sentimentScore (Fin (- (2 # 10))) then js "CONCERN"
    else if jn_lt sentimentScore (Fin (2 # 10)) then js "NEUTRAL"
    else js "POSITIVE" in
  (sentimentScore, JStr sentimentTone,
   JStr (js "Local sentiment fallback used (Groq unavailable).")).

(** *** Virality estimation *)

Definition totalEngagement (data : PostData) : Z :=
  (pd_likeCount data + pd_retweetCount data + pd_replyCount data)%Z.

(** [data.viewCount > 0 ? totalEngagement / data.viewCount : 0] *)
Definition engagementRate (data : PostData) : Q :=
  if (0 <? pd_viewCount data)%Z then
    (inject_Z (totalEngagement data) / inject_Z (pd_viewCount data))%Q
  else 0%Q.

(** [Math.min(100, engagementRate * 100 * (1 + data.retweetCount * 0.5))] *)
Definition viralScore (data : PostData) : Q :=
  let x :=
    (engagementRate data * 100
     * (1 + inject_Z (pd_retweetCount data) * (5 # 10)))%Q in
  if Qle_bool 100 x then 100%Q else x.

(** The virality score as the specification words it:
    [min(100, engagementRate * 100 * (1 + retweetCount * 0.5))] with
    [engagementRate = (likes + retweets + replies) / max(views, 1)]. *)
Definition spec_engagementRate (data : PostData) : Q :=
  (inject_Z (totalEngagement data) / inject_Z (Z.max (pd_viewCount data) 1))%Q.

Definition spec_viralScore (data : PostData) : Q :=
  Qmin 100
    (spec_engagementRate data * 100
     * (1 + inject_Z (pd_retweetCount data) * (5 # 10)))%Q.

(** *** Threat scoring *)

Definition threatScore_of (sentimentScore : JsNum) (viral : Q)
  (keywordTrigger : bool) : JsNum :=
  Math_min (num 100)
    (jn_add
       (jn_add (Math_abs (jn_mul sentimentScore (num 60)))
          (Fin (viral * (8 # 10))))
       (if keywordTrigger then num 10 else num 0)).

Definition severity_of (score : JsNum) : ThreatSeverity :=
  if jn_ge score (num 80) then CRITICAL
  else if jn_ge score (num 60) then HIGH
  else if jn_ge score (num 40) then MEDIUM
  else LOW.

Definition threatType_of (sentimentTrigger keywordTrigger viralityTrigger : bool)
  : ThreatType :=
  if sentimentTrigger && keywordTrigger then NEGATIVE_SENTIMENT
  else if viralityTrigger then VIRAL_RISK
  else CRISIS.

(** *** The two upserts *)

Definition same_post (ext platform : jsstring) (d : DetectedPost) : bool :=
  match externalPostId d with
  | Some e => str_eqb e ext && str_eqb (dp_platform d) platform
  | None => false
  end.

Definition detectedPost_update (data : PostData) (polarity : JsNum)
  (tone : jsstring) (matched : list jsstring) (triggered : bool)
  (reason : option jsstring) (captured : Z) (d : DetectedPost) : DetectedPost :=
  mkDetectedPost (dp_id d) (dp_monitorId d) (dp_brandId d) (externalPostId d)
    (dp_platform d) (pd_content data) (authorHandle d) (authorId d)
    (pd_likeCount data) (pd_retweetCount data) (pd_replyCount data)
    (pd_viewCount data) (Fin (viralScore data)) (Fin (engagementRate data))
    polarity tone matched (dp_postedAt d) captured triggered reason.

Definition detectedPost_create (id : Id) (data : PostData) (polarity : JsNum)
  (tone : jsstring) (matched : list jsstring) (triggered : bool)
  (captured : Z) : DetectedPost :=
  mkDetectedPost id (pd_monitorId data) (pd_brandId data)
    (Some (pd_externalPostId data)) (pd_platform data) (pd_content data)
    (pd_authorHandle data) (pd_authorId data)
    (pd_likeCount data) (pd_retweetCount data) (pd_replyCount data)
    (pd_viewCount data) (Fin (viralScore data)) (Fin (engagementRate data))
    polarity tone matched (pd_postedAt data) captured triggered None.

(** [prisma.detectedPost.upsert({ where: { externalPostId_platform }, ... })] *)
Definition detectedPost_upsert (data : PostData) (polarity : JsNum)
  (tone : JsValue) (matched : list jsstring) (triggered : bool)
  (reason : option jsstring) (captured : Z) : M DetectedPost :=
  tone' <- expect_string (js "emotionalTone") tone ;;
  w <- get ;;
  let p := same_post (pd_externalPostId data) (pd_platform data) in
  match find p (detectedPosts w) with
  | Some d =>
      let upd :=
        detectedPost_update data polarity tone' matched triggered reason
          captured in
      modify (set_detectedPosts (update_first p upd)) ;;;
      ret (upd d)
  | None =>
      id <- freshId ;;
      let d :=
        detectedPost_create id data polarity tone' matched triggered captured in
      modify (set_detectedPosts (fun l => l ++ [d])) ;;;
      ret d
  end.

(** The scalar part of the threat's [update] and [create] data. *)
Record ThreatData : Type := mkThreatData {
  td_severity : ThreatSeverity;
  td_threatType : ThreatType;
  td_threatScore : JsNum;
  td_sentimentImpact : JsNum;
  td_viralityImpact : JsNum;
  td_analysisReasons : list jsstring
}.

(** The [update] branch: [{ severity, threatType, threatScore, ...,
    analysisReasons, status: ThreatStatus.NEW }]. *)
Definition threat_update (td : ThreatData) (credibilityImpact : JsNum)
  (t : Threat) : Threat :=
  mkThreat (t_id t) (t_detectedPostId t) (t_brandId t) (t_monitorId t)
    (td_severity td) (td_threatType td) NEW (td_threatScore td)
    (td_sentimentImpact td) (td_viralityImpact td) credibilityImpact
    (td_analysisReasons td) (predictedReach t)
    (verificationStatus t) (verificationConfidence t)
    (verificationSummary t) (verificationEvidenceIds t).

(** The [create] branch: [{ detectedPostId, brandId, monitorId, severity,
    threatType, status: ThreatStatus.NEW, ..., predictedReach }]. *)
Definition threat_create (id detectedPostId brandId monitorId : Id)
  (td : ThreatData) (credibilityImpact : JsNum) (reach : Z) : Threat :=
  mkThreat id detectedPostId brandId monitorId
    (td_severity td) (td_threatType td) NEW (td_threatScore td)
    (td_sentimentImpact td) (td_viralityImpact td) credibilityImpact
    (td_analysisReasons td) reach None None None [].

(** [prisma.threat.upsert({ where: { detectedPostId }, update, create })] *)
Definition threat_upsert (detectedPostId brandId monitorId : Id)
  (td : ThreatData) (credUpdate credCreate : JsNum) (reach : Z) : M Threat :=
  w <- get ;;
  let p := fun t => str_eqb (t_detectedPostId t) detectedPostId in
  match find p (threats w) with
  | Some t =>
      modify (set_threats (update_first p (threat_update td credUpdate))) ;;;
      ret (threat_update td credUpdate t)
  | None =>
      id <- freshId ;;
      let t :=
        threat_create id detectedPostId brandId monitorId td credCreate reach in
      modify (set_threats (fun l => l ++ [t])) ;;;
      ret t
  end.

(** [50 + Math.random() * 30], for the [k]-th draw. *)
Definition credibility_draw (env : Env) (k : nat) : JsNum :=
  Fin (50 + Math_random env k * 30).

Definition flag_reason (sentimentTrigger viralityTrigger : bool) : jsstring :=
  js "Triggered by "
  ++ (if sentimentTrigger then js "sentiment"
      else if viralityTrigger then js "virality"
      else js "keywords").

Definition detectAndStorePost (env : Env) (data : PostData)
  : M (option Threat) :=
  let content := pd_content data in
  try_catch
    (sentiment <-
       try_catch (groq_sentiment env content)
         (fun _ => ret (local_sentiment env content)) ;;
     let '(sentimentScore, sentimentTone, sentimentSummary) := sentiment in
     let viral := viralScore data in
     w <- get ;;
     match find_monitor (pd_monitorId data) w with
     | None => ret None
     | Some monitor =>
         let lower := toLowerCase content in
         let matched :=
           filter (fun kw => includes lower (toLowerCase kw)) (keywords monitor) in
         let sentimentTrigger :=
           jn_le sentimentScore (Fin (sentimentThreshold monitor)) in
         let viralityTrigger := Qle_bool (viralityThreshold monitor) viral in
         let keywordTrigger := Nat.ltb 0 (List.length matched) in
         let triggered := sentimentTrigger || viralityTrigger || keywordTrigger in
         detectedPost <-
           detectedPost_upsert data sentimentScore sentimentTone matched
             triggered
             (if triggered
              then Some (flag_reason sentimentTrigger viralityTrigger)
              else None)
             (now env) ;;
         if triggered then
           let score := threatScore_of sentimentScore viral keywordTrigger in
           summary <- expect_string (js "analysisReasons") sentimentSummary ;;
           let reasons :=
             matched
             ++ [emotionalTone detectedPost ++ js " tone detected"; summary] in
           let td :=
             mkThreatData (severity_of score)
               (threatType_of sentimentTrigger keywordTrigger viralityTrigger)
               score (Math_abs (jn_mul sentimentScore (num 100))) (Fin viral)
               reasons in
           createdThreat <-
             threat_upsert (dp_id detectedPost) (pd_brandId data)
               (pd_monitorId data) td
               (credibility_draw env 0) (credibility_draw env 1)
               (pd_viewCount data) ;;
           queue_add (mkJob (js "verify-one") (t_id createdThreat) false) ;;;
           ret (Some createdThreat)
         else ret None
     end)
    (fun _ => ret None).

(** ** The verification worker and its queue *)

Inductive JobReturn : Type :=
| JobOk (result : option HandleResult)   (* [{ ok: true, result }] *)
| JobError (error : jsstring).           (* [{ error: err.message }] *)

Definition WARNING_SIGN : jsstring := [9888; 65039].
Definition CROSS_MARK : jsstring := [10060].

(** The processor of [verificationWorker]. *)
Definition verificationWorker (env : Env) (job : Job) : M JobReturn :=
  if str_eqb (job_name job) (js "verify-one") then
    let threatId := job_threatId job in
    try_catch
      (result <- handleThreatVerifyRespond env threatId (job_autopost job) ;;
       (if verified result then
          broadcast (js "verification_complete")
            (VerificationNotice threatId (js "VERIFIED_TRUE")
               (CHECK_MARK ++ js " Verified as true information"))
        else
          broadcast (js "verification_complete")
            (VerificationNotice threatId (js "MISINFORMATION")
               (WARNING_SIGN ++ js " Misinformation detected " ++ EM_DASH
                ++ js " AI response generated"))) ;;;
       ret (JobOk (Some result)))
      (fun err =>
         broadcast (js "verification_failed")
           (VerificationNotice threatId (js "ERROR")
              (CROSS_MARK ++ js " Verification failed: " ++ err_message err)) ;;;
         ret (JobError (err_message err)))
  else ret (JobOk None).

(** [defaultJobOptions] of [verificationQueue]:
    [attempts: 3, backoff: { type: "exponential", delay: 3000 }]. *)
Record JobOptions : Type := mkJobOptions {
  attempts : nat;
  backoff_delay : N
}.

Definition defaultJobOptions : JobOptions := mkJobOptions 3 3000.

(** How the queue library treats a processor: a returned value completes
    the job; a thrown error counts one attempt, and the job runs again after
    [delay * 2 ^ (attemptsMade - 1)] milliseconds while attempts remain, and
    fails for good once they are used up. *)
Inductive JobFinal : Type :=
| Completed (r : JobReturn)
| Failed (e : JsError).

Record JobRun : Type := mkJobRun {
  final : JobFinal;
  attemptsMade : nat;
  delays : list N
}.

Fixpoint run_attempts (processor : M JobReturn) (opts : JobOptions)
  (remaining made : nat) (w : World) : JobRun * World :=
  match processor w with
  | (Ok r, w') => (mkJobRun (Completed r) (S made) [], w')
  | (Throw e, w') =>
      match remaining with
      | O => (mkJobRun (Failed e) (S made) [], w')
      | S k =>
          let '(run, w'') := run_attempts processor opts k (S made) w' in
          (mkJobRun (final run) (attemptsMade run)
             (backoff_delay opts * 2 ^ N.of_nat made :: delays run), w'')
      end
  end.

(** One job of [verificationQueue], from its first run to its final state. *)
Definition process_job (env : Env) (job : Job) (w : World) : JobRun * World :=
  run_attempts (verificationWorker env job) defaultJobOptions
    (attempts defaultJobOptions - 1) 0 w.

(** ** Detection, by its parts

    The sentiment stage and the trigger conditions of [detectAndStorePost],
    under the names the service gives them. *)

(** The inner [try] with its [catch]: the oracle's reading of the post, or
    the local one. *)
Definition sentiment_stage (env : Env) (content : jsstring) : M Sentiment :=
  try_catch (groq_sentiment env content)
    (fun _ => ret (local_sentiment env content)).

(** [monitor.keywords.filter((kw) => lower.includes(kw.toLowerCase()))] *)
Definition matched_of (monitor : Monitor) (content : jsstring) : list jsstring :=
  filter (fun kw => includes (toLowerCase content) (toLowerCase kw))
    (keywords monitor).

(** [sentimentScore <= monitor.sentimentThreshold] *)
Definition sentimentTrigger (monitor : Monitor) (sentimentScore : JsNum) : bool :=
  jn_le sentimentScore (Fin (sentimentThreshold monitor)).

(** [viralScore >= monitor.viralityThreshold] *)
Definition viralityTrigger (monitor : Monitor) (data : PostData) : bool :=
  Qle_bool (viralityThreshold monitor) (viralScore data).

(** [matchedKeywords.length > 0] *)
Definition keywordTrigger (monitor : Monitor) (content : jsstring) : bool :=
  Nat.ltb 0 (List.length (matched_of monitor content)).

(** [sentimentTrigger || viralityTrigger || keywordTrigger] *)
Definition triggered (monitor : Monitor) (sentimentScore : JsNum)
  (data : PostData) : bool :=
  sentimentTrigger monitor sentimentScore || viralityTrigger monitor data
  || keywordTrigger monitor (pd_content data).

(** The [flagReason] written with the post. *)
Definition reason_of (monitor : Monitor) (sentimentScore : JsNum)
  (data : PostData) : option jsstring :=
  if triggered monitor sentimentScore data
  then Some (flag_reason (sentimentTrigger monitor sentimentScore)
               (viralityTrigger monitor data))
  else None.

(** The scalar data of the threat written for a triggered post. *)
Definition threat_data (monitor : Monitor) (sentimentScore : JsNum)
  (tone summary : jsstring) (data : PostData) : ThreatData :=
  let score :=
    threatScore_of sentimentScore (viralScore data)
      (keywordTrigger monitor (pd_content data)) in
  mkThreatData (severity_of score)
    (threatType_of (sentimentTrigger monitor sentimentScore)
       (keywordTrigger monitor (pd_content data))
       (viralityTrigger monitor data))
    score (Math_abs (jn_mul sentimentScore (num 100)))
    (Fin (viralScore data))
    (matched_of monitor (pd_content data)
     ++ [tone ++ js " tone detected"; summary]).

(** The world once a job has been added to the verification queue. *)
Definition enqueued (j : Job) (w : World) : World :=
  mkWorld (detectedPosts w) (threats w) (responses w) (brands w)
    (monitors w) (wsBroadcast w) (emitted w) (requests w)
    (queued w ++ [j]) (idCounter w).

(** From [w] to [w'] the broadcaster binding is the same, and with no
    broadcaster bound nothing was emitted. *)
Definition unheard (w w' : World) : Prop :=
  wsBroadcast w' = wsBroadcast w
  /\ (wsBroadcast w = false -> emitted w' = emitted w).

(** ** The detection worker of the application

    The processor of the [detection-jobs] queue: a post from the stream is
    run through [detectAndStorePost] once for every active monitor one of
    whose keywords it contains. *)

(** A post as the stream consumer puts it on the queue. *)
Record StreamPost : Type := mkStreamPost {
  sp_externalPostId : jsstring;
  sp_platform : jsstring;
  sp_content : jsstring;
  sp_authorHandle : jsstring;
  sp_authorId : option jsstring;
  sp_likeCount : Z;
  sp_retweetCount : Z;
  sp_replyCount : Z;
  sp_viewCount : Z;
  sp_postedAt : Z
}.

(** A row of [prisma.monitor.findMany({ where: { isActive: true },
    include: { brand: true } })]: a monitor, the id of its brand and the
    brand itself.  The rows are handed to the processor; which monitors are
    active is the database's business. *)
Record ActiveMonitor : Type := mkActiveMonitor {
  am_monitor : Monitor;
  am_brandId : Id;
  am_brand : Brand
}.

(** The payload of a [post_analyzed] event, which the application sends to
    its dashboard clients itself. *)
Record PostAnalyzed : Type := mkPostAnalyzed {
  pa_author : jsstring;
  pa_snippet : jsstring;
  pa_brand : jsstring
}.

(** What the processor returns: nothing, or [{ status: "done" }]. *)
Inductive DetectionReturn : Type :=
| ReturnsUndefined
| StatusDone.

(** [monitor.keywords.some((k) => lower.includes(k.toLowerCase()))] *)
Definition keyword_match (post : StreamPost) (monitor : ActiveMonitor) : bool :=
  existsb (fun k => includes (toLowerCase (sp_content post)) (toLowerCase k))
    (keywords (am_monitor monitor)).

(** Text in ASCII: every code unit is below 128.  On such text
    [String.prototype.toLowerCase] changes the letters A to Z and nothing
    else, which is what [toLowerCase] does here; what is stated about the
    keyword match is stated for such text. *)
Definition is_ascii (s : jsstring) : bool :=
  forallb (fun c => N.ltb c 128) s.

(** The content of the post and the keywords of the monitors are ASCII. *)
Definition ascii_match_text (post : StreamPost)
  (monitors : list ActiveMonitor) : bool :=
  is_ascii (sp_content post)
  && forallb (fun m => forallb is_ascii (keywords (am_monitor m))) monitors.

(** The argument of [detectAndStorePost] for a post and a monitor. *)
Definition post_data (monitor : ActiveMonitor) (post : StreamPost) : PostData :=
  mkPostData (m_id (am_monitor monitor)) (am_brandId monitor)
    (sp_externalPostId post) (sp_platform post) (sp_content post)
    (sp_authorHandle post) (sp_authorId post)
    (sp_likeCount post) (sp_retweetCount post) (sp_replyCount post)
    (sp_viewCount post) (sp_postedAt post).

Definition verify_job (t : Threat) : Job :=
  mkJob (js "verify-one") (t_id t) false.

(** The [post_analyzed] event sent for a monitor that matched. *)
Definition notice_of (post : StreamPost) (monitor : ActiveMonitor)
  : PostAnalyzed :=
  mkPostAnalyzed (sp_authorHandle post) (slice0 80 (sp_content post))
    (b_name (am_brand monitor)).

(** The [for (const monitor of monitors)] loop; the result lists the
    [post_analyzed] events sent, in order. *)
Fixpoint detection_loop (env : Env) (post : StreamPost)
  (monitors : list ActiveMonitor) : M (list PostAnalyzed) :=
  match monitors with
  | [] => ret []
  | monitor :: rest =>
      if negb (keyword_match post monitor) then detection_loop env post rest
      else
        threat <- detectAndStorePost env (post_data monitor post) ;;
        match threat with
        | Some t => queue_add (verify_job t)
        | None => ret tt
        end ;;;
        let notice := notice_of post monitor in
        later <- detection_loop env post rest ;;
        ret (notice :: later)
  end.

(** The threats that the loop's calls of [detectAndStorePost] return, in
    the order of the monitors: each call runs in the world the calls before
    it, and the jobs queued after them, have left. *)
Fixpoint yielded (env : Env) (post : StreamPost)
  (monitors : list ActiveMonitor) (w : World) : list Threat :=
  match monitors with
  | [] => []
  | monitor :: rest =>
      if negb (keyword_match post monitor) then yielded env post rest w
      else
        match detectAndStorePost env (post_data monitor post) w with
        | (Ok (Some t), w1) =>
            t :: yielded env post rest (enqueued (verify_job t) w1)
        | (Ok None, w1) => yielded env post rest w1
        | (Throw _, _) => []
        end
  end.

Definition detectionWorker (env : Env) (monitors : list ActiveMonitor)
  (post : StreamPost) : M (DetectionReturn * list PostAnalyzed) :=
  if Nat.eqb (List.length monitors) 0 then ret (ReturnsUndefined, [])
  else
    notices <- detection_loop env post monitors ;;
    ret (StatusDone, notices).

(** ** The HTTP handlers *)

(** The body of a request to [analyzeIncomingPost]: the counts and the time
    of posting may be left out. *)
Record AnalyzeBody : Type := mkAnalyzeBody {
  ab_monitorId : Id;
  ab_brandId : Id;
  ab_externalPostId : jsstring;
  ab_platform : jsstring;
  ab_content : jsstring;
  ab_authorHandle : jsstring;
  ab_authorId : option jsstring;
  ab_likeCount : option Z;
  ab_retweetCount : option Z;
  ab_replyCount : option Z;
  ab_viewCount : option Z;
  ab_postedAt : option Z
}.

(** [x || 0] *)
Definition or_zero (x : option Z) : Z :=
  match x with Some z => z | None => 0%Z end.

(** [data.postedAt || Date.now()], for a time in milliseconds. *)
Definition posted_or_now (env : Env) (x : option Z) : Z :=
  match x with
  | Some z => if Z.eqb z 0 then now env else z
  | None => now env
  end.

(** The argument the controller builds for [detectAndStorePost]. *)
Definition body_data (env : Env) (data : AnalyzeBody) : PostData :=
  mkPostData (ab_monitorId data) (ab_brandId data)
    (ab_externalPostId data) (ab_platform data) (ab_content data)
    (ab_authorHandle data) (ab_authorId data)
    (or_zero (ab_likeCount data)) (or_zero (ab_retweetCount data))
    (or_zero (ab_replyCount data)) (or_zero (ab_viewCount data))
    (posted_or_now env (ab_postedAt data)).

(** A JSON answer of a handler: its HTTP status with the members of the
    body. *)
Inductive DetectionReply : Type :=
| Analyzed (detectedPostId : Id) (message : jsstring)
    (* 200 [{ success: true, detectedPostId, message }] *)
| DetectionFailed (error : jsstring).
    (* 500 [{ success: false, error }] *)

Definition detection_status (r : DetectionReply) : N :=
  match r with
  | Analyzed _ _ => 200
  | DetectionFailed _ => 500
  end.

(** The controller reads [result.id] and [result.isFlagged] from what
    [detectAndStorePost] returns, a Threat row or [null].  No service writes
    a flag on a Threat row, so how the row answers [isFlagged] is left to
    [flagged]. *)
Definition analyzeIncomingPost (flagged : Threat -> bool) (env : Env)
  (data : AnalyzeBody) : M DetectionReply :=
  try_catch
    (result <- detectAndStorePost env (body_data env data) ;;
     match result with
     | None =>
         throw (TypeError (js "Cannot read properties of null (reading 'id')"))
     | Some t =>
         ret (Analyzed (t_id t)
                (if flagged t
                 then WARNING_SIGN ++ js " Post flagged for potential threat."
                 else CHECK_MARK ++ js " Post analyzed " ++ EM_DASH
                      ++ js " no threat detected."))
     end)
    (fun err => ret (DetectionFailed (err_message err))).

Inductive RouteReply : Type :=
| ReplyOk (message : jsstring)     (* 200 [{ ok: true, message }] *)
| ReplyError (error : jsstring).   (* 500 [{ ok: false, error }] *)

(** [POST /api/responses/:id/approve] *)
Definition approve_route (env : Env) (id : Id) : M RouteReply :=
  try_catch
    (postResponseToXClone env id ;;;
     ret (ReplyOk (js "Response posted successfully")))
    (fun err => ret (ReplyError (err_message err))).

(** [POST /api/threats/:id/verify] *)
Definition verify_route (id : Id) : M RouteReply :=
  try_catch
    (queue_add (mkJob (js "verify-one") id false) ;;;
     ret (ReplyOk (js "Verification queued")))
    (fun e => ret (ReplyError (err_message e))).

(** ** A small deployment to run the services on *)

Module Sample.

Definition brand1 : Brand := mkBrand (js "b1") (js "Zenith Bank").

Definition monitor1 : Monitor :=
  mkMonitor (js "m1") (js "Zenith watch") [js "Zenith"] (- (5 # 10)) 50.

Definition post1 : DetectedPost :=
  mkDetectedPost (js "d1") (js "m1") (js "b1") (Some (js "x1")) (js "X_CLONE")
    (js "Zenith app is down nationwide") (js "ada") None
    3 1 0 40 (Fin 0) (Fin 0) (Fin 0) (js "NEUTRAL") [] 0 0 false None.

(** The same post without its external id. *)
Definition post_no_ext : DetectedPost :=
  mkDetectedPost (js "d1") (js "m1") (js "b1") None (js "X_CLONE")
    (js "Zenith app is down nationwide") (js "ada") None
    3 1 0 40 (Fin 0) (Fin 0) (Fin 0) (js "NEUTRAL") [] 0 0 false None.

Definition threat1 (st : ThreatStatus) : Threat :=
  mkThreat (js "t1") (js "d1") (js "b1") (js "m1") LOW CRISIS st
    (num 10) (num 0) (num 0) (num 50) [] 40 None None None [].

Definition response1 : Response :=
  mkResponse (js "r1") (js "t1") (js "X_CLONE") (js "<p>Not so.</p>") []
    (num 80) PENDING true None.

Definition world (dp : DetectedPost) (st : ThreatStatus)
  (rs : list Response) : World :=
  mkWorld [dp] [threat1 st] rs [brand1] [monitor1] true [] [] [] 7.

Definition item (id : string) (c : option Q) : ScrapedItem :=
  mkScrapedItem (js id) (js "https://news.example/" ++ js id)
    (Some (js "Headline " ++ js id)) c.

Definition completion (text : jsstring) : GroqOutcome :=
  GroqResolves (mkChatCompletion [mkChoice (Some text)]).

Definition network_error : JsError := Error (js "Connection error.").

(** An oracle that answers the judging prompt with [judge] and every other
    prompt with [other]. *)
Definition oracle (judge other : GroqOutcome) (req : ChatRequest)
  : GroqOutcome :=
  match messages req with
  | m :: _ => if startsWith (js "You judge") (content m) then judge else other
  | [] => other
  end.

Definition env (items : list ScrapedItem) (judge other : GroqOutcome)
  (platform : FetchOutcome) : Env :=
  mkEnv (fun _ => items) (oracle judge other) (fun _ => platform)
    (fun _ => Fin 0) (fun _ => 0%Q) 1000 (Some (js "http://xclone.local")).

Definition http (code : N) (text : string) : FetchOutcome :=
  FetchResolves (mkHttpResponse code (js text)).

(** The oracle's reply [{"verdict":"<v>","confidence":50,"reason":"x"}]. *)
Definition verdict_json (v : string) : jsstring :=
  js "{" ++ DQ ++ js "verdict" ++ DQ ++ js ":" ++ DQ ++ js v ++ DQ ++ js ","
  ++ DQ ++ js "confidence" ++ DQ ++ js ":50,"
  ++ DQ ++ js "reason" ++ DQ ++ js ":" ++ DQ ++ js "x" ++ DQ ++ js "}".

Definition incoming (views : Z) : PostData :=
  mkPostData (js "m1") (js "b1") (js "x1") (js "X_CLONE")
    (js "Zenith app is down nationwide") (js "ada") None 3 1 0 views 5.

(** Four evidence and oracle situations. *)
Definition correction : GroqOutcome := completion (js "This claim is not accurate.").

Definition env_silent : Env :=
  env [] (completion (verdict_json "TRUE")) correction (http 200 "ok").

Definition env_uncredible : Env :=
  env [item "s1" (Some (4 # 10)); item "s2" (Some (4 # 10));
       item "s3" (Some (4 # 10))]
    (completion (verdict_json "TRUE")) correction (http 200 "ok").

Definition env_oracle_down : Env :=
  env [item "s1" (Some (9 # 10))] (GroqRejects network_error) correction
    (http 200 "ok").

Definition env_garbled : Env :=
  env [item "s1" (Some (9 # 10))] (completion (js "Sure! The verdict is FALSE."))
    correction (http 200 "ok").

Definition env_empty_object : Env :=
  env [item "s1" (Some (9 # 10))] (completion (js "{}")) correction
    (http 200 "ok").

Definition env_verdict (v : string) (platform : FetchOutcome) : Env :=
  env [item "s1" (Some (9 # 10))] (completion (verdict_json v)) correction
    platform.

(** An oracle that answers the correction prompt with 600 letters. *)
Definition long_text : jsstring := repeat 97 600.

Definition env_long : Env :=
  env [item "s1" (Some (4 # 10))] (completion (verdict_json "FALSE"))
    (completion long_text) (http 200 "ok").

(** Evidence without credibility, so that the verdict is FALSE without the
    oracle, and an oracle that is unreachable when asked for the correction. *)
Definition env_synthesis_down : Env :=
  env [item "s1" (Some (4 # 10))] (completion (verdict_json "FALSE"))
    (GroqRejects network_error) (http 200 "ok").

Definition verify_one : Job := mkJob (js "verify-one") (js "t1") false.

End Sample.

(** Further situations, for the properties that go beyond the decision
    table. *)
Module Scenario.

Import Sample.

(** The oracle's reply [{"verdict":"TRUE","confidence":0,"reason":"x"}]. *)
Definition zero_confidence_json : jsstring :=
  js "{" ++ DQ ++ js "verdict" ++ DQ ++ js ":" ++ DQ ++ js "TRUE" ++ DQ
  ++ js "," ++ DQ ++ js "confidence" ++ DQ ++ js ":0,"
  ++ DQ ++ js "reason" ++ DQ ++ js ":" ++ DQ ++ js "x" ++ DQ ++ js "}".

Definition env_zero_confidence : Env :=
  env [item "s1" (Some (9 # 10))] (completion zero_confidence_json) correction
    (http 200 "ok").

(** The result of verifying [t1] when the oracle says [verdict] with
    confidence 50. *)
Definition verdict50 (verdict : string) : VerifyResult :=
  mkVerifyResult (js verdict) (num 50) (js "x") [js "s1"].

(** An oracle that answers the correction prompt with white space only. *)
Definition env_blank_correction : Env :=
  env [item "s1" (Some (4 # 10))] (completion (verdict_json "FALSE"))
    (completion (js "   ")) (http 200 "ok").

(** A Response for [t1] that has been posted already. *)
Definition response_posted1 : Response :=
  mkResponse (js "r1") (js "t1") (js "X_CLONE") (js "<p>Not so.</p>") []
    (num 80) POSTED true (Some 500%Z).

(** Evidence without credibility and an oracle that writes the correction. *)
Definition env_synthesis_ok : Env :=
  env [item "s1" (Some (4 # 10))] (completion (verdict_json "FALSE"))
    correction (http 200 "ok").

(** The platform cannot be reached. *)
Definition env_platform_down : Env :=
  env [item "s1" (Some (4 # 10))] (completion (verdict_json "FALSE"))
    correction (FetchRejects network_error).


(** [post1] seen again, with more engagement and under another monitor. *)
Definition seen_again : PostData :=
  mkPostData (js "m1") (js "b2") (js "x1") (js "X_CLONE")
    (js "Zenith app is down nationwide") (js "ada2") None 30 10 5 400 9.

(** A threat on [post1] that has been verified and answered. *)
Definition threat_verified : Threat :=
  mkThreat (js "t1") (js "d1") (js "b1") (js "m1") LOW CRISIS RESPONDED
    (num 10) (num 0) (num 0) (num 50) [] 40
    (Some (js "FALSE")) (Some (num 80)) (Some NO_TRUSTED_OUTLET) [js "s1"].

Definition world_verified : World :=
  mkWorld [post1] [threat_verified] [response1] [brand1] [monitor1] true
    [] [] [] 7.

(** [post1] as it comes off the stream, and [monitor1] as an active
    monitor of [brand1]. *)
Definition stream_post : StreamPost :=
  mkStreamPost (js "x1") (js "X_CLONE") (js "Zenith app is down nationwide")
    (js "ada") None 3 1 0 40 5.

Definition active1 : ActiveMonitor := mkActiveMonitor monitor1 (js "b1") brand1.

(** A request body for a post that names no keyword, counts left out. *)
Definition body_harmless : AnalyzeBody :=
  mkAnalyzeBody (js "m1") (js "b1") (js "x9") (js "X_CLONE")
    (js "Lovely weather in Lagos today") (js "bola") None
    None None None None None.

(** The oracle's reply [{"verdict":5,"confidence":50,"reason":"x"}]: a
    verdict that is not a string. *)
Definition number_verdict_json : jsstring :=
  js "{" ++ DQ ++ js "verdict" ++ DQ ++ js ":5,"
  ++ DQ ++ js "confidence" ++ DQ ++ js ":50,"
  ++ DQ ++ js "reason" ++ DQ ++ js ":" ++ DQ ++ js "x" ++ DQ ++ js "}".

Definition env_number_verdict : Env :=
  env [item "s1" (Some (9 # 10))] (completion number_verdict_json) correction
    (http 200 "ok").

(** The oracle's reply [{"verdict":"TRUE"}]: no confidence and no reason. *)
Definition verdict_only_json : jsstring :=
  js "{" ++ DQ ++ js "verdict" ++ DQ ++ js ":" ++ DQ ++ js "TRUE" ++ DQ
  ++ js "}".

Definition env_verdict_only : Env :=
  env [item "s1" (Some (9 # 10))] (completion verdict_only_json) correction
    (http 200 "ok").

End Scenario.

(** * Properties *)

Import Sample.

(** ** The runtime model at work *)

Example trim_example : trim (js "  Zenith app is down   ") = js "Zenith app is down".
Proof. reflexivity. Qed.

Example split_example :
  split_ws (js " Zenith  app ") = [[]; js "Zenith"; js "app"; []].
Proof. reflexivity. Qed.

Example firstKeyword_example :
  firstKeyword (js "  Zenith app is down") = js "Zenith"
  /\ firstKeyword (js "   ") = [].
Proof. split; reflexivity. Qed.

Example includes_example :
  includes (toLowerCase (js "ZENITH Bank app")) (toLowerCase (js "Zenith")) = true
  /\ includes (js "bank") (js "zenith") = false.
Proof. split; reflexivity. Qed.

Example JSON_parse_reply :
  JSON_parse (verdict_json "FALSE")
  = Some (JObj [(js "verdict", JStr (js "FALSE"));
                (js "confidence", JNum (num 50));
                (js "reason", JStr (js "x"))]).
Proof. vm_compute. reflexivity. Qed.

Example JSON_parse_refuses :
  JSON_parse (js "Sure! The verdict is FALSE.") = None
  /\ JSON_parse (js "") = None
  /\ JSON_parse (js "[1,]") = None
  /\ JSON_parse (js "01") = None
  /\ JSON_parse (js "{} {}") = None.
Proof. vm_compute. repeat split. Qed.

Example JSON_parse_values :
  JSON_parse (js " [1, -0.5e1, null, true, [], {}] ")
  = Some (JArr [JNum (num 1); JNum (num (-5)); JNull; JBool true; JArr [];
                JObj []]).
Proof. vm_compute. reflexivity. Qed.

Example Number_examples :
  Number (Some (JStr (js " 85 "))) = num 85
  /\ Number (Some (JStr (js "high"))) = NaN
  /\ Number None = NaN
  /\ Number (Some JNull) = num 0
  /\ Number (Some (JArr [JStr (js "0x1F")])) = num 31
  /\ Number (Some (JObj [])) = NaN.
Proof. vm_compute. repeat split. Qed.

Example confidence_default :
  let clamp x :=
    Math_max (num 0)
      (Math_min (num 100) (let n := Number x in if jn_truthy n then n else num 60)) in
  clamp (Some (JNum (num 250))) = num 100
  /\ clamp (Some (JNum (num (-3)))) = num 0
  /\ clamp (Some (JNum (num 0))) = num 60
  /\ clamp None = num 60.
Proof. vm_compute. repeat split. Qed.

(** ** The monad and the tables *)

Lemma bind_ok {A B} (m : M A) (k : A -> M B) w a w' :
  m w = (Ok a, w') -> bind m k w = k a w'.
Proof. intros H. unfold bind. now rewrite H. Qed.

Lemma bind_throw {A B} (m : M A) (k : A -> M B) w e w' :
  m w = (Throw e, w') -> bind m k w = (Throw e, w').
Proof. intros H. unfold bind. now rewrite H. Qed.

Lemma try_catch_ok {A} (m : M A) h w a w' :
  m w = (Ok a, w') -> try_catch m h w = (Ok a, w').
Proof. intros H. unfold try_catch. now rewrite H. Qed.

Lemma try_catch_throw {A} (m : M A) h w e w' :
  m w = (Throw e, w') -> try_catch m h w = h e w'.
Proof. intros H. unfold try_catch. now rewrite H. Qed.

Lemma find_update_first {A} (p : A -> bool) (f : A -> A) (l : list A) :
  (forall x, p (f x) = p x) ->
  find p (update_first p f l) = option_map f (find p l).
Proof.
  intros Hp. induction l as [|x l IH]; simpl; [reflexivity|].
  destruct (p x) eqn:E; simpl.
  - now rewrite Hp, E.
  - now rewrite E.
Qed.

Lemma str_eqb_refl (s : jsstring) : str_eqb s s = true.
Proof. induction s; simpl; [reflexivity|]. now rewrite N.eqb_refl. Qed.

Lemma str_eqb_eq (a b : jsstring) : str_eqb a b = true <-> a = b.
Proof.
  split.
  - revert b. induction a as [|x a IH]; destruct b as [|y b]; simpl;
      try discriminate; [reflexivity|].
    intros H. apply andb_true_iff in H. destruct H as [H1 H2].
    apply N.eqb_eq in H1. apply IH in H2. congruence.
  - intros ->. apply str_eqb_refl.
Qed.

(** The stored row carries the result once [verified_as] has run. *)
Lemma find_threat_verified_as tid v w threat :
  find_threat tid w = Some threat ->
  find_threat tid (verified_as tid v w)
  = Some (set_verification (vr_verificationStatus v)
            (vr_verificationConfidence v) (vr_verificationSummary v)
            (vr_evidenceIds v) threat).
Proof.
  unfold find_threat, verified_as. simpl. intros H.
  rewrite find_update_first by reflexivity. now rewrite H.
Qed.

(** ** Verification *)

Lemma verified_as_stores tid v w threat :
  find_threat tid w = Some threat -> stores tid v (verified_as tid v w).
Proof.
  intros H. eexists.
  split; [eapply find_threat_verified_as; exact H|].
  repeat split.
Qed.

(** An unusable oracle makes the [try] block throw, leaving the world as
    it was. *)
Lemma judge_throws env claim hl w :
  judge_unusable env claim hl = true ->
  exists e, judge env claim hl w = (Throw e, w).
Proof.
  unfold judge_unusable, judge, bind, await_groq.
  destruct (groq_create env (judge_request claim hl)) as [e|c].
  - intros _. exists e. reflexivity.
  - unfold ret at 1.
    destruct (JSON_parse (raw_of c)) as [[| | | | |]|]; intros H;
      try discriminate; eexists; reflexivity.
Qed.

(** Output without the three members yields the defaults of the [try]
    block. *)
Lemma judge_incomplete_verdict env claim hl w :
  judge_incomplete env claim hl = true ->
  judge env claim hl w
  = (Ok (JStr (js "UNVERIFIED"), num 60, JStr JUDGE_SUMMARY), w).
Proof.
  unfold judge_incomplete, judge, bind, await_groq.
  destruct (groq_create env (judge_request claim hl)) as [e|c];
    [discriminate|].
  unfold ret at 1.
  destruct (JSON_parse (raw_of c)) as [parsed|]; [|discriminate].
  destruct (get_prop parsed (js "verdict")) as [[v|]|]; try discriminate.
  destruct (get_prop parsed (js "confidence")) as [[cf|]|]; try discriminate.
  destruct (get_prop parsed (js "reason")) as [[r|]|]; try discriminate.
  reflexivity.
Qed.

(** A verdict that is a string comes back as the status, whatever it says. *)
Lemma judge_echoes_verdict env claim hl w c ms s r :
  groq_create env (judge_request claim hl) = GroqResolves c ->
  JSON_parse (raw_of c) = Some (JObj ms) ->
  lookup_member (js "verdict") ms = Some (JStr s) ->
  lookup_member (js "reason") ms = Some (JStr r) ->
  exists conf,
    judge env claim hl w
    = (Ok (JStr s, conf, JStr (if nonempty r then r else JUDGE_SUMMARY)), w).
Proof.
  intros Hg Hp Hv Hr. unfold judge, bind, await_groq. rewrite Hg.
  unfold ret at 1. rewrite Hp. cbn [get_prop]. rewrite Hv, Hr.
  eexists. unfold or_else, truthy.
  destruct (nonempty r); reflexivity.
Qed.

(** The tail of [verifyThreat]: storing a verdict made of strings. *)
Lemma store_verdict tid (st sm : jsstring) conf ids w threat :
  find_threat tid w = Some threat ->
  bind (threat_update_verification tid (JStr st) conf (JStr sm) ids)
    (fun stored =>
       ret (mkVerifyResult (fst stored) conf (snd stored) ids)) w
  = (Ok (mkVerifyResult st conf sm ids),
     verified_as tid (mkVerifyResult st conf sm ids) w).
Proof.
  intros H.
  unfold threat_update_verification, expect_string, bind, ret, get, modify.
  now rewrite H.
Qed.

Lemma verifyThreat_unfold env tid w threat dp :
  find_threat tid w = Some threat ->
  find_detectedPost (t_detectedPostId threat) w = Some dp ->
  verifyThreat env tid w
  = bind
      (let scraped := scraped_for env threat dp in
       let credible := filter is_credible scraped in
       if Nat.eqb (List.length scraped) 0 then
         ret (JStr (js "UNVERIFIED"), num 35, JStr NO_COVERAGE)
       else if Nat.eqb (List.length credible) 0 then
         ret (JStr (js "FALSE"), num 80, JStr NO_TRUSTED_OUTLET)
       else
         try_catch (judge env (dp_content dp) (headlines_of credible))
           (fun _ =>
              ret (JStr (js "UNVERIFIED"), num 60, JStr JUDGE_FALLBACK)))
      (fun verdict =>
         let '(st, conf, sm) := verdict in
         bind
           (threat_update_verification tid st conf sm
              (List.map s_id (scraped_for env threat dp)))
           (fun stored =>
              ret (mkVerifyResult (fst stored) conf (snd stored)
                     (List.map s_id (scraped_for env threat dp)))))
      w.
Proof.
  intros Ht Hd.
  unfold verifyThreat, threat_findUnique.
  unfold bind at 1. unfold bind at 1. unfold get at 1. unfold ret at 1.
  rewrite Ht.
  unfold bind at 1. unfold get at 1.
  unfold bind at 1. rewrite Hd. unfold relation at 1. unfold ret at 1.
  reflexivity.
Qed.

(** The branches of the decision table that [verifyThreat] does follow.
    With no evidence it stores and returns UNVERIFIED with confidence 35
    and the no-coverage summary; with evidence of which none has
    credibility at least 0.7 it stores and returns FALSE with confidence
    80; with credible evidence and an oracle call that fails or whose
    output is unusable (not JSON, or [null]) it stores and returns
    UNVERIFIED with confidence 60 and the fallback summary, and with output
    that is JSON without any of the members asked for it stores and returns
    UNVERIFIED with confidence 60 and the generic judge summary.  In each
    of these branches the call returns normally.  Output that is JSON with
    some of the members, or with members of another type, is outside these
    branches: see [verifyThreat_malformed_output_escapes_fallback]. *)
Theorem verifyThreat_decision_table env tid w threat dp :
  find_threat tid w = Some threat ->
  find_detectedPost (t_detectedPostId threat) w = Some dp ->
  let scraped := scraped_for env threat dp in
  let credible := filter is_credible scraped in
  let ids := List.map s_id scraped in
  let returns v :=
    verifyThreat env tid w = (Ok v, verified_as tid v w)
    /\ stores tid v (verified_as tid v w) in
  (scraped = [] ->
   returns (mkVerifyResult (js "UNVERIFIED") (num 35) NO_COVERAGE ids))
  /\ (scraped <> [] -> credible = [] ->
      returns (mkVerifyResult (js "FALSE") (num 80) NO_TRUSTED_OUTLET ids))
  /\ (credible <> [] ->
      judge_unusable env (dp_content dp) (headlines_of credible) = true ->
      returns (mkVerifyResult (js "UNVERIFIED") (num 60) JUDGE_FALLBACK ids))
  /\ (credible <> [] ->
      judge_incomplete env (dp_content dp) (headlines_of credible) = true ->
      returns (mkVerifyResult (js "UNVERIFIED") (num 60) JUDGE_SUMMARY ids)).
Proof.
  intros Ht Hd scraped credible ids returns.
  assert (Hst : forall v, stores tid v (verified_as tid v w))
    by (intros v; eapply verified_as_stores; exact Ht).
  subst returns. cbv beta.
  rewrite (verifyThreat_unfold env tid w threat dp Ht Hd).
  subst ids credible scraped. cbv zeta.
  split; [|split; [|split]].
  - intros Hs. split; [|apply Hst].
    rewrite Hs. cbn [List.length Nat.eqb filter List.map].
    erewrite bind_ok by (unfold ret; reflexivity).
    eapply store_verdict; eassumption.
  - intros Hs Hc. split; [|apply Hst]. rewrite Hc.
    destruct (scraped_for env threat dp) as [|s0 rest]; [congruence|].
    cbn [List.length Nat.eqb].
    erewrite bind_ok by (unfold ret; reflexivity).
    eapply store_verdict; eassumption.
  - intros Hc Hj. split; [|apply Hst].
    destruct (scraped_for env threat dp) as [|s0 rest] eqn:Es;
      [now elim Hc|].
    destruct (filter is_credible (s0 :: rest)) as [|c0 crest] eqn:Ec;
      [now elim Hc|].
    cbn [List.length Nat.eqb].
    destruct (judge_throws env (dp_content dp) (headlines_of (c0 :: crest)) w Hj)
      as [e He].
    erewrite bind_ok.
    2:{ erewrite try_catch_throw by exact He. reflexivity. }
    eapply store_verdict; eassumption.
  - intros Hc Hj. split; [|apply Hst].
    destruct (scraped_for env threat dp) as [|s0 rest] eqn:Es;
      [now elim Hc|].
    destruct (filter is_credible (s0 :: rest)) as [|c0 crest] eqn:Ec;
      [now elim Hc|].
    cbn [List.length Nat.eqb].
    erewrite bind_ok.
    2:{ erewrite try_catch_ok; [reflexivity|].
        apply judge_incomplete_verdict. exact Hj. }
    eapply store_verdict; eassumption.
Qed.

Lemma verifyThreat_decision_table_witness :
  let w := world post1 NEW [] in
  let tid := js "t1" in
  let returns (e : Env) v :=
    verifyThreat e tid w = (Ok v, verified_as tid v w)
    /\ stores tid v (verified_as tid v w) in
  returns env_silent
    (mkVerifyResult (js "UNVERIFIED") (num 35) NO_COVERAGE [])
  /\ returns env_uncredible
       (mkVerifyResult (js "FALSE") (num 80) NO_TRUSTED_OUTLET
          [js "s1"; js "s2"; js "s3"])
  /\ returns env_oracle_down
       (mkVerifyResult (js "UNVERIFIED") (num 60) JUDGE_FALLBACK [js "s1"])
  /\ returns env_garbled
       (mkVerifyResult (js "UNVERIFIED") (num 60) JUDGE_FALLBACK [js "s1"])
  /\ returns env_empty_object
       (mkVerifyResult (js "UNVERIFIED") (num 60) JUDGE_SUMMARY [js "s1"]).
Proof.
  intros w tid returns. unfold returns.
  split; [|split; [|split; [|split]]].
  - apply (proj1 (verifyThreat_decision_table env_silent tid w
                    (threat1 NEW) post1 eq_refl eq_refl)).
    reflexivity.
  - apply (proj1 (proj2 (verifyThreat_decision_table env_uncredible tid w
                           (threat1 NEW) post1 eq_refl eq_refl))).
    + discriminate.
    + reflexivity.
  - apply (proj1 (proj2 (proj2
             (verifyThreat_decision_table env_oracle_down tid w
                (threat1 NEW) post1 eq_refl eq_refl)))).
    + discriminate.
    + reflexivity.
  - apply (proj1 (proj2 (proj2
             (verifyThreat_decision_table env_garbled tid w
                (threat1 NEW) post1 eq_refl eq_refl)))).
    + discriminate.
    + vm_compute. reflexivity.
  - apply (proj2 (proj2 (proj2
             (verifyThreat_decision_table env_empty_object tid w
                (threat1 NEW) post1 eq_refl eq_refl)))).
    + discriminate.
    + vm_compute. reflexivity.
Defined.

(** The oracle stage of [verifyThreat] never throws and never touches the
    world: whatever the oracle does, a verdict comes out. *)
Lemma judge_world env claim hl w r w' :
  judge env claim hl w = (r, w') -> w' = w.
Proof.
  unfold judge, bind, await_groq.
  destruct (groq_create env (judge_request claim hl)) as [e|c].
  - unfold throw. now intros [= _ <-].
  - unfold ret at 1.
    destruct (JSON_parse (raw_of c)) as [parsed|].
    + destruct (get_prop parsed (js "verdict")),
               (get_prop parsed (js "confidence")),
               (get_prop parsed (js "reason"));
        unfold ret, throw; now intros [= _ <-].
    + unfold throw. now intros [= _ <-].
Qed.

Lemma verdict_stage_total env (scraped credible : list ScrapedItem) claim w :
  exists verdict,
    (if Nat.eqb (List.length scraped) 0 then
       ret (JStr (js "UNVERIFIED"), num 35, JStr NO_COVERAGE)
     else if Nat.eqb (List.length credible) 0 then
       ret (JStr (js "FALSE"), num 80, JStr NO_TRUSTED_OUTLET)
     else
       try_catch (judge env claim (headlines_of credible))
         (fun _ => ret (JStr (js "UNVERIFIED"), num 60, JStr JUDGE_FALLBACK)))
      w
    = (Ok verdict, w).
Proof.
  destruct (Nat.eqb (List.length scraped) 0); [eexists; reflexivity|].
  destruct (Nat.eqb (List.length credible) 0); [eexists; reflexivity|].
  unfold try_catch.
  destruct (judge env claim (headlines_of credible) w) as [[v|e] w'] eqn:E;
    apply judge_world in E; subst w'; eexists; reflexivity.
Qed.

Lemma store_any_verdict tid st conf sm ids w threat v w1 :
  find_threat tid w = Some threat ->
  bind (threat_update_verification tid st conf sm ids)
    (fun stored => ret (mkVerifyResult (fst stored) conf (snd stored) ids)) w
  = (Ok v, w1) ->
  w1 = verified_as tid v w.
Proof.
  intros Ht.
  destruct st as [| | |st| |], sm as [| | |sm| |];
    try (unfold threat_update_verification, expect_string, bind, throw;
         discriminate).
  rewrite (store_verdict tid st sm conf ids w threat Ht).
  now intros [= <- <-].
Qed.

(** A verification that returns has stored exactly what it returns. *)
Lemma verifyThreat_ok_inv env tid w threat dp v w1 :
  find_threat tid w = Some threat ->
  find_detectedPost (t_detectedPostId threat) w = Some dp ->
  verifyThreat env tid w = (Ok v, w1) ->
  w1 = verified_as tid v w.
Proof.
  intros Ht Hd.
  rewrite (verifyThreat_unfold env tid w threat dp Ht Hd). cbv zeta.
  destruct (verdict_stage_total env (scraped_for env threat dp)
              (filter is_credible (scraped_for env threat dp))
              (dp_content dp) w) as [[[st conf] sm] Hv].
  erewrite bind_ok by exact Hv.
  eapply store_any_verdict; eassumption.
Qed.

(** With credible evidence, the status stored is the verdict string of the
    oracle's reply, whichever string that is. *)
Lemma verifyThreat_stores_oracle_verdict env tid w threat dp c ms s r :
  find_threat tid w = Some threat ->
  find_detectedPost (t_detectedPostId threat) w = Some dp ->
  let scraped := scraped_for env threat dp in
  let credible := filter is_credible scraped in
  credible <> [] ->
  groq_create env (judge_request (dp_content dp) (headlines_of credible))
  = GroqResolves c ->
  JSON_parse (raw_of c) = Some (JObj ms) ->
  lookup_member (js "verdict") ms = Some (JStr s) ->
  lookup_member (js "reason") ms = Some (JStr r) ->
  exists v,
    verifyThreat env tid w = (Ok v, verified_as tid v w)
    /\ vr_verificationStatus v = s.
Proof.
  intros Ht Hd scraped credible Hc Hg Hp Hv Hr.
  rewrite (verifyThreat_unfold env tid w threat dp Ht Hd).
  subst credible scraped. cbv zeta.
  destruct (scraped_for env threat dp) as [|s0 rest] eqn:Es;
    [now elim Hc|].
  destruct (filter is_credible (s0 :: rest)) as [|c0 crest] eqn:Ec;
    [now elim Hc|].
  cbn [List.length Nat.eqb].
  destruct (judge_echoes_verdict env (dp_content dp)
              (headlines_of (c0 :: crest)) w c ms s r Hg Hp Hv Hr)
    as [conf Hj].
  erewrite bind_ok.
  2:{ erewrite try_catch_ok by exact Hj. reflexivity. }
  eexists. split.
  - eapply store_verdict; eassumption.
  - reflexivity.
Qed.

(** C2, at the failing input.  The oracle answers the judging prompt with
    [{"verdict":"MAYBE","confidence":50,"reason":"x"}]; [verifyThreat]
    returns and stores the status MAYBE, which is none of TRUE, FALSE and
    UNVERIFIED. *)
Theorem verifyThreat_stores_unlisted_verdict :
  let w := world post1 NEW [] in
  let e := env_verdict "MAYBE" (http 200 "ok") in
  let v := mkVerifyResult (js "MAYBE") (num 50) (js "x") [js "s1"] in
  verifyThreat e (js "t1") w = (Ok v, verified_as (js "t1") v w)
  /\ option_map verificationStatus
       (find_threat (js "t1") (verified_as (js "t1") v w))
     = Some (Some (js "MAYBE"))
  /\ ~ In (js "MAYBE") [js "TRUE"; js "FALSE"; js "UNVERIFIED"].
Proof.
  split; [vm_compute; reflexivity|].
  split; [vm_compute; reflexivity|].
  vm_compute. intros [H|[H|[H|[]]]]; discriminate.
Qed.

(** The update of the threat comes after the [try] block: a verdict that
    is neither a string nor null is handed to it as the status, and the
    error it throws leaves [verifyThreat] with nothing stored. *)
Lemma verifyThreat_refuses_nonstring_verdict env tid w threat dp c parsed
  verdict cf reason :
  find_threat tid w = Some threat ->
  find_detectedPost (t_detectedPostId threat) w = Some dp ->
  let credible := filter is_credible (scraped_for env threat dp) in
  credible <> [] ->
  groq_create env (judge_request (dp_content dp) (headlines_of credible))
  = GroqResolves c ->
  JSON_parse (raw_of c) = Some parsed ->
  get_prop parsed (js "verdict") = Some verdict ->
  get_prop parsed (js "confidence") = Some cf ->
  get_prop parsed (js "reason") = Some reason ->
  (forall s, nullish_or verdict (JStr (js "UNVERIFIED")) <> JStr s) ->
  verifyThreat env tid w
  = (Throw (PrismaValidationError (js "verificationStatus")), w).
Proof.
  intros Ht Hd credible Hc Hg Hp Hverdict Hcf Hreason Hns.
  rewrite (verifyThreat_unfold env tid w threat dp Ht Hd).
  subst credible. cbv zeta.
  destruct (scraped_for env threat dp) as [|s0 rest] eqn:Es;
    [now elim Hc|].
  destruct (filter is_credible (s0 :: rest)) as [|c0 crest] eqn:Ec;
    [now elim Hc|].
  cbn [List.length Nat.eqb].
  erewrite bind_ok.
  2:{ erewrite try_catch_ok; [reflexivity|].
      unfold judge, bind, await_groq. rewrite Hg. unfold ret at 1.
      rewrite Hp, Hverdict, Hcf, Hreason. cbv zeta. reflexivity. }
  cbv beta iota.
  destruct (nullish_or verdict (JStr (js "UNVERIFIED"))) as [| | |s| |];
    try reflexivity.
  now elim (Hns s).
Qed.

(** C1, at the failing inputs.  With credible evidence, two replies of the
    oracle that are malformed and yet are not caught by the fallback.  To
    [{"verdict":5,"confidence":50,"reason":"x"}], [verifyThreat] throws: the
    number goes to the update of the threat as the status, outside the
    [try], and nothing is stored, where the specification has UNVERIFIED
    with confidence 60 stored and the call completing.  To [{"verdict":"TRUE"}],
    which has neither confidence nor reason, it stores and returns the
    status TRUE with confidence 60, not UNVERIFIED. *)
Theorem verifyThreat_malformed_output_escapes_fallback :
  let w := world post1 NEW [] in
  let v := mkVerifyResult (js "TRUE") (num 60) JUDGE_SUMMARY [js "s1"] in
  verifyThreat Scenario.env_number_verdict (js "t1") w
  = (Throw (PrismaValidationError (js "verificationStatus")), w)
  /\ option_map verificationStatus (find_threat (js "t1") w) = Some None
  /\ verifyThreat Scenario.env_verdict_only (js "t1") w
     = (Ok v, verified_as (js "t1") v w)
  /\ option_map verificationStatus
       (find_threat (js "t1") (verified_as (js "t1") v w))
     = Some (Some (js "TRUE"))
  /\ js "TRUE" <> js "UNVERIFIED".
Proof.
  split; [vm_compute; reflexivity|].
  split; [reflexivity|].
  split; [vm_compute; reflexivity|].
  split; [vm_compute; reflexivity|].
  discriminate.
Qed.

(** ** Synthesis *)

Lemma find_app_new {A} (p : A -> bool) (l : list A) (x : A) :
  find p l = None -> p x = true -> find p (l ++ [x]) = Some x.
Proof.
  intros Hn Hx. induction l as [|y l IH]; simpl in *.
  - now rewrite Hx.
  - destruct (p y); [discriminate|]. now apply IH.
Qed.

(** An update by one key keeps, under any other key, a row with the same
    value of that key in first place: the row itself or its image. *)
Lemma find_update_first_other {A} (p q : A -> bool) (f : A -> A) l x :
  (forall y, q (f y) = q y) ->
  find q l = Some x ->
  find q (update_first p f l) = Some x
  \/ find q (update_first p f l) = Some (f x).
Proof.
  intros Hq. induction l as [|y l IH]; simpl; [discriminate|].
  destruct (p y) eqn:Ep; simpl.
  - rewrite Hq. destruct (q y); [|now left].
    intros [= ->]. now right.
  - destruct (q y); [now left|]. exact IH.
Qed.

(** The upsert leaves the threat's Response in the table and returns it. *)
Lemma response_upsert_spec tid platform c srcs conf w :
  exists resp w2,
    response_upsert tid platform c srcs conf w = (Ok resp, w2)
    /\ find_response_by_threat tid w2 = Some resp
    /\ r_threatId resp = tid
    /\ r_content resp = c
    /\ r_sourcesUsed resp = srcs
    /\ r_status resp = PENDING
    /\ autoGenerated resp = true
    /\ threats w2 = threats w
    /\ detectedPosts w2 = detectedPosts w
    /\ brands w2 = brands w
    /\ emitted w2 = emitted w
    /\ requests w2 = requests w
    /\ wsBroadcast w2 = wsBroadcast w.
Proof.
  unfold response_upsert, bind, get, ret, modify, freshId.
  unfold find_response_by_threat.
  destruct (find (fun r => str_eqb (r_threatId r) tid) (responses w))
    as [r|] eqn:E.
  - do 2 eexists. split; [reflexivity|]. simpl.
    split.
    { rewrite find_update_first by reflexivity. now rewrite E. }
    apply find_some in E. destruct E as [_ E]. apply str_eqb_eq in E.
    repeat split; assumption.
  - do 2 eexists. split; [reflexivity|]. simpl.
    split.
    { apply find_app_new; [exact E|]. simpl. apply str_eqb_refl. }
    repeat split.
Qed.

(** The HTML stored for a correction text and a list of source URLs. *)
Lemma generateResponseForFalse_resolves env tid w threat dp brand c :
  find_threat tid w = Some threat ->
  find_detectedPost (t_detectedPostId threat) w = Some dp ->
  find_brand (t_brandId threat) w = Some brand ->
  groq_create env (correction_request (b_name brand) (dp_content dp))
  = GroqResolves c ->
  exists resp w2,
    generateResponseForFalse env tid w = (Ok resp, w2)
    /\ find_response_by_threat tid w2 = Some resp
    /\ r_threatId resp = tid
    /\ r_content resp
       = htmlContent (enforce_limit (rawContent_of c (b_name brand)))
           (verifiedSourcesHTML
              (List.map s_url
                 (scrapedItem_findMany env
                    (ByIds (verificationEvidenceIds threat) 3))))
    /\ r_status resp = PENDING
    /\ threats w2 = threats w
    /\ detectedPosts w2 = detectedPosts w
    /\ requests w2 = requests w.
Proof.
  intros Ht Hd Hb Hg.
  unfold generateResponseForFalse, threat_findUnique.
  unfold bind at 1. unfold bind at 1. unfold get at 1. unfold ret at 1.
  rewrite Ht.
  unfold bind at 1. unfold get at 1.
  unfold bind at 1. rewrite Hd. unfold relation at 1. unfold ret at 1.
  unfold bind at 1. rewrite Hb. unfold relation at 1. unfold ret at 1.
  cbv zeta.
  unfold bind at 1. rewrite Hg. unfold await_groq at 1. unfold ret at 1.
  destruct (response_upsert_spec tid (dp_platform dp)
              (htmlContent (enforce_limit (rawContent_of c (b_name brand)))
                 (verifiedSourcesHTML
                    (List.map s_url
                       (scrapedItem_findMany env
                          (ByIds (verificationEvidenceIds threat) 3)))))
              (List.map s_url
                 (scrapedItem_findMany env
                    (ByIds (verificationEvidenceIds threat) 3)))
              (num_or (num 80) (verificationConfidence threat)) w)
    as (resp & w2 & Hu & Hf & Hid & Hc & _ & Hs & _ & Hth & Hdp & _ & _ & Hrq & _).
  unfold bind at 1. rewrite Hu.
  unfold bind, broadcast, modify, ret, notify.
  do 2 eexists. split; [reflexivity|].
  destruct (wsBroadcast w2); simpl; repeat split; assumption.
Qed.

(** When the oracle call rejects, synthesis throws the oracle's error and
    writes nothing. *)
Lemma generateResponseForFalse_rejects env tid w threat dp brand e :
  find_threat tid w = Some threat ->
  find_detectedPost (t_detectedPostId threat) w = Some dp ->
  find_brand (t_brandId threat) w = Some brand ->
  groq_create env (correction_request (b_name brand) (dp_content dp))
  = GroqRejects e ->
  generateResponseForFalse env tid w = (Throw e, w).
Proof.
  intros Ht Hd Hb Hg.
  unfold generateResponseForFalse, threat_findUnique.
  unfold bind at 1. unfold bind at 1. unfold get at 1. unfold ret at 1.
  rewrite Ht.
  unfold bind at 1. unfold get at 1.
  unfold bind at 1. rewrite Hd. unfold relation at 1. unfold ret at 1.
  unfold bind at 1. rewrite Hb. unfold relation at 1. unfold ret at 1.
  cbv zeta.
  unfold bind at 1. rewrite Hg. reflexivity.
Qed.

(** ** Publication *)

Lemma response_update_found rid st at_ w response :
  find_response rid w = Some response ->
  response_update rid st at_ w = (Ok tt, mark_response rid st at_ w).
Proof.
  intros H. unfold response_update, bind, get, modify. now rewrite H.
Qed.

(** The world after a failed publication attempt. *)
Lemma catch_failed rid tid w response err :
  find_response rid w = Some response ->
  (response_update rid FAILED None ;;;
   broadcast (js "response_failed") (ResponseFailed rid tid (err_message err)) ;;;
   throw err) w
  = (Throw err : Result unit,
     notify (js "response_failed") (ResponseFailed rid tid (err_message err))
       (mark_response rid FAILED None w)).
Proof.
  intros H.
  erewrite bind_ok by (eapply response_update_found; exact H).
  reflexivity.
Qed.

Lemma requests_notify ev p w : requests (notify ev p w) = requests w.
Proof. unfold notify. now destruct (wsBroadcast w). Qed.

Lemma responses_notify ev p w : responses (notify ev p w) = responses w.
Proof. unfold notify. now destruct (wsBroadcast w). Qed.

Lemma emitted_notify ev p w :
  emitted (notify ev p w)
  = emitted w ++ (if wsBroadcast w then [mkWsEvent ev p] else []).
Proof.
  unfold notify. destruct (wsBroadcast w); simpl; [reflexivity|].
  now rewrite app_nil_r.
Qed.

Lemma find_response_mark rid st at_ w response :
  find_response rid w = Some response ->
  find_response rid (mark_response rid st at_ w)
  = Some (set_response_status st at_ response).
Proof.
  unfold find_response, mark_response. simpl. intros H.
  rewrite find_update_first by reflexivity. now rewrite H.
Qed.

Lemma app_one_neq {A} (l : list A) (x : A) : l ++ [x] <> l.
Proof.
  intros H. apply (f_equal (@List.length A)) in H.
  rewrite length_app in H. simpl in H. lia.
Qed.

(** A Response that is found, with the threat it answers and the post that
    threat came from: the setting of every publication that gets as far as
    looking at its reply target. *)
Section Reply.

Variables (env : Env) (rid : Id) (w : World).
Variables (response : Response) (threat : Threat) (dp : DetectedPost).
Hypothesis Hresponse : find_response rid w = Some response.
Hypothesis Hthreat : find_threat (r_threatId response) w = Some threat.
Hypothesis Hpost : find_detectedPost (t_detectedPostId threat) w = Some dp.

Lemma postResponseToXClone_unfold :
  postResponseToXClone env rid w
  = (if missing (externalPostId dp) then
       throw (Error (js "Detected post not found for threat"))
     else
       let req :=
         tweet_request env (authorHandle dp) (r_content response)
           (match externalPostId dp with Some ext => ext | None => [] end) in
       try_catch
         (res <- do_fetch env req ;;
          (if negb (ok res)
           then throw (Error (js "X-clone response: " ++ responseText res))
           else ret tt) ;;;
          response_update rid POSTED (Some (now env)) ;;;
          broadcast (js "response_posted")
            (ResponsePosted rid (r_threatId response) (now env)))
         (fun err =>
            response_update rid FAILED None ;;;
            broadcast (js "response_failed")
              (ResponseFailed rid (r_threatId response) (err_message err)) ;;;
            throw err)) w.
Proof.
  unfold postResponseToXClone.
  unfold bind at 1. unfold get at 1.
  rewrite Hresponse. rewrite Hthreat.
  unfold bind at 1. unfold bind at 1. rewrite Hpost.
  unfold relation at 1. unfold ret at 1. unfold ret at 1.
  reflexivity.
Qed.

(** Every outcome of a publication attempt whose reply target is known. *)
Lemma postResponseToXClone_outcome ext :
  externalPostId dp = Some ext ->
  nonempty ext = true ->
  let req := tweet_request env (authorHandle dp) (r_content response) ext in
  let failed err :=
    (Throw err : Result unit,
     notify (js "response_failed")
       (ResponseFailed rid (r_threatId response) (err_message err))
       (mark_response rid FAILED None (sent req w))) in
  postResponseToXClone env rid w
  = match fetch env req with
    | FetchRejects e => failed e
    | FetchResolves res =>
        if ok res then
          (Ok tt,
           notify (js "response_posted")
             (ResponsePosted rid (r_threatId response) (now env))
             (mark_response rid POSTED (Some (now env)) (sent req w)))
        else failed (Error (js "X-clone response: " ++ responseText res))
    end.
Proof.
  intros He Hn req failed.
  rewrite postResponseToXClone_unfold.
  rewrite He. unfold missing. rewrite Hn. cbn [negb]. cbv zeta. fold req.
  assert (Hr' : find_response rid (sent req w) = Some response)
    by exact Hresponse.
  unfold try_catch, bind at 1, do_fetch.
  destruct (fetch env req) as [e|res].
  - unfold failed. eapply catch_failed. exact Hr'.
  - destruct (ok res); cbn [negb].
    + unfold bind at 1. unfold ret at 1.
      erewrite bind_ok by (eapply response_update_found; exact Hr').
      reflexivity.
    + unfold bind at 1. unfold throw at 1.
      unfold failed. eapply catch_failed. exact Hr'.
Qed.

(** C7. When the post behind a Response has no external post id (it is
    null or empty), [postResponseToXClone] throws the domain error
    "Detected post not found for threat" and the world is as before: no
    request has been sent to the platform. *)
Theorem postResponseToXClone_missing_target :
  missing (externalPostId dp) = true ->
  exists w',
    postResponseToXClone env rid w
    = (Throw (Error (js "Detected post not found for threat")), w')
    /\ requests w' = requests w
    /\ w' = w.
Proof.
  intros Hm. rewrite postResponseToXClone_unfold.
  rewrite Hm. exists w. repeat split.
Qed.

(** C8. When the platform answers with a status outside 200..299,
    [postResponseToXClone] sets the Response to FAILED, hands the bound
    broadcaster a [response_failed] event whose error message is the
    non-empty text "X-clone response: ..." and throws that error to its
    caller. *)
Theorem postResponseToXClone_http_failure ext res :
  externalPostId dp = Some ext ->
  nonempty ext = true ->
  fetch env (tweet_request env (authorHandle dp) (r_content response) ext)
  = FetchResolves res ->
  ok res = false ->
  let err := Error (js "X-clone response: " ++ responseText res) in
  exists w',
    postResponseToXClone env rid w = (Throw err, w')
    /\ option_map r_status (find_response rid w') = Some FAILED
    /\ emitted w'
       = emitted w
         ++ (if wsBroadcast w then
               [mkWsEvent (js "response_failed")
                  (ResponseFailed rid (r_threatId response) (err_message err))]
             else [])
    /\ err_message err <> [].
Proof.
  intros He Hn Hf Hok err.
  rewrite (postResponseToXClone_outcome ext He Hn).
  cbv zeta. rewrite Hf, Hok.
  eexists. split; [reflexivity|].
  split; [|split].
  - unfold find_response. rewrite responses_notify.
    change (option_map r_status
              (find_response rid
                 (mark_response rid FAILED None
                    (sent (tweet_request env (authorHandle dp)
                             (r_content response) ext) w)))
            = Some FAILED).
    erewrite find_response_mark by exact Hresponse. reflexivity.
  - rewrite emitted_notify. reflexivity.
  - discriminate.
Qed.

End Reply.

Lemma postResponseToXClone_missing_target_witness :
  let w := world post_no_ext NEW [response1] in
  exists w',
    postResponseToXClone (env_verdict "FALSE" (http 200 "ok")) (js "r1") w
    = (Throw (Error (js "Detected post not found for threat")), w')
    /\ requests w' = requests w
    /\ w' = w.
Proof.
  intros w.
  apply (postResponseToXClone_missing_target
           (env_verdict "FALSE" (http 200 "ok")) (js "r1") w
           response1 (threat1 NEW) post_no_ext);
    reflexivity.
Defined.

Lemma postResponseToXClone_http_failure_witness :
  let w := world post1 NEW [response1] in
  let err := Error (js "X-clone response: boom") in
  exists w',
    postResponseToXClone (env_verdict "FALSE" (http 500 "boom")) (js "r1") w
    = (Throw err, w')
    /\ option_map r_status (find_response (js "r1") w') = Some FAILED
    /\ emitted w'
       = [mkWsEvent (js "response_failed")
            (ResponseFailed (js "r1") (js "t1") (js "X-clone response: boom"))]
    /\ err_message err <> [].
Proof.
  intros w err.
  apply (postResponseToXClone_http_failure
           (env_verdict "FALSE" (http 500 "boom")) (js "r1") w
           response1 (threat1 NEW) post1 eq_refl eq_refl eq_refl (js "x1")
           (mkHttpResponse 500 (js "boom")));
    reflexivity.
Defined.

(** The two shapes of a publication run: it threw before any request and
    changed nothing, or it sent one request, set the status of the Response
    and told the broadcaster. *)
Lemma postResponseToXClone_shape env rid w res w' :
  postResponseToXClone env rid w = (res, w') ->
  (w' = w /\ exists e, res = Throw e)
  \/ (exists req st at_ ev p,
        w' = notify ev p (mark_response rid st at_ (sent req w))).
Proof.
  intros Hrun.
  assert (Hearly : forall e, (res, w') = (Throw e, w) ->
            (w' = w /\ exists e', res = Throw e')
            \/ (exists req st at_ ev p,
                  w' = notify ev p (mark_response rid st at_ (sent req w)))).
  { intros e [= -> ->]. left. split; [reflexivity|]. now exists e. }
  destruct (find_response rid w) as [response|] eqn:Hr.
  2:{ unfold postResponseToXClone, bind, get in Hrun. rewrite Hr in Hrun.
      eapply Hearly. symmetry. exact Hrun. }
  destruct (find_threat (r_threatId response) w) as [threat|] eqn:Ht.
  2:{ unfold postResponseToXClone, bind, get in Hrun.
      rewrite Hr, Ht in Hrun. unfold ret at 1 in Hrun.
      cbn [missing] in Hrun.
      eapply Hearly. symmetry. exact Hrun. }
  destruct (find_detectedPost (t_detectedPostId threat) w) as [dp|] eqn:Hd.
  2:{ unfold postResponseToXClone, bind, get in Hrun.
      rewrite Hr, Ht, Hd in Hrun. unfold relation, throw in Hrun.
      eapply Hearly. symmetry. exact Hrun. }
  destruct (externalPostId dp) as [ext|] eqn:He.
  2:{ rewrite (postResponseToXClone_unfold env rid w response threat dp
                 Hr Ht Hd) in Hrun.
      rewrite He in Hrun. cbn [missing] in Hrun.
      eapply Hearly. symmetry. exact Hrun. }
  destruct (nonempty ext) eqn:Hn.
  2:{ rewrite (postResponseToXClone_unfold env rid w response threat dp
                 Hr Ht Hd) in Hrun.
      rewrite He in Hrun. unfold missing in Hrun. rewrite Hn in Hrun.
      cbn [negb] in Hrun.
      eapply Hearly. symmetry. exact Hrun. }
  right.
  rewrite (postResponseToXClone_outcome env rid w response threat dp
             Hr Ht Hd ext He Hn) in Hrun.
  cbv zeta in Hrun.
  destruct (fetch env _) as [e|r].
  - injection Hrun as _ <-. now do 5 eexists.
  - destruct (ok r); injection Hrun as _ <-; now do 5 eexists.
Qed.

(** C10. When [postResponseToXClone] throws before the request is made,
    because the Response is not found or the post's external id is
    missing, the world is left as it was: the Response row keeps its status
    and no [response_failed] event goes out.  More generally a run that
    sent no request changed nothing and threw; the FAILED transition and
    the failure event only come with a request. *)
Theorem postResponseToXClone_early_throw_leaves_row env rid w :
  (find_response rid w = None ->
   postResponseToXClone env rid w
   = (Throw (Error (js "Response not found")), w))
  /\ (forall response threat dp,
        find_response rid w = Some response ->
        find_threat (r_threatId response) w = Some threat ->
        find_detectedPost (t_detectedPostId threat) w = Some dp ->
        missing (externalPostId dp) = true ->
        postResponseToXClone env rid w
        = (Throw (Error (js "Detected post not found for threat")), w))
  /\ (forall res w',
        postResponseToXClone env rid w = (res, w') ->
        requests w' = requests w ->
        w' = w
        /\ responses w' = responses w
        /\ emitted w' = emitted w
        /\ exists e, res = Throw e).
Proof.
  split; [|split].
  - intros Hr. unfold postResponseToXClone, bind, get. now rewrite Hr.
  - intros response threat dp Hr Ht Hd Hm.
    rewrite (postResponseToXClone_unfold env rid w response threat dp Hr Ht Hd).
    now rewrite Hm.
  - intros res w' Hrun Hreq.
    destruct (postResponseToXClone_shape env rid w res w' Hrun)
      as [[-> He]|(req & st & at_ & ev & p & ->)].
    + repeat split. exact He.
    + exfalso. rewrite requests_notify in Hreq.
      now apply app_one_neq in Hreq.
Qed.

Lemma postResponseToXClone_early_throw_leaves_row_witness :
  let e := env_verdict "FALSE" (http 500 "boom") in
  let w := world post_no_ext NEW [response1] in
  postResponseToXClone e (js "r0") w
  = (Throw (Error (js "Response not found")), w)
  /\ postResponseToXClone e (js "r1") w
     = (Throw (Error (js "Detected post not found for threat")), w)
  /\ option_map r_status (find_response (js "r1") w) = Some PENDING.
Proof.
  intros e w.
  split; [|split].
  - apply (proj1 (postResponseToXClone_early_throw_leaves_row e (js "r0") w)).
    reflexivity.
  - apply (proj1 (proj2
             (postResponseToXClone_early_throw_leaves_row e (js "r1") w))
             response1 (threat1 NEW) post_no_ext);
      reflexivity.
  - reflexivity.
Defined.

(** ** The orchestrated chain *)

Lemma set_response_status_content st at_ r :
  r_content (set_response_status st at_ r) = r_content r.
Proof. reflexivity. Qed.

(** Publishing keeps the threat's Response and its content in the table. *)
Lemma postResponseToXClone_keeps_content env rid w res w' tid r :
  postResponseToXClone env rid w = (res, w') ->
  find_response_by_threat tid w = Some r ->
  exists r',
    find_response_by_threat tid w' = Some r'
    /\ r_content r' = r_content r.
Proof.
  intros Hrun Hf.
  destruct (postResponseToXClone_shape env rid w res w' Hrun)
    as [[-> _]|(req & st & at_ & ev & p & ->)].
  - now exists r.
  - unfold find_response_by_threat. rewrite responses_notify.
    unfold find_response_by_threat in Hf.
    destruct (find_update_first_other
                (fun x => str_eqb (r_id x) rid)
                (fun x => str_eqb (r_threatId x) tid)
                (set_response_status st at_) (responses w) r
                (fun _ => eq_refl) Hf) as [H|H];
      eexists; (split; [exact H|reflexivity]).
Qed.

(** The response policy as far as [handleThreatVerifyRespond] keeps it,
    once verification has produced a status: when the status is FALSE or
    UNVERIFIED the chain synthesizes, and with the oracle's correction text
    in hand the threat's Response is in the table afterwards, holding the
    synthesized content (PENDING, and returned as "responded", when
    autopost is off), while an oracle call that rejects ends the chain with
    that error; for every other status, TRUE among them, the table of
    Responses is untouched, the chain returns "no_response_needed", and the
    one event sent is [verification_complete]; so a run that changed the
    table of Responses had FALSE or UNVERIFIED. *)
Theorem handleThreatVerifyRespond_response_policy env tid autopost w threat dp brand v w1 :
  find_threat tid w = Some threat ->
  find_detectedPost (t_detectedPostId threat) w = Some dp ->
  find_brand (t_brandId threat) w = Some brand ->
  verifyThreat env tid w = (Ok v, w1) ->
  let st := vr_verificationStatus v in
  let respond := str_eqb st (js "FALSE") || str_eqb st (js "UNVERIFIED") in
  let ask := correction_request (b_name brand) (dp_content dp) in
  (respond = true <-> st = js "FALSE" \/ st = js "UNVERIFIED")
  /\ (respond = true ->
      forall c, groq_create env ask = GroqResolves c ->
      exists res w' r,
        handleThreatVerifyRespond env tid autopost w = (res, w')
        /\ find_response_by_threat tid w' = Some r
        /\ r_content r
           = htmlContent (enforce_limit (rawContent_of c (b_name brand)))
               (verifiedSourcesHTML
                  (List.map s_url
                     (scrapedItem_findMany env (ByIds (vr_evidenceIds v) 3))))
        /\ (autopost = false ->
            res = Ok (mkHandleResult false (js "responded") (Some (r_id r)) None)
            /\ r_status r = PENDING))
  /\ (respond = true ->
      forall e, groq_create env ask = GroqRejects e ->
      handleThreatVerifyRespond env tid autopost w = (Throw e, w1))
  /\ (respond = false ->
      exists w',
        handleThreatVerifyRespond env tid autopost w
        = (Ok (mkHandleResult true (js "no_response_needed") None (Some st)), w')
        /\ responses w' = responses w
        /\ requests w' = requests w
        /\ emitted w'
           = emitted w
             ++ (if wsBroadcast w then
                   [mkWsEvent (js "verification_complete")
                      (VerificationNotice tid (js "VERIFIED_TRUE")
                         (CHECK_MARK ++ js " Verified as true " ++ EM_DASH
                          ++ js " no response needed"))]
                 else []))
  /\ (forall res w',
        handleThreatVerifyRespond env tid autopost w = (res, w') ->
        responses w' <> responses w ->
        st = js "FALSE" \/ st = js "UNVERIFIED").
Proof.
  intros Ht Hd Hb Hv st respond ask.
  pose proof (verifyThreat_ok_inv env tid w threat dp v w1 Ht Hd Hv) as Hw1.
  assert (Ht1 : find_threat tid w1
                = Some (set_verification (vr_verificationStatus v)
                          (vr_verificationConfidence v)
                          (vr_verificationSummary v) (vr_evidenceIds v) threat)).
  { rewrite Hw1. now apply find_threat_verified_as. }
  assert (Hd1 : find_detectedPost (t_detectedPostId threat) w1 = Some dp).
  { rewrite Hw1. exact Hd. }
  assert (Hb1 : find_brand (t_brandId threat) w1 = Some brand).
  { rewrite Hw1. exact Hb. }
  assert (Hrun : handleThreatVerifyRespond env tid autopost w
                 = (if respond then
                      resp <- generateResponseForFalse env tid ;;
                      (if autopost then postResponseToXClone env (r_id resp)
                       else ret tt) ;;;
                      ret (mkHandleResult false (js "responded")
                             (Some (r_id resp)) None)
                    else
                      broadcast (js "verification_complete")
                        (VerificationNotice tid (js "VERIFIED_TRUE")
                           (CHECK_MARK ++ js " Verified as true " ++ EM_DASH
                            ++ js " no response needed")) ;;;
                      ret (mkHandleResult true (js "no_response_needed") None
                             (Some st))) w1).
  { unfold handleThreatVerifyRespond. erewrite bind_ok by exact Hv.
    reflexivity. }
  assert (Hiff : respond = true <-> st = js "FALSE" \/ st = js "UNVERIFIED").
  { unfold respond. rewrite orb_true_iff, !str_eqb_eq. reflexivity. }
  split; [exact Hiff|]. split; [|split; [|split]].
  - intros Hr c Hc. rewrite Hrun, Hr.
    destruct (generateResponseForFalse_resolves env tid w1 _ dp brand c
                Ht1 Hd1 Hb1 Hc)
      as (resp & w2 & Hg & Hf & _ & Hcont & Hst & _).
    erewrite bind_ok by exact Hg.
    destruct autopost.
    + destruct (postResponseToXClone env (r_id resp) w2) as [res0 w3] eqn:Hp.
      destruct (postResponseToXClone_keeps_content env (r_id resp) w2 res0 w3
                  tid resp Hp Hf) as (r' & Hf' & Hc').
      unfold bind at 1. rewrite Hp.
      destruct res0 as [[]|e0].
      * exists (Ok (mkHandleResult false (js "responded") (Some (r_id resp)) None)),
          w3, r'.
        split; [reflexivity|]. split; [exact Hf'|].
        split; [now rewrite Hc', Hcont|]. discriminate.
      * exists (Throw e0), w3, r'.
        split; [reflexivity|]. split; [exact Hf'|].
        split; [now rewrite Hc', Hcont|]. discriminate.
    + exists (Ok (mkHandleResult false (js "responded") (Some (r_id resp)) None)),
        w2, resp.
      split; [reflexivity|]. split; [exact Hf|].
      split; [exact Hcont|]. intros _. split; [reflexivity|exact Hst].
  - intros Hr e He. rewrite Hrun, Hr.
    erewrite bind_throw; [reflexivity|].
    eapply generateResponseForFalse_rejects; eassumption.
  - intros Hr. rewrite Hrun, Hr.
    eexists. split; [reflexivity|].
    rewrite responses_notify, requests_notify, emitted_notify, Hw1.
    repeat split.
  - intros res w' Hrun' Hne. apply Hiff.
    assert (Hcases : respond = true \/ respond = false)
      by (destruct respond; auto).
    destruct Hcases as [Hr|Hr]; [exact Hr|].
    exfalso. apply Hne.
    rewrite Hrun, Hr in Hrun'.
    unfold bind, broadcast, modify, ret in Hrun'.
    injection Hrun' as _ <-.
    now rewrite responses_notify, Hw1.
Qed.

Lemma handleThreatVerifyRespond_response_policy_witness :
  let w := world post1 NEW [] in
  let tid := js "t1" in
  (exists res w' r,
     handleThreatVerifyRespond env_uncredible tid false w = (res, w')
     /\ find_response_by_threat tid w' = Some r
     /\ res = Ok (mkHandleResult false (js "responded") (Some (r_id r)) None)
     /\ r_status r = PENDING)
  /\ (exists w',
        handleThreatVerifyRespond (env_verdict "TRUE" (http 200 "ok")) tid
          false w
        = (Ok (mkHandleResult true (js "no_response_needed") None
                 (Some (js "TRUE"))), w')
        /\ responses w' = responses w).
Proof.
  intros w tid. split.
  - pose (v := mkVerifyResult (js "FALSE") (num 80) NO_TRUSTED_OUTLET
                 [js "s1"; js "s2"; js "s3"]).
    destruct (proj1 (proj2
                (handleThreatVerifyRespond_response_policy env_uncredible tid false w
                   (threat1 NEW) post1 brand1 v (verified_as tid v w)
                   eq_refl eq_refl eq_refl eq_refl))
                eq_refl
                (mkChatCompletion
                   [mkChoice (Some (js "This claim is not accurate."))])
                eq_refl)
      as (res & w' & r & H1 & H2 & _ & H4).
    destruct (H4 eq_refl) as [H5 H6].
    exists res, w', r. repeat split; assumption.
  - pose (v := mkVerifyResult (js "TRUE") (num 50) (js "x") [js "s1"]).
    destruct (proj1 (proj2 (proj2 (proj2
                (handleThreatVerifyRespond_response_policy
                   (env_verdict "TRUE" (http 200 "ok")) tid false w
                   (threat1 NEW) post1 brand1 v (verified_as tid v w)
                   eq_refl eq_refl eq_refl eq_refl))))
                eq_refl)
      as (w' & H1 & H2 & _).
    exists w'. split; assumption.
Defined.

(** C3, at the failing input.  Verification finds evidence none of which
    is credible and stores the status FALSE; the oracle is unreachable when
    [generateResponseForFalse] asks for the correction text, and that call
    has no [catch].  The chain throws the network error, with autopost off
    as with autopost on: no Response is synthesized for the threat although
    its status is FALSE, and no [response_ready] event goes out. *)
Theorem handleThreatVerifyRespond_oracle_failure_leaves_no_response :
  let w := world post1 NEW [] in
  let v := mkVerifyResult (js "FALSE") (num 80) NO_TRUSTED_OUTLET [js "s1"] in
  let w1 := verified_as (js "t1") v w in
  verifyThreat env_synthesis_down (js "t1") w = (Ok v, w1)
  /\ handleThreatVerifyRespond env_synthesis_down (js "t1") false w
     = (Throw network_error, w1)
  /\ handleThreatVerifyRespond env_synthesis_down (js "t1") true w
     = (Throw network_error, w1)
  /\ option_map verificationStatus (find_threat (js "t1") w1)
     = Some (Some (js "FALSE"))
  /\ find_response_by_threat (js "t1") w1 = None
  /\ responses w1 = []
  /\ emitted w1 = [].
Proof.
  split; [vm_compute; reflexivity|].
  split; [vm_compute; reflexivity|].
  split; [vm_compute; reflexivity|].
  split; [vm_compute; reflexivity|].
  repeat split.
Qed.

(** ** The character budget *)

Lemma trimStart_nonspace c s :
  is_space c = false -> trimStart (c :: s) = c :: s.
Proof. intros H. simpl. now rewrite H. Qed.

(** [trim] of a text wrapped as the template wraps it: a newline before,
    a newline and two spaces after. *)
Lemma trim_wrapped first body last :
  is_space first = false ->
  is_space last = false ->
  trim (NL ++ (first :: body ++ [last]) ++ NL ++ js "  ")
  = first :: body ++ [last].
Proof.
  intros Hf Hl. unfold trim.
  change (NL ++ (first :: body ++ [last]) ++ NL ++ js "  ")
    with (10 :: (first :: body ++ [last]) ++ [10; 32; 32]).
  change (trimStart (10 :: (first :: body ++ [last]) ++ [10; 32; 32]))
    with (trimStart ((first :: body ++ [last]) ++ [10; 32; 32])).
  rewrite <- app_comm_cons.
  rewrite trimStart_nonspace by exact Hf.
  rewrite app_comm_cons.
  rewrite rev_app_distr.
  change (rev [10; 32; 32]) with [32; 32; 10].
  rewrite app_comm_cons, rev_app_distr.
  change (rev [last]) with [last].
  change (trimStart ([32; 32; 10] ++ [last] ++ rev (first :: body)))
    with (trimStart (last :: rev (first :: body))).
  rewrite trimStart_nonspace by exact Hl.
  change (last :: rev (first :: body)) with ([last] ++ rev (first :: body)).
  rewrite rev_app_distr, rev_involutive. reflexivity.
Qed.

Lemma verifiedSourcesHTML_ends l :
  exists s, verifiedSourcesHTML l = s ++ [62].
Proof.
  unfold verifiedSourcesHTML.
  destruct (Nat.ltb 0 (List.length l)).
  - exists (js "<ul>" ++ join [] (List.map source_item l) ++ js "</ul").
    rewrite <- !app_assoc. reflexivity.
  - eexists (js "<p>No verified press sources available yet.</p"). reflexivity.
Qed.

(** The stored HTML: the paragraph of the correction text, the footer and
    the sources block, with nothing before or after. *)
Lemma htmlContent_shape text l :
  htmlContent text (verifiedSourcesHTML l)
  = js "<p>" ++ text ++ footer ++ verifiedSourcesHTML l.
Proof.
  destruct (verifiedSourcesHTML_ends l) as [s Hs].
  unfold htmlContent, html_template. rewrite Hs.
  change (js "<p>") with ([60] ++ [112; 62]).
  match goal with
  | |- trim ?x = _ =>
      replace x
        with (NL ++ (60 :: ([112; 62] ++ text ++ footer ++ s) ++ [62])
              ++ NL ++ js "  ")
  end.
  2:{ simpl. rewrite <- !app_assoc. reflexivity. }
  rewrite trim_wrapped by reflexivity.
  simpl. rewrite <- !app_assoc. reflexivity.
Qed.

Lemma enforce_limit_spec raw :
  (List.length raw <= MAX_CHARS -> enforce_limit raw = raw)%nat
  /\ (MAX_CHARS < List.length raw ->
      enforce_limit raw = firstn MAX_CHARS raw ++ ELLIPSIS
      /\ List.length (enforce_limit raw) = S MAX_CHARS)%nat
  /\ (List.length (enforce_limit raw) <= S MAX_CHARS)%nat.
Proof.
  unfold enforce_limit, slice0.
  generalize MAX_CHARS. intros n.
  destruct (Nat.ltb n (List.length raw)) eqn:E.
  - apply Nat.ltb_lt in E.
    assert (L : List.length (firstn n raw ++ ELLIPSIS) = S n).
    { rewrite length_app, firstn_length_le by lia. simpl. lia. }
    split; [lia|]. split; [now split|]. lia.
  - apply Nat.ltb_ge in E. split; [reflexivity|]. split; [lia|]. lia.
Qed.

(** C4, as the code has it.  The correction text kept from the oracle's
    output is the output itself when it has at most 580 characters, and its
    first 580 characters followed by an ellipsis when it has more; the
    stored Response content is that text inside a paragraph element,
    followed by the fixed footer and the sources block. *)
Theorem generateResponseForFalse_text_budget env tid w threat dp brand c :
  find_threat tid w = Some threat ->
  find_detectedPost (t_detectedPostId threat) w = Some dp ->
  find_brand (t_brandId threat) w = Some brand ->
  groq_create env (correction_request (b_name brand) (dp_content dp))
  = GroqResolves c ->
  let raw := rawContent_of c (b_name brand) in
  let kept := enforce_limit raw in
  let sources :=
    verifiedSourcesHTML
      (List.map s_url
         (scrapedItem_findMany env (ByIds (verificationEvidenceIds threat) 3))) in
  exists resp w',
    generateResponseForFalse env tid w = (Ok resp, w')
    /\ find_response_by_threat tid w' = Some resp
    /\ r_content resp = js "<p>" ++ kept ++ footer ++ sources
    /\ (List.length raw <= MAX_CHARS -> kept = raw)%nat
    /\ (MAX_CHARS < List.length raw ->
        kept = firstn MAX_CHARS raw ++ ELLIPSIS
        /\ List.length kept = S MAX_CHARS)%nat
    /\ (List.length kept <= S MAX_CHARS)%nat.
Proof.
  intros Ht Hd Hb Hg raw kept sources.
  destruct (generateResponseForFalse_resolves env tid w threat dp brand c
              Ht Hd Hb Hg)
    as (resp & w' & Hrun & Hf & _ & Hc & _).
  exists resp, w'.
  split; [exact Hrun|]. split; [exact Hf|].
  split.
  - rewrite Hc. apply htmlContent_shape.
  - apply enforce_limit_spec.
Qed.

Lemma generateResponseForFalse_text_budget_witness :
  let w := world post1 NEW [] in
  exists resp w',
    generateResponseForFalse env_long (js "t1") w = (Ok resp, w')
    /\ find_response_by_threat (js "t1") w' = Some resp
    /\ r_content resp
       = js "<p>" ++ (repeat 97 580 ++ ELLIPSIS) ++ footer
         ++ verifiedSourcesHTML [js "https://news.example/s1"].
Proof.
  intros w.
  destruct (generateResponseForFalse_text_budget env_long (js "t1") w
              (threat1 NEW) post1 brand1
              (mkChatCompletion [mkChoice (Some long_text)])
              eq_refl eq_refl eq_refl eq_refl)
    as (resp & w' & H1 & H2 & H3 & _).
  exists resp, w'. split; [exact H1|]. split; [exact H2|].
  rewrite H3. vm_compute. reflexivity.
Defined.

(** C4 as stated fails: with 600 letters from the oracle, the stored content
    has 992 characters, over the budget of 580, and the correction text
    inside it has 581. *)
Lemma stored_content_exceeds_budget :
  let run := generateResponseForFalse env_long (js "t1") (world post1 NEW []) in
  option_map (fun r => List.length (r_content r))
    (find_response_by_threat (js "t1") (snd run))
  = Some 992%nat
  /\ Nat.ltb MAX_CHARS 992 = true
  /\ List.length (enforce_limit long_text) = 581%nat
  /\ Nat.ltb MAX_CHARS 581 = true.
Proof. vm_compute. repeat split. Qed.

(** ** Virality *)

Lemma min_100 (x : Q) : ((if Qle_bool 100 x then 100 else x) == Qmin 100 x)%Q.
Proof.
  destruct (Qle_bool 100 x) eqn:E.
  - apply Qle_bool_iff in E. symmetry. now apply Q.min_l.
  - assert (H : (x <= 100)%Q).
    { apply Qlt_le_weak, Qnot_le_lt. intros H.
      apply Qle_bool_iff in H. congruence. }
    symmetry. now apply Q.min_r.
Qed.

(** C5, as the code has it.  With a positive view count the engagement rate
    is the total engagement over the views and the virality score is the
    formula of the specification; with a view count of zero (or below) the
    engagement rate is 0 and so is the virality score. *)
Theorem viralScore_formula (data : PostData) :
  ((0 < pd_viewCount data)%Z ->
   (engagementRate data
    == inject_Z (totalEngagement data) / inject_Z (pd_viewCount data))%Q
   /\ (engagementRate data == spec_engagementRate data)%Q
   /\ (viralScore data == spec_viralScore data)%Q)
  /\ ((pd_viewCount data <= 0)%Z ->
      engagementRate data = 0%Q /\ (viralScore data == 0)%Q).
Proof.
  split.
  - intros Hv.
    assert (E : engagementRate data = spec_engagementRate data).
    { unfold engagementRate, spec_engagementRate.
      apply Z.ltb_lt in Hv. rewrite Hv.
      apply Z.ltb_lt in Hv. now rewrite Z.max_l by lia. }
    split; [|split].
    + unfold engagementRate. apply Z.ltb_lt in Hv. now rewrite Hv.
    + now rewrite E.
    + unfold viralScore, spec_viralScore. cbv zeta. rewrite E. apply min_100.
  - intros Hv.
    assert (E : engagementRate data = 0%Q).
    { unfold engagementRate.
      destruct (0 <? pd_viewCount data)%Z eqn:L; [|reflexivity].
      apply Z.ltb_lt in L. lia. }
    split; [exact E|].
    unfold viralScore. cbv zeta. rewrite E.
    set (k := (1 + inject_Z (pd_retweetCount data) * (5 # 10))%Q).
    assert (Z0 : (0 * 100 * k == 0)%Q) by ring.
    destruct (Qle_bool 100 (0 * 100 * k)) eqn:L; [|exact Z0].
    apply Qle_bool_iff in L. rewrite Z0 in L.
    exfalso. apply (Qle_not_lt _ _ L). reflexivity.
Qed.

Lemma viralScore_formula_witness :
  (engagementRate (incoming 40) == 1 # 10)%Q
  /\ (viralScore (incoming 40) == spec_viralScore (incoming 40))%Q
  /\ (viralScore (incoming 40) == 15)%Q
  /\ engagementRate (incoming 0) = 0%Q
  /\ (viralScore (incoming 0) == 0)%Q.
Proof.
  destruct (viralScore_formula (incoming 40)) as [H _].
  destruct (H eq_refl) as (H1 & _ & H3).
  destruct (viralScore_formula (incoming 0)) as [_ H'].
  destruct (H' ltac:(discriminate)) as (H4 & H5).
  split; [rewrite H1; reflexivity|].
  split; [exact H3|].
  split; [reflexivity|].
  split; [exact H4|exact H5].
Defined.

(** C5 as stated fails for a post without views: three likes and one
    retweet on zero views get engagement rate 0 and virality 0 from the
    code, where the formula of the specification gives 4 and 100. *)
Lemma zero_views_virality_differs :
  engagementRate (incoming 0) = 0%Q
  /\ (spec_engagementRate (incoming 0) == 4)%Q
  /\ (viralScore (incoming 0) == 0)%Q
  /\ (spec_viralScore (incoming 0) == 100)%Q
  /\ ~ (viralScore (incoming 0) == spec_viralScore (incoming 0))%Q
  /\ ~ (engagementRate (incoming 0) == spec_engagementRate (incoming 0))%Q.
Proof.
  repeat split; try reflexivity; vm_compute; discriminate.
Qed.

(** ** The threat upsert *)

Lemma bind_inv {A B} (m : M A) (k : A -> M B) w b w' :
  bind m k w = (Ok b, w') ->
  exists a w1, m w = (Ok a, w1) /\ k a w1 = (Ok b, w').
Proof.
  unfold bind. destruct (m w) as [[a|e] w1]; [|discriminate].
  intros H. now exists a, w1.
Qed.

Lemma groq_sentiment_world env content w r w' :
  groq_sentiment env content w = (r, w') -> w' = w.
Proof.
  unfold groq_sentiment, bind, await_groq.
  destruct (groq_create env (sentiment_request content)) as [e|c].
  - unfold throw. now intros [= _ <-].
  - unfold ret at 1.
    destruct (first_content c) as [[|x raw]|];
      try (unfold throw; now intros [= _ <-]).
    destruct (JSON_parse (x :: raw)) as [parsed|];
      [|unfold throw; now intros [= _ <-]].
    destruct (get_prop parsed (js "sentimentScore")),
             (get_prop parsed (js "tone")),
             (get_prop parsed (js "summary"));
      unfold ret, throw; now intros [= _ <-].
Qed.

Lemma detectedPost_upsert_threats data pol tone m tr reason cap w d w' :
  detectedPost_upsert data pol tone m tr reason cap w = (Ok d, w') ->
  threats w' = threats w.
Proof.
  unfold detectedPost_upsert, bind, expect_string, get, modify, freshId, ret.
  destruct tone; try (unfold throw; discriminate).
  destruct (find _ (detectedPosts w)); now intros [= _ <-].
Qed.

(** Both branches of the threat upsert leave the threat with status NEW:
    a new row is created with it, and an existing row is set back to it. *)
Lemma threat_upsert_spec dpid brandId monitorId td c1 c2 reach w :
  exists t w',
    threat_upsert dpid brandId monitorId td c1 c2 reach w = (Ok t, w')
    /\ t_status t = NEW
    /\ find (fun x => str_eqb (t_detectedPostId x) dpid) (threats w') = Some t
    /\ (forall old,
          find (fun x => str_eqb (t_detectedPostId x) dpid) (threats w)
          = Some old ->
          t = threat_update td c1 old /\ t_id t = t_id old)
    /\ (find (fun x => str_eqb (t_detectedPostId x) dpid) (threats w) = None ->
        t = threat_create (js "c" ++ decimal (idCounter w)) dpid brandId
              monitorId td c2 reach)
    /\ queued w' = queued w.
Proof.
  unfold threat_upsert, bind, get, modify, freshId, ret.
  destruct (find (fun x => str_eqb (t_detectedPostId x) dpid) (threats w))
    as [old|] eqn:E.
  - do 2 eexists. split; [reflexivity|]. simpl.
    split; [reflexivity|]. split.
    { rewrite find_update_first by reflexivity. now rewrite E. }
    split; [|split; [discriminate|reflexivity]].
    intros old' [= <-]. now split.
  - do 2 eexists. split; [reflexivity|]. simpl.
    split; [reflexivity|]. split.
    { apply find_app_new; [exact E|]. simpl. apply str_eqb_refl. }
    split; [discriminate|]. split; reflexivity.
Qed.

(** C6, as the code has it.  Whenever detection returns a threat, that
    threat is stored with lifecycle status NEW; where a threat already
    existed for the detected post, it is that row, updated, whatever its
    status was before. *)
Theorem detectAndStorePost_threat_status_new env data w t w' :
  detectAndStorePost env data w = (Ok (Some t), w') ->
  let same_post_as x := str_eqb (t_detectedPostId x) (t_detectedPostId t) in
  t_status t = NEW
  /\ find same_post_as (threats w') = Some t
  /\ (forall old,
        find same_post_as (threats w) = Some old -> t_id t = t_id old).
Proof.
  intros H. unfold detectAndStorePost in H.
  unfold try_catch at 1 in H.
  match type of H with
  | (match ?body with _ => _ end) = _ =>
      destruct body as [[o|e] w0] eqn:Hbody; [|discriminate]
  end.
  injection H as -> ->.
  apply bind_inv in Hbody. destruct Hbody as ([[score tone] summary] & w1 & Hs & Hk).
  assert (Hw1 : w1 = w).
  { unfold try_catch in Hs.
    destruct (groq_sentiment env (pd_content data) w) as [[s|e] w2] eqn:Hg;
      apply groq_sentiment_world in Hg; subst w2;
      now injection Hs as _ <-. }
  subst w1. cbv beta iota zeta in Hk.
  apply bind_inv in Hk. destruct Hk as (w1 & w2 & Hget & Hk).
  injection Hget as <- <-.
  destruct (find_monitor (pd_monitorId data) w) as [monitor|];
    [|discriminate].
  apply bind_inv in Hk. destruct Hk as (dp & w3 & Hdp & Hk).
  apply detectedPost_upsert_threats in Hdp.
  match type of Hk with
  | (if ?b then _ else _) _ = _ => destruct b; [|discriminate]
  end.
  apply bind_inv in Hk. destruct Hk as (summary' & w4 & Hsum & Hk).
  assert (w4 = w3).
  { unfold expect_string in Hsum. destruct summary; try discriminate.
    now injection Hsum as _ <-. }
  subst w4.
  apply bind_inv in Hk. destruct Hk as (created & w5 & Hup & Hk).
  apply bind_inv in Hk. destruct Hk as ([] & w6 & Hq & Hk).
  injection Hk as <- <-. injection Hq as <-.
  match type of Hup with
  | threat_upsert ?d ?b ?m ?td ?c1 ?c2 ?r w3 = _ =>
      destruct (threat_upsert_spec d b m td c1 c2 r w3)
        as (t0 & w5' & Hup' & Hst & Hfind & Hold & _ & _)
  end.
  rewrite Hup in Hup'. injection Hup' as <- <-.
  intros same_post_as. subst same_post_as.
  match type of Hfind with
  | find (fun x => str_eqb _ ?d) _ = Some _ =>
      assert (Hd : t_detectedPostId created = d)
  end.
  { apply find_some in Hfind. destruct Hfind as [_ Hfind].
    now apply str_eqb_eq in Hfind. }
  rewrite Hd.
  split; [exact Hst|]. split; [exact Hfind|].
  intros old Ho. rewrite <- Hdp in Ho. now apply Hold in Ho.
Qed.

Lemma detectAndStorePost_threat_status_new_witness :
  let w := world post1 RESPONDED [] in
  exists t w',
    detectAndStorePost env_silent (incoming 40) w = (Ok (Some t), w')
    /\ t_status t = NEW
    /\ option_map t_status (find_threat (js "t1") w) = Some RESPONDED.
Proof.
  intros w.
  destruct (detectAndStorePost env_silent (incoming 40) w)
    as [[[t|]|e] w'] eqn:E;
    try (vm_compute in E; discriminate).
  destruct (detectAndStorePost_threat_status_new env_silent (incoming 40)
              w t w' E) as (H1 & _).
  exists t, w'. split; [reflexivity|]. split; [exact H1|reflexivity].
Defined.

(** C6 as stated fails: a threat that had reached RESPONDED is back at NEW
    once its post triggers detection again. *)
Lemma retrigger_resets_responded_threat :
  let w := world post1 RESPONDED [] in
  let run := detectAndStorePost env_silent (incoming 40) w in
  option_map t_status (find_threat (js "t1") w) = Some RESPONDED
  /\ option_map t_status (find_threat (js "t1") (snd run)) = Some NEW
  /\ match fst run with
     | Ok (Some t) => t_id t = js "t1" /\ t_status t = NEW
     | _ => False
     end.
Proof. vm_compute. repeat split. Qed.

(** ** The worker and the queue *)

(** The processor catches whatever the chain throws and returns. *)
Lemma verificationWorker_returns env job w :
  exists r w', verificationWorker env job w = (Ok r, w').
Proof.
  unfold verificationWorker.
  destruct (str_eqb (job_name job) (js "verify-one")); [|now do 2 eexists].
  unfold try_catch, bind at 1.
  destruct (handleThreatVerifyRespond env (job_threatId job) (job_autopost job) w)
    as [[result|e] w1].
  - destruct (verified result); now do 2 eexists.
  - now do 2 eexists.
Qed.

(** A failure of the chain comes back from the processor as a value. *)
Lemma verificationWorker_on_failure env job w e w1 :
  job_name job = js "verify-one" ->
  handleThreatVerifyRespond env (job_threatId job) (job_autopost job) w
  = (Throw e, w1) ->
  verificationWorker env job w
  = (Ok (JobError (err_message e)),
     notify (js "verification_failed")
       (VerificationNotice (job_threatId job) (js "ERROR")
          (CROSS_MARK ++ js " Verification failed: " ++ err_message e))
       w1).
Proof.
  intros Hn Hc. unfold verificationWorker. rewrite Hn.
  change (str_eqb (js "verify-one") (js "verify-one")) with true. cbv iota.
  unfold try_catch, bind at 1. rewrite Hc. reflexivity.
Qed.

(** So every job completes on its first attempt and nothing is retried. *)
Lemma process_job_single_attempt env job w :
  exists r w', process_job env job w = (mkJobRun (Completed r) 1 [], w').
Proof.
  destruct (verificationWorker_returns env job w) as (r & w' & H).
  exists r, w'. unfold process_job. simpl. now rewrite H.
Qed.

(** What the queue does with a processor that throws every time: three
    attempts, 3000 and 6000 milliseconds apart, then failure. *)
Lemma run_attempts_throwing (processor : M JobReturn) e w :
  (forall w0, processor w0 = (Throw e, w0)) ->
  run_attempts processor defaultJobOptions 2 0 w
  = (mkJobRun (Failed e) 3 [3000; 6000], w).
Proof. intros H. simpl. rewrite !H. reflexivity. Qed.

(** C9, at the failing input.  The oracle is unreachable when the chain
    asks for the correction text, so the chain throws the network error;
    the processor returns [{ error: "Connection error." }], and the queue
    records the job as completed after one attempt with no retry scheduled. *)
Theorem verify_one_failure_is_not_retried :
  let w := world post1 NEW [] in
  let run := process_job env_synthesis_down verify_one w in
  (exists w1,
     handleThreatVerifyRespond env_synthesis_down (js "t1") false w
     = (Throw network_error, w1))
  /\ fst run
     = mkJobRun (Completed (JobError (js "Connection error."))) 1 []
  /\ emitted (snd run)
     = [mkWsEvent (js "verification_failed")
          (VerificationNotice (js "t1") (js "ERROR")
             (CROSS_MARK ++ js " Verification failed: Connection error."))].
Proof.
  intros w run. split; [|split].
  - eexists. vm_compute. reflexivity.
  - vm_compute. reflexivity.
  - vm_compute. reflexivity.
Qed.

(** ** The JSON reader does not depend on its fuel *)

Lemma skip_ws_length s : (List.length (skip_ws s) <= List.length s)%nat.
Proof.
  induction s as [|c s IH]; simpl; [lia|].
  destruct (is_json_ws c); simpl; lia.
Qed.

Lemma parse_string_length_le n : forall s t r,
  (List.length s <= n)%nat ->
  parse_string s = Some (t, r) -> (List.length r <= List.length s)%nat.
Proof.
  induction n as [|n IH]; intros s t r Hn H.
  - destruct s; [discriminate|simpl in Hn; lia].
  - destruct s as [|c s]; [discriminate|]. simpl in Hn.
    cbn [parse_string] in H.
    destruct (N.eqb c 34).
    { injection H as _ <-. simpl. lia. }
    destruct (N.eqb c 92).
    + destruct s as [|e r1]; [discriminate|].
      destruct (N.eqb e 117).
      * destruct r1 as [|h1 [|h2 [|h3 [|h4 r2]]]]; try discriminate.
        destruct (hex4 h1 h2 h3 h4); [|discriminate].
        unfold cons_unit in H.
        destruct (parse_string r2) as [[t' r']|] eqn:E; [|discriminate].
        injection H as _ <-.
        apply IH in E; simpl in *; lia.
      * destruct (escape_unit e); [|discriminate].
        unfold cons_unit in H.
        destruct (parse_string r1) as [[t' r']|] eqn:E; [|discriminate].
        injection H as _ <-.
        apply IH in E; simpl in *; lia.
    + destruct (N.ltb c 32); [discriminate|].
      unfold cons_unit in H.
      destruct (parse_string s) as [[t' r']|] eqn:E; [|discriminate].
      injection H as _ <-.
      apply IH in E; simpl in *; lia.
Qed.

Lemma parse_string_length s t r :
  parse_string s = Some (t, r) -> (List.length r <= List.length s)%nat.
Proof. now apply (parse_string_length_le (List.length s)). Qed.

Lemma read_digits_length dv base s : forall acc n v k r,
  read_digits dv base acc n s = (v, k, r) ->
  (List.length r <= List.length s)%nat.
Proof.
  induction s as [|c s IH]; simpl; intros acc n v k r H.
  - injection H as _ _ <-. simpl. lia.
  - destruct (dv c).
    + apply IH in H. lia.
    + injection H as _ _ <-. simpl. lia.
Qed.

Lemma read_exponent_length s e r :
  read_exponent s = (e, r) -> (List.length r <= List.length s)%nat.
Proof.
  unfold read_exponent. destruct s as [|c s].
  - intros [= _ <-]. lia.
  - destruct (N.eqb c 101 || N.eqb c 69).
    2:{ intros [= _ <-]. lia. }
    destruct (match s with
              | 45 :: r' => (true, r')
              | 43 :: r' => (false, r')
              | _ => (false, s)
              end) as [neg r1] eqn:E1.
    assert (L1 : (List.length r1 <= List.length s)%nat).
    { destruct s as [|d s']; [injection E1 as _ <-; simpl; lia|].
      destruct (N.eq_dec d 45) as [->|N45];
        [injection E1 as _ <-; simpl; lia|].
      destruct (N.eq_dec d 43) as [->|N43];
        [injection E1 as _ <-; simpl; lia|].
      assert (E : (false, d :: s') = (neg, r1)).
      { rewrite <- E1. clear E1.
        destruct d as [|p]; [reflexivity|].
        repeat (destruct p as [p|p|]; try reflexivity; try congruence). }
      injection E as _ <-. lia. }
    destruct (read_digits digit_val 10 0 0%nat r1) as [[v k] r2] eqn:E2.
    apply read_digits_length in E2.
    destruct k; intros [= _ <-]; simpl in *; lia.
Qed.

Lemma parse_number_length s q r :
  parse_number s = Some (q, r) -> (List.length r <= List.length s)%nat.
Proof.
  unfold parse_number.
  destruct (match s with 45 :: r0 => (true, r0) | _ => (false, s) end)
    as [neg s1] eqn:E1.
  assert (L1 : (List.length s1 <= List.length s)%nat).
  { destruct s as [|d s']; [injection E1 as _ <-; simpl; lia|].
    destruct (N.eq_dec d 45) as [->|N45];
      [injection E1 as _ <-; simpl; lia|].
    assert (E : (false, d :: s') = (neg, s1)).
    { rewrite <- E1. clear E1.
      destruct d as [|p]; [reflexivity|].
      repeat (destruct p as [p|p|]; try reflexivity; try congruence). }
    injection E as _ <-. lia. }
  destruct s1 as [|c0 s1']; [discriminate|].
  destruct (read_digits digit_val 10 0 0%nat (c0 :: s1')) as [[ip n] s2] eqn:E2.
  apply read_digits_length in E2.
  destruct n; [discriminate|].
  destruct (N.eqb c0 48 && negb (Nat.eqb (S n) 1)); [discriminate|].
  assert (Hfrac : forall f s3,
            match s2 with
            | 46 :: r0 =>
                match read_digits digit_val 10 0 0%nat r0 with
                | (_, O, _) => None
                | (fp, (S _) as k, s3') =>
                    Some (Qmake (Z.of_N fp) (10 ^ Pos.of_nat k), s3')
                end
            | _ => Some (0%Q, s2)
            end = Some (f, s3) ->
            (List.length s3 <= List.length s2)%nat).
  { intros f s3 H.
    destruct s2 as [|d s2']; [injection H as _ <-; lia|].
    destruct (N.eq_dec d 46) as [->|N46].
    - destruct (read_digits digit_val 10 0 0%nat s2') as [[fp k] s3'] eqn:E3.
      apply read_digits_length in E3.
      destruct k; [discriminate|]. injection H as _ <-. simpl. lia.
    - assert (E : Some (0%Q, d :: s2') = Some (f, s3)).
      { rewrite <- H. clear H.
        destruct d as [|p]; [reflexivity|].
        repeat (destruct p as [p|p|]; try reflexivity; try congruence). }
      injection E as _ <-. lia. }
  match goal with
  | |- match ?fr with _ => _ end = _ -> _ =>
      destruct fr as [[f s3]|] eqn:E3; [|discriminate]
  end.
  specialize (Hfrac _ _ eq_refl).
  destruct (read_exponent s3) as [e s4] eqn:E4.
  apply read_exponent_length in E4.
  intros [= _ <-]. simpl in *. lia.
Qed.

Lemma literal_length name v s v' r :
  literal name v s = Some (v', r) -> (List.length r <= List.length s)%nat.
Proof.
  unfold literal. destruct (startsWith name s); [|discriminate].
  intros [= _ <-]. rewrite length_skipn. lia.
Qed.

(** What is left after a value is no longer than what was there. *)
Lemma parse_length f :
  (forall s v r, parse_value f s = Some (v, r) ->
                 (List.length r <= List.length s)%nat)
  /\ (forall s vs r, parse_elements f s = Some (vs, r) ->
                     (List.length r <= List.length s)%nat)
  /\ (forall s ms r, parse_members f s = Some (ms, r) ->
                     (List.length r <= List.length s)%nat).
Proof.
  induction f as [|f (IHv & IHe & IHm)].
  - repeat split; intros; discriminate.
  - split; [|split].
    + intros s v r H. cbn [parse_value] in H.
      pose proof (skip_ws_length s) as L.
      destruct (skip_ws s) as [|c r0]; [discriminate|]. simpl in L.
      destruct (N.eqb c 34).
      { destruct (parse_string r0) as [[t r']|] eqn:E; [|discriminate].
        injection H as _ <-. apply parse_string_length in E. lia. }
      destruct (N.eqb c 91).
      { pose proof (skip_ws_length r0) as L0.
        destruct (skip_ws r0) as [|c' r']; [discriminate|]. simpl in L0.
        destruct (N.eqb c' 93); [injection H as _ <-; lia|].
        destruct (parse_elements f r0) as [[vs r'']|] eqn:E; [|discriminate].
        injection H as _ <-. apply IHe in E. lia. }
      destruct (N.eqb c 123).
      { pose proof (skip_ws_length r0) as L0.
        destruct (skip_ws r0) as [|c' r']; [discriminate|]. simpl in L0.
        destruct (N.eqb c' 125); [injection H as _ <-; lia|].
        destruct (parse_members f r0) as [[ms r'']|] eqn:E; [|discriminate].
        injection H as _ <-. apply IHm in E. lia. }
      destruct (N.eqb c 110).
      { apply literal_length in H. simpl in H. lia. }
      destruct (N.eqb c 116).
      { apply literal_length in H. simpl in H. lia. }
      destruct (N.eqb c 102).
      { apply literal_length in H. simpl in H. lia. }
      destruct (parse_number (c :: r0)) as [[q r']|] eqn:E; [|discriminate].
      injection H as _ <-. apply parse_number_length in E. simpl in E. lia.
    + intros s vs r H. cbn [parse_elements] in H.
      destruct (parse_value f s) as [[v r0]|] eqn:E; [|discriminate].
      apply IHv in E.
      pose proof (skip_ws_length r0) as L0.
      destruct (skip_ws r0) as [|c r']; [discriminate|]. simpl in L0.
      destruct (N.eqb c 44).
      { destruct (parse_elements f r') as [[vs' r'']|] eqn:E'; [|discriminate].
        injection H as _ <-. apply IHe in E'. lia. }
      destruct (N.eqb c 93); [|discriminate].
      injection H as _ <-. lia.
    + intros s ms r H. cbn [parse_members] in H.
      pose proof (skip_ws_length s) as L.
      destruct (skip_ws s) as [|c r0]; [discriminate|]. simpl in L.
      destruct (N.eqb c 34); [|discriminate].
      destruct (parse_string r0) as [[k r1]|] eqn:E; [|discriminate].
      apply parse_string_length in E.
      pose proof (skip_ws_length r1) as L1.
      destruct (skip_ws r1) as [|c1 r2]; [discriminate|]. simpl in L1.
      destruct (N.eqb c1 58); [|discriminate].
      destruct (parse_value f r2) as [[v r3]|] eqn:E2; [|discriminate].
      apply IHv in E2.
      pose proof (skip_ws_length r3) as L3.
      destruct (skip_ws r3) as [|c3 r4]; [discriminate|]. simpl in L3.
      destruct (N.eqb c3 44).
      { destruct (parse_members f r4) as [[ms' r5]|] eqn:E4; [|discriminate].
        injection H as _ <-. apply IHm in E4. lia. }
      destruct (N.eqb c3 125); [|discriminate].
      injection H as _ <-. lia.
Qed.

(** With fuel past twice the length of the text, more fuel changes
    nothing. *)
Lemma parse_fuel f1 :
  (forall s f2,
      (2 * List.length s + 1 <= f1)%nat -> (2 * List.length s + 1 <= f2)%nat ->
      parse_value f1 s = parse_value f2 s)
  /\ (forall s f2,
        (2 * List.length s + 2 <= f1)%nat -> (2 * List.length s + 2 <= f2)%nat ->
        parse_elements f1 s = parse_elements f2 s)
  /\ (forall s f2,
        (2 * List.length s + 2 <= f1)%nat -> (2 * List.length s + 2 <= f2)%nat ->
        parse_members f1 s = parse_members f2 s).
Proof.
  induction f1 as [|f1 (IHv & IHe & IHm)].
  - repeat split; intros; lia.
  - split; [|split].
    + intros s [|f2] H1 H2; [lia|]. cbn [parse_value].
      pose proof (skip_ws_length s) as L.
      destruct (skip_ws s) as [|c r]; [reflexivity|]. simpl in L.
      destruct (N.eqb c 34); [reflexivity|].
      destruct (N.eqb c 91).
      { pose proof (skip_ws_length r) as L0.
        destruct (skip_ws r) as [|c' r']; [reflexivity|].
        destruct (N.eqb c' 93); [reflexivity|].
        rewrite (IHe r f2) by lia. reflexivity. }
      destruct (N.eqb c 123); [|reflexivity].
      pose proof (skip_ws_length r) as L0.
      destruct (skip_ws r) as [|c' r']; [reflexivity|].
      destruct (N.eqb c' 125); [reflexivity|].
      rewrite (IHm r f2) by lia. reflexivity.
    + intros s [|f2] H1 H2; [lia|]. cbn [parse_elements].
      rewrite (IHv s f2) by lia.
      destruct (parse_value f2 s) as [[v r]|] eqn:E; [|reflexivity].
      apply (proj1 (parse_length f2)) in E.
      pose proof (skip_ws_length r) as L0.
      destruct (skip_ws r) as [|c r']; [reflexivity|]. simpl in L0.
      destruct (N.eqb c 44); [|reflexivity].
      rewrite (IHe r' f2) by lia. reflexivity.
    + intros s [|f2] H1 H2; [lia|]. cbn [parse_members].
      pose proof (skip_ws_length s) as L.
      destruct (skip_ws s) as [|c r]; [reflexivity|]. simpl in L.
      destruct (N.eqb c 34); [|reflexivity].
      destruct (parse_string r) as [[k r1]|] eqn:E; [|reflexivity].
      apply parse_string_length in E.
      pose proof (skip_ws_length r1) as L1.
      destruct (skip_ws r1) as [|c1 r2]; [reflexivity|]. simpl in L1.
      destruct (N.eqb c1 58); [|reflexivity].
      rewrite (IHv r2 f2) by lia.
      destruct (parse_value f2 r2) as [[v r3]|] eqn:E2; [|reflexivity].
      apply (proj1 (parse_length f2)) in E2.
      pose proof (skip_ws_length r3) as L3.
      destruct (skip_ws r3) as [|c3 r4]; [reflexivity|]. simpl in L3.
      destruct (N.eqb c3 44); [|reflexivity].
      rewrite (IHm r4 f2) by lia. reflexivity.
Qed.

(** [JSON_parse] reads with enough fuel: any larger amount gives the same
    value or the same refusal. *)
Lemma parse_value_fuel text f :
  (2 * List.length text + 2 <= f)%nat ->
  parse_value f text = parse_value (2 * List.length text + 2) text.
Proof.
  intros H. apply (proj1 (parse_fuel f)); lia.
Qed.

(** * Further properties of the services *)

Import Scenario.

(** ** Verification: what every run has in common *)

Lemma verifyThreat_not_found env tid w :
  find_threat tid w = None ->
  verifyThreat env tid w = (Throw (Error (js "Threat not found")), w).
Proof.
  intros H. unfold verifyThreat, threat_findUnique.
  unfold bind at 1. unfold bind at 1. unfold get at 1. unfold ret at 1.
  now rewrite H.
Qed.

Lemma verifyThreat_dangling env tid w threat :
  find_threat tid w = Some threat ->
  find_detectedPost (t_detectedPostId threat) w = None ->
  exists e, verifyThreat env tid w = (Throw e, w).
Proof.
  intros Ht Hd. unfold verifyThreat, threat_findUnique.
  unfold bind at 1. unfold bind at 1. unfold get at 1. unfold ret at 1.
  rewrite Ht.
  unfold bind at 1. unfold get at 1.
  unfold bind at 1. rewrite Hd. unfold relation at 1. unfold throw at 1.
  eexists. reflexivity.
Qed.

(** What [Math.max(0, Math.min(100, x))] makes of a number. *)
Lemma clamp_confidence x :
  x <> NaN ->
  exists q, Math_max (num 0) (Math_min (num 100) x) = Fin q
            /\ (0 <= q)%Q /\ (q <= 100)%Q.
Proof.
  intros Hx. destruct x as [|q| |]; [now elim Hx| | |].
  - unfold Math_min, num, jn_le.
    destruct (Qle_bool (inject_Z 100) q) eqn:E.
    + exists 100%Q. split; [reflexivity|split; discriminate].
    + unfold Math_max, jn_le.
      destruct (Qle_bool (inject_Z 0) q) eqn:E0.
      * exists q. split; [reflexivity|]. split.
        -- now apply Qle_bool_iff in E0.
        -- apply Qlt_le_weak. apply Qnot_le_lt. intros L.
           apply Qle_bool_iff in L.
           change (inject_Z 100) with 100%Q in E. congruence.
      * exists 0%Q. split; [reflexivity|split; discriminate].
  - exists 100%Q. split; [reflexivity|split; discriminate].
  - exists 0%Q. split; [reflexivity|split; discriminate].
Qed.

Lemma truthy_or_not_NaN n d :
  d <> NaN -> (if jn_truthy n then n else d) <> NaN.
Proof.
  intros Hd. destruct n as [|q| |]; simpl; try assumption; try discriminate.
  destruct (negb (Qeq_bool q 0)); [discriminate|assumption].
Qed.

(** The confidence of every verdict the oracle stage lets through. *)
Lemma judge_confidence env claim hl w st conf sm w' :
  judge env claim hl w = (Ok (st, conf, sm), w') ->
  exists q, conf = Fin q /\ (0 <= q)%Q /\ (q <= 100)%Q.
Proof.
  unfold judge, bind, await_groq.
  destruct (groq_create env (judge_request claim hl)) as [e|c];
    [discriminate|].
  unfold ret at 1.
  destruct (JSON_parse (raw_of c)) as [parsed|]; [|discriminate].
  destruct (get_prop parsed (js "verdict")) as [verdict|]; [|discriminate].
  destruct (get_prop parsed (js "confidence")) as [cf|]; [|discriminate].
  destruct (get_prop parsed (js "reason")) as [reason|]; [|discriminate].
  cbv zeta. unfold ret. intros [= _ <- _ _].
  apply clamp_confidence. apply truthy_or_not_NaN. discriminate.
Qed.

(** The verdict stage of [verifyThreat]: it always yields a verdict, with a
    confidence between 0 and 100, and leaves the world alone. *)
Lemma verdict_stage_bounds env (scraped credible : list ScrapedItem) claim w :
  exists st conf sm,
    (if Nat.eqb (List.length scraped) 0 then
       ret (JStr (js "UNVERIFIED"), num 35, JStr NO_COVERAGE)
     else if Nat.eqb (List.length credible) 0 then
       ret (JStr (js "FALSE"), num 80, JStr NO_TRUSTED_OUTLET)
     else
       try_catch (judge env claim (headlines_of credible))
         (fun _ => ret (JStr (js "UNVERIFIED"), num 60, JStr JUDGE_FALLBACK)))
      w
    = (Ok (st, conf, sm), w)
    /\ exists q, conf = Fin q /\ (0 <= q)%Q /\ (q <= 100)%Q.
Proof.
  destruct (Nat.eqb (List.length scraped) 0).
  { do 3 eexists. split; [reflexivity|].
    exists 35%Q. split; [reflexivity|split; discriminate]. }
  destruct (Nat.eqb (List.length credible) 0).
  { do 3 eexists. split; [reflexivity|].
    exists 80%Q. split; [reflexivity|split; discriminate]. }
  unfold try_catch.
  destruct (judge env claim (headlines_of credible) w) as [[[[st conf] sm]|e] w']
    eqn:E.
  - pose proof (judge_world _ _ _ _ _ _ E) as ->.
    do 3 eexists. split; [reflexivity|].
    eapply judge_confidence. exact E.
  - pose proof (judge_world _ _ _ _ _ _ E) as ->.
    do 3 eexists. split; [reflexivity|].
    exists 60%Q. split; [reflexivity|split; discriminate].
Qed.

(** Storing a verdict either refuses a value that is not a string, leaving
    the world as it was, or writes the row. *)
Lemma store_cases tid st conf sm ids w threat :
  find_threat tid w = Some threat ->
  (exists e,
     bind (threat_update_verification tid st conf sm ids)
       (fun stored => ret (mkVerifyResult (fst stored) conf (snd stored) ids)) w
     = (Throw e, w))
  \/ (exists st' sm',
        st = JStr st' /\ sm = JStr sm'
        /\ bind (threat_update_verification tid st conf sm ids)
             (fun stored =>
                ret (mkVerifyResult (fst stored) conf (snd stored) ids)) w
           = (Ok (mkVerifyResult st' conf sm' ids),
              verified_as tid (mkVerifyResult st' conf sm' ids) w)).
Proof.
  intros Ht.
  destruct st as [| | |st| |], sm as [| | |sm| |];
    try (left; eexists;
         unfold threat_update_verification, expect_string, bind, throw, ret;
         reflexivity).
  right. exists st, sm. split; [reflexivity|]. split; [reflexivity|].
  eapply store_verdict. exact Ht.
Qed.

(** Every run of [verifyThreat], seen from outside. *)
Lemma verifyThreat_cases env tid w res w' :
  verifyThreat env tid w = (res, w') ->
  (w' = w /\ exists e, res = Throw e)
  \/ (exists v threat dp q,
        res = Ok v /\ w' = verified_as tid v w
        /\ find_threat tid w = Some threat
        /\ find_detectedPost (t_detectedPostId threat) w = Some dp
        /\ vr_evidenceIds v = List.map s_id (scraped_for env threat dp)
        /\ vr_verificationConfidence v = Fin q
        /\ (0 <= q)%Q /\ (q <= 100)%Q).
Proof.
  intros Hrun.
  destruct (find_threat tid w) as [threat|] eqn:Ht.
  2:{ rewrite (verifyThreat_not_found env tid w Ht) in Hrun.
      injection Hrun as <- <-. left. split; [reflexivity|]. eexists.
      reflexivity. }
  destruct (find_detectedPost (t_detectedPostId threat) w) as [dp|] eqn:Hd.
  2:{ destruct (verifyThreat_dangling env tid w threat Ht Hd) as [e He].
      rewrite He in Hrun. injection Hrun as <- <-.
      left. split; [reflexivity|]. now exists e. }
  rewrite (verifyThreat_unfold env tid w threat dp Ht Hd) in Hrun.
  cbv zeta in Hrun.
  destruct (verdict_stage_bounds env (scraped_for env threat dp)
              (filter is_credible (scraped_for env threat dp))
              (dp_content dp) w) as (st & conf & sm & Hv & q & Hq & Hlo & Hhi).
  erewrite bind_ok in Hrun by exact Hv.
  cbv beta iota in Hrun.
  destruct (store_cases tid st conf sm
              (List.map s_id (scraped_for env threat dp)) w threat Ht)
    as [[e He]|(st' & sm' & -> & -> & Hs)].
  - rewrite He in Hrun. injection Hrun as <- <-.
    left. split; [reflexivity|]. now exists e.
  - rewrite Hs in Hrun. injection Hrun as <- <-.
    right. exists (mkVerifyResult st' conf sm'
                     (List.map s_id (scraped_for env threat dp))), threat, dp, q.
    repeat split; assumption.
Qed.

Lemma find_update_first_neq {A} (p q : A -> bool) (f : A -> A) l :
  (forall x, q (f x) = q x) ->
  (forall x, p x = true -> q x = false) ->
  find q (update_first p f l) = find q l.
Proof.
  intros Hq Hpq. induction l as [|x l IH]; simpl; [reflexivity|].
  destruct (p x) eqn:Ep; simpl.
  - now rewrite Hq, (Hpq x Ep).
  - now rewrite IH.
Qed.

Lemma length_update_first {A} (p : A -> bool) (f : A -> A) l :
  List.length (update_first p f l) = List.length l.
Proof.
  induction l as [|x l IH]; simpl; [reflexivity|].
  destruct (p x); simpl; [reflexivity|now rewrite IH].
Qed.

Lemma update_first_idem {A} (p : A -> bool) (f : A -> A) l :
  (forall x, p (f x) = p x) ->
  (forall x, f (f x) = f x) ->
  update_first p f (update_first p f l) = update_first p f l.
Proof.
  intros Hp Hf. induction l as [|x l IH]; simpl; [reflexivity|].
  destruct (p x) eqn:Ep; simpl.
  - now rewrite Hp, Ep, Hf.
  - now rewrite Ep, IH.
Qed.

Lemma str_eqb_neq (a b : jsstring) : a <> b -> str_eqb a b = false.
Proof.
  intros H. destruct (str_eqb a b) eqn:E; [|reflexivity].
  apply str_eqb_eq in E. contradiction.
Qed.

(** The oracle stage computes the same verdict in every world. *)
Lemma judge_any_world env claim hl w w1 :
  fst (judge env claim hl w) = fst (judge env claim hl w1).
Proof.
  unfold judge, bind, await_groq.
  destruct (groq_create env (judge_request claim hl)) as [e|c];
    [reflexivity|].
  unfold ret at 1. unfold ret at 2.
  destruct (JSON_parse (raw_of c)) as [parsed|]; [|reflexivity].
  destruct (get_prop parsed (js "verdict")),
           (get_prop parsed (js "confidence")),
           (get_prop parsed (js "reason")); reflexivity.
Qed.

Lemma verdict_stage_any_world env (scraped credible : list ScrapedItem) claim
  w w1 verdict :
  (if Nat.eqb (List.length scraped) 0 then
     ret (JStr (js "UNVERIFIED"), num 35, JStr NO_COVERAGE)
   else if Nat.eqb (List.length credible) 0 then
     ret (JStr (js "FALSE"), num 80, JStr NO_TRUSTED_OUTLET)
   else
     try_catch (judge env claim (headlines_of credible))
       (fun _ => ret (JStr (js "UNVERIFIED"), num 60, JStr JUDGE_FALLBACK)))
    w
  = (Ok verdict, w) ->
  (if Nat.eqb (List.length scraped) 0 then
     ret (JStr (js "UNVERIFIED"), num 35, JStr NO_COVERAGE)
   else if Nat.eqb (List.length credible) 0 then
     ret (JStr (js "FALSE"), num 80, JStr NO_TRUSTED_OUTLET)
   else
     try_catch (judge env claim (headlines_of credible))
       (fun _ => ret (JStr (js "UNVERIFIED"), num 60, JStr JUDGE_FALLBACK)))
    w1
  = (Ok verdict, w1).
Proof.
  destruct (Nat.eqb (List.length scraped) 0).
  { unfold ret. now intros [= <-]. }
  destruct (Nat.eqb (List.length credible) 0).
  { unfold ret. now intros [= <-]. }
  unfold try_catch.
  pose proof (judge_any_world env claim (headlines_of credible) w w1) as Hj.
  destruct (judge env claim (headlines_of credible) w) as [r w2] eqn:E.
  destruct (judge env claim (headlines_of credible) w1) as [r1 w3] eqn:E1.
  apply judge_world in E. apply judge_world in E1. subst w2 w3.
  simpl in Hj. subst r1.
  destruct r as [x|e]; unfold ret; now intros [= <-].
Qed.

(** X1. Whatever evidence there is and whatever the oracle answers, the
    confidence [verifyThreat] returns is a finite number between 0 and 100,
    and it is the confidence stored on the threat. *)
Theorem verifyThreat_confidence_bounds env tid w v w1 :
  verifyThreat env tid w = (Ok v, w1) ->
  exists q,
    vr_verificationConfidence v = Fin q
    /\ (0 <= q)%Q /\ (q <= 100)%Q
    /\ option_map verificationConfidence (find_threat tid w1)
       = Some (Some (Fin q)).
Proof.
  intros Hrun.
  destruct (verifyThreat_cases env tid w _ _ Hrun)
    as [[_ [e He]]|(v' & threat & dp & q & Hv & Hw & Ht & _ & _ & Hq & Hlo & Hhi)];
    [discriminate|].
  injection Hv as <-. exists q.
  split; [exact Hq|]. split; [exact Hlo|]. split; [exact Hhi|].
  subst w1. erewrite find_threat_verified_as by exact Ht.
  simpl. now rewrite Hq.
Qed.

(** X2. When the oracle's reply is usable but its [confidence] member is
    0, is missing, or does not convert to a number, the confidence returned
    is 60: a reported confidence of zero is never stored. *)
Theorem verifyThreat_confidence_default env tid w threat dp c parsed
  verdict cf reason v w1 :
  find_threat tid w = Some threat ->
  find_detectedPost (t_detectedPostId threat) w = Some dp ->
  let credible := filter is_credible (scraped_for env threat dp) in
  credible <> [] ->
  groq_create env (judge_request (dp_content dp) (headlines_of credible))
  = GroqResolves c ->
  JSON_parse (raw_of c) = Some parsed ->
  get_prop parsed (js "verdict") = Some verdict ->
  get_prop parsed (js "confidence") = Some cf ->
  get_prop parsed (js "reason") = Some reason ->
  jn_truthy (Number cf) = false ->
  verifyThreat env tid w = (Ok v, w1) ->
  vr_verificationConfidence v = num 60.
Proof.
  intros Ht Hd credible Hc Hg Hp Hverdict Hcf Hreason Hfalsy Hrun.
  rewrite (verifyThreat_unfold env tid w threat dp Ht Hd) in Hrun.
  subst credible. cbv zeta in Hrun.
  destruct (scraped_for env threat dp) as [|s0 rest] eqn:Es;
    [now elim Hc|].
  destruct (filter is_credible (s0 :: rest)) as [|c0 crest] eqn:Ec;
    [now elim Hc|].
  cbn [List.length Nat.eqb] in Hrun.
  assert (Hj : judge env (dp_content dp) (headlines_of (c0 :: crest)) w
               = (Ok (nullish_or verdict (JStr (js "UNVERIFIED")), num 60,
                      or_else reason (JStr JUDGE_SUMMARY)), w)).
  { unfold judge, bind, await_groq. rewrite Hg. unfold ret at 1.
    rewrite Hp, Hverdict, Hcf, Hreason. cbv zeta. rewrite Hfalsy.
    reflexivity. }
  erewrite bind_ok in Hrun by (erewrite try_catch_ok by exact Hj; reflexivity).
  cbv beta iota in Hrun.
  destruct (store_cases tid (nullish_or verdict (JStr (js "UNVERIFIED")))
              (num 60) (or_else reason (JStr JUDGE_SUMMARY))
              (List.map s_id (s0 :: rest)) w threat Ht)
    as [[e He]|(st' & sm' & _ & _ & Hs)].
  - rewrite He in Hrun. discriminate.
  - rewrite Hs in Hrun. now injection Hrun as <- _.
Qed.

(** X3. A run of [verifyThreat] writes to one row only.  The tables of
    posts and Responses, the events, the requests and the queue are as
    before; no threat is added or removed; every other threat reads as
    before; the lifecycle status of the threat itself is not changed; and
    a run that throws has written nothing at all. *)
Theorem verifyThreat_touches_one_row env tid w res w' :
  verifyThreat env tid w = (res, w') ->
  detectedPosts w' = detectedPosts w
  /\ responses w' = responses w
  /\ emitted w' = emitted w
  /\ requests w' = requests w
  /\ queued w' = queued w
  /\ List.length (threats w') = List.length (threats w)
  /\ (forall id, id <> tid -> find_threat id w' = find_threat id w)
  /\ option_map t_status (find_threat tid w')
     = option_map t_status (find_threat tid w)
  /\ (forall e, res = Throw e -> w' = w).
Proof.
  intros Hrun.
  destruct (verifyThreat_cases env tid w _ _ Hrun)
    as [[-> _]|(v & threat & dp & q & -> & -> & Ht & _)].
  { repeat split. }
  do 5 (split; [reflexivity|]).
  split; [|split; [|split]].
  - unfold verified_as. simpl. apply length_update_first.
  - intros id Hid. unfold find_threat, verified_as. simpl.
    apply find_update_first_neq; [reflexivity|].
    intros x Hx. apply str_eqb_eq in Hx. apply str_eqb_neq. congruence.
  - erewrite find_threat_verified_as by exact Ht. now rewrite Ht.
  - discriminate.
Qed.

(** X4. Verifying is idempotent: with the evidence store and the oracle as
    they are, a second run on the world the first run left returns the same
    result and leaves that world as it is. *)
Theorem verifyThreat_idempotent env tid w v w1 :
  verifyThreat env tid w = (Ok v, w1) ->
  verifyThreat env tid w1 = (Ok v, w1).
Proof.
  intros Hrun.
  destruct (verifyThreat_cases env tid w _ _ Hrun)
    as [[_ [e He]]|(v' & threat & dp & q & Hv & Hw & Ht & Hd & _)];
    [discriminate|].
  injection Hv as <-.
  pose proof (find_threat_verified_as tid v w threat Ht) as Ht1.
  rewrite <- Hw in Ht1.
  assert (Hd1 : find_detectedPost
                  (t_detectedPostId
                     (set_verification (vr_verificationStatus v)
                        (vr_verificationConfidence v)
                        (vr_verificationSummary v) (vr_evidenceIds v) threat))
                  w1 = Some dp).
  { rewrite Hw. exact Hd. }
  rewrite (verifyThreat_unfold env tid w threat dp Ht Hd) in Hrun.
  rewrite (verifyThreat_unfold env tid w1 _ dp Ht1 Hd1).
  change (scraped_for env
            (set_verification (vr_verificationStatus v)
               (vr_verificationConfidence v) (vr_verificationSummary v)
               (vr_evidenceIds v) threat) dp)
    with (scraped_for env threat dp).
  cbv zeta in Hrun |- *.
  destruct (verdict_stage_bounds env (scraped_for env threat dp)
              (filter is_credible (scraped_for env threat dp))
              (dp_content dp) w) as (st & conf & sm & Hstage & _).
  pose proof (verdict_stage_any_world env _ _ _ w w1 _ Hstage) as Hstage1.
  erewrite bind_ok in Hrun by exact Hstage.
  erewrite bind_ok by exact Hstage1.
  cbv beta iota in Hrun |- *.
  destruct (store_cases tid st conf sm
              (List.map s_id (scraped_for env threat dp)) w threat Ht)
    as [[e He]|(st' & sm' & -> & -> & Hs)].
  { rewrite He in Hrun. discriminate. }
  rewrite Hs in Hrun. injection Hrun as Hv Hw1.
  erewrite store_verdict by exact Ht1.
  rewrite Hv. f_equal.
  rewrite Hw. unfold verified_as, set_threats. simpl. f_equal.
  apply update_first_idem; reflexivity.
Qed.

(** X5. The evidence list [verifyThreat] returns and stores names every
    item it retrieved, in the order retrieved and whether credible or not,
    and never more than 15 of them. *)
Theorem verifyThreat_evidence_ids env tid w v w1 :
  verifyThreat env tid w = (Ok v, w1) ->
  exists threat dp,
    find_threat tid w = Some threat
    /\ find_detectedPost (t_detectedPostId threat) w = Some dp
    /\ vr_evidenceIds v = List.map s_id (scraped_for env threat dp)
    /\ (List.length (vr_evidenceIds v) <= 15)%nat
    /\ option_map verificationEvidenceIds (find_threat tid w1)
       = Some (vr_evidenceIds v).
Proof.
  intros Hrun.
  destruct (verifyThreat_cases env tid w _ _ Hrun)
    as [[_ [e He]]|(v' & threat & dp & q & Hv & Hw & Ht & Hd & Hids & _)];
    [discriminate|].
  injection Hv as <-. exists threat, dp.
  split; [exact Ht|]. split; [exact Hd|]. split; [exact Hids|]. split.
  - rewrite Hids, length_map. unfold scraped_for, scrapedItem_findMany.
    apply firstn_le_length.
  - subst w1. erewrite find_threat_verified_as by exact Ht. reflexivity.
Qed.

Lemma verifyThreat_confidence_bounds_witness :
  let w := world post1 NEW [] in
  let v := verdict50 "TRUE" in
  exists q,
    vr_verificationConfidence v = Fin q
    /\ (0 <= q)%Q /\ (q <= 100)%Q
    /\ option_map verificationConfidence
         (find_threat (js "t1") (verified_as (js "t1") v w))
       = Some (Some (Fin q)).
Proof.
  intros w v.
  apply (verifyThreat_confidence_bounds (env_verdict "TRUE" (http 200 "ok"))
           (js "t1") w v (verified_as (js "t1") v w)).
  vm_compute. reflexivity.
Defined.

Lemma verifyThreat_confidence_default_witness :
  let w := world post1 NEW [] in
  let v := mkVerifyResult (js "TRUE") (num 60) (js "x") [js "s1"] in
  verifyThreat env_zero_confidence (js "t1") w
  = (Ok v, verified_as (js "t1") v w)
  /\ vr_verificationConfidence v = num 60.
Proof.
  intros w v. split; [vm_compute; reflexivity|].
  eapply (verifyThreat_confidence_default env_zero_confidence (js "t1") w
            (threat1 NEW) post1 _ _ _ _ _ v
            (verified_as (js "t1") v w)).
  - reflexivity.
  - reflexivity.
  - vm_compute. discriminate.
  - vm_compute. reflexivity.
  - vm_compute. reflexivity.
  - vm_compute. reflexivity.
  - vm_compute. reflexivity.
  - vm_compute. reflexivity.
  - vm_compute. reflexivity.
  - vm_compute. reflexivity.
Defined.

Lemma verifyThreat_touches_one_row_witness :
  let w := world post1 RESPONDED [response1] in
  let w' := verified_as (js "t1") (verdict50 "FALSE") w in
  detectedPosts w' = detectedPosts w
  /\ responses w' = responses w
  /\ emitted w' = emitted w
  /\ requests w' = requests w
  /\ queued w' = queued w
  /\ List.length (threats w') = List.length (threats w)
  /\ (forall id, id <> js "t1" -> find_threat id w' = find_threat id w)
  /\ option_map t_status (find_threat (js "t1") w')
     = option_map t_status (find_threat (js "t1") w)
  /\ (forall e, Ok (verdict50 "FALSE") = Throw e -> w' = w).
Proof.
  intros w w'.
  apply (verifyThreat_touches_one_row (env_verdict "FALSE" (http 200 "ok"))
           (js "t1") w (Ok (verdict50 "FALSE")) w').
  vm_compute. reflexivity.
Defined.

Lemma verifyThreat_idempotent_witness :
  let e := env_verdict "FALSE" (http 200 "ok") in
  let w1 := verified_as (js "t1") (verdict50 "FALSE") (world post1 NEW []) in
  verifyThreat e (js "t1") w1 = (Ok (verdict50 "FALSE"), w1).
Proof.
  intros e w1.
  apply (verifyThreat_idempotent e (js "t1") (world post1 NEW [])).
  vm_compute. reflexivity.
Defined.

Lemma verifyThreat_evidence_ids_witness :
  let w := world post1 NEW [] in
  let v := mkVerifyResult (js "FALSE") (num 80) NO_TRUSTED_OUTLET
             [js "s1"; js "s2"; js "s3"] in
  exists threat dp,
    find_threat (js "t1") w = Some threat
    /\ find_detectedPost (t_detectedPostId threat) w = Some dp
    /\ vr_evidenceIds v = List.map s_id (scraped_for env_uncredible threat dp)
    /\ (List.length (vr_evidenceIds v) <= 15)%nat
    /\ option_map verificationEvidenceIds
         (find_threat (js "t1") (verified_as (js "t1") v w))
       = Some (vr_evidenceIds v).
Proof.
  intros w v.
  apply (verifyThreat_evidence_ids env_uncredible (js "t1") w v
           (verified_as (js "t1") v w)).
  vm_compute. reflexivity.
Defined.

(** ** Synthesis: the table of Responses *)

(** The two branches of the upsert, spelled out. *)
Lemma response_upsert_cases tid platform c srcs conf w :
  match find_response_by_threat tid w with
  | Some old =>
      response_upsert tid platform c srcs conf w
      = (Ok (set_response_content c srcs conf old),
         set_responses
           (update_first (fun x => str_eqb (r_threatId x) tid)
              (set_response_content c srcs conf)) w)
  | None =>
      let r' :=
        mkResponse (js "c" ++ decimal (idCounter w)) tid platform c srcs conf
          PENDING true None in
      response_upsert tid platform c srcs conf w
      = (Ok r', set_responses (fun l => l ++ [r']) (snd (freshId w)))
  end.
Proof.
  unfold response_upsert, bind, get, ret, modify, freshId.
  destruct (find_response_by_threat tid w); reflexivity.
Qed.

(** Every run of [generateResponseForFalse], seen from outside: it threw
    and wrote nothing, or it upserted the Response and announced it. *)
Lemma generateResponseForFalse_cases env tid w res w' :
  generateResponseForFalse env tid w = (res, w') ->
  (w' = w /\ exists e, res = Throw e)
  \/ (exists threat dp brand c resp w2,
        find_threat tid w = Some threat
        /\ find_detectedPost (t_detectedPostId threat) w = Some dp
        /\ find_brand (t_brandId threat) w = Some brand
        /\ groq_create env (correction_request (b_name brand) (dp_content dp))
           = GroqResolves c
        /\ response_upsert tid (dp_platform dp)
             (htmlContent (enforce_limit (rawContent_of c (b_name brand)))
                (verifiedSourcesHTML
                   (List.map s_url
                      (scrapedItem_findMany env
                         (ByIds (verificationEvidenceIds threat) 3)))))
             (List.map s_url
                (scrapedItem_findMany env
                   (ByIds (verificationEvidenceIds threat) 3)))
             (num_or (num 80) (verificationConfidence threat)) w
           = (Ok resp, w2)
        /\ res = Ok resp
        /\ w' = notify (js "response_ready")
                  (ResponseReady tid (r_id resp)
                     (slice0 240 (enforce_limit (rawContent_of c (b_name brand))))
                     (r_confidence resp)
                     (List.map s_url
                        (scrapedItem_findMany env
                           (ByIds (verificationEvidenceIds threat) 3))))
                  w2).
Proof.
  intros Hrun.
  assert (Hearly : forall e, (res, w') = (Throw e, w) ->
            w' = w /\ exists e', res = Throw e').
  { intros e [= -> ->]. split; [reflexivity|]. now exists e. }
  unfold generateResponseForFalse, threat_findUnique in Hrun.
  unfold bind at 1 in Hrun. unfold bind at 1 in Hrun.
  unfold get at 1 in Hrun. unfold ret at 1 in Hrun.
  destruct (find_threat tid w) as [threat|] eqn:Ht.
  2:{ left. eapply Hearly. symmetry. exact Hrun. }
  unfold bind at 1 in Hrun. unfold get at 1 in Hrun.
  unfold bind at 1 in Hrun.
  destruct (find_detectedPost (t_detectedPostId threat) w) as [dp|] eqn:Hd.
  2:{ left. eapply Hearly. symmetry. exact Hrun. }
  unfold relation at 1 in Hrun. unfold ret at 1 in Hrun.
  unfold bind at 1 in Hrun.
  destruct (find_brand (t_brandId threat) w) as [brand|] eqn:Hb.
  2:{ left. eapply Hearly. symmetry. exact Hrun. }
  unfold relation at 1 in Hrun. unfold ret at 1 in Hrun.
  cbv zeta in Hrun.
  unfold bind at 1 in Hrun.
  destruct (groq_create env (correction_request (b_name brand) (dp_content dp)))
    as [e|c] eqn:Hg.
  { left. eapply Hearly. symmetry. exact Hrun. }
  unfold await_groq at 1 in Hrun. unfold ret at 1 in Hrun.
  unfold bind at 1 in Hrun.
  match type of Hrun with
  | (match response_upsert ?a ?b ?c0 ?d ?e0 w with _ => _ end) = _ =>
      destruct (response_upsert_spec a b c0 d e0 w)
        as (resp & w2 & Hu & _)
  end.
  rewrite Hu in Hrun.
  unfold bind, broadcast, modify, ret in Hrun.
  injection Hrun as <- <-.
  right. exists threat, dp, brand, c, resp, w2.
  repeat split; try assumption; reflexivity.
Qed.

Lemma map_update_first {A B} (key : A -> B) (p : A -> bool) (f : A -> A) l :
  (forall x, key (f x) = key x) ->
  List.map key (update_first p f l) = List.map key l.
Proof.
  intros Hk. induction l as [|x l IH]; simpl; [reflexivity|].
  destruct (p x); simpl; [now rewrite Hk|now rewrite IH].
Qed.

Lemma find_none_not_in {A} (key : A -> jsstring) (k : jsstring) l :
  find (fun x => str_eqb (key x) k) l = None -> ~ In k (List.map key l).
Proof.
  induction l as [|x l IH]; simpl; [tauto|].
  destruct (str_eqb (key x) k) eqn:E; [discriminate|].
  intros Hn [Hx|Hin]; [|now apply IH].
  subst k. now rewrite str_eqb_refl in E.
Qed.

Lemma NoDup_snoc {A} (l : list A) (x : A) :
  NoDup l -> ~ In x l -> NoDup (l ++ [x]).
Proof.
  intros Hl Hx. induction Hl as [|y l Hy Hl IH]; simpl.
  - constructor; [tauto|constructor].
  - constructor.
    + rewrite in_app_iff. simpl. intros [H|[H|[]]]; [tauto|].
      subst y. apply Hx. now left.
    + apply IH. intros H. apply Hx. now right.
Qed.

(** X6. With a threat, its post and its brand in place and an oracle that
    answers, synthesis returns a Response whose correction paragraph is
    never empty: it is the oracle's trimmed text, and when the oracle sent
    no choice, no content, or only white space, it is the fallback sentence
    that opens with the brand's name. *)
Theorem generateResponseForFalse_never_blank env tid w threat dp brand c :
  find_threat tid w = Some threat ->
  find_detectedPost (t_detectedPostId threat) w = Some dp ->
  find_brand (t_brandId threat) w = Some brand ->
  groq_create env (correction_request (b_name brand) (dp_content dp))
  = GroqResolves c ->
  let raw := rawContent_of c (b_name brand) in
  let sources :=
    verifiedSourcesHTML
      (List.map s_url
         (scrapedItem_findMany env (ByIds (verificationEvidenceIds threat) 3))) in
  exists resp w',
    generateResponseForFalse env tid w = (Ok resp, w')
    /\ r_content resp = js "<p>" ++ enforce_limit raw ++ footer ++ sources
    /\ enforce_limit raw <> []
    /\ (first_content c = None \/ first_content c = Some [] ->
        raw = b_name brand
              ++ js ": This claim is incorrect. Operations remain normal.")
    /\ (forall s, first_content c = Some s -> s <> [] -> raw = s).
Proof.
  intros Ht Hd Hb Hg raw sources.
  destruct (generateResponseForFalse_resolves env tid w threat dp brand c
              Ht Hd Hb Hg)
    as (resp & w' & Hrun & _ & _ & Hc & _).
  exists resp, w'. split; [exact Hrun|]. split.
  { rewrite Hc. apply htmlContent_shape. }
  assert (Hraw : raw <> []).
  { subst raw. unfold rawContent_of, fallback_correction.
    destruct (first_content c) as [[|x s]|]; simpl.
    - destruct (b_name brand); discriminate.
    - discriminate.
    - destruct (b_name brand); discriminate. }
  split; [|split].
  - unfold enforce_limit, slice0.
    destruct (Nat.ltb MAX_CHARS (List.length raw)); [|exact Hraw].
    destruct raw; [now elim Hraw|]. discriminate.
  - subst raw. unfold rawContent_of, fallback_correction.
    intros [-> | ->]; reflexivity.
  - subst raw. unfold rawContent_of. intros s -> Hs.
    destruct s; [now elim Hs|]. reflexivity.
Qed.

Lemma generateResponseForFalse_never_blank_witness :
  let w := world post1 NEW [] in
  let raw := js "Zenith Bank: This claim is incorrect. Operations remain normal." in
  exists resp w',
    generateResponseForFalse env_blank_correction (js "t1") w = (Ok resp, w')
    /\ r_content resp
       = js "<p>" ++ raw ++ footer
         ++ verifiedSourcesHTML [js "https://news.example/s1"]
    /\ raw <> [].
Proof.
  intros w raw.
  destruct (generateResponseForFalse_never_blank env_blank_correction
              (js "t1") w (threat1 NEW) post1 brand1
              (mkChatCompletion [mkChoice (Some (js "   "))])
              eq_refl eq_refl eq_refl eq_refl)
    as (resp & w' & Hrun & Hc & Hne & _).
  exists resp, w'. split; [exact Hrun|]. split; [exact Hc|exact Hne].
Defined.

(** X7. Synthesis keeps one Response per threat.  If no two Responses
    answer the same threat before a run, none do after it.  Where the threat
    already had a Response, no row is added: that row is rewritten under its
    own id, it goes back to PENDING whatever its status was (POSTED
    included), and it keeps the time it was posted.  Where it had none, one
    row is added, not yet posted. *)
Theorem generateResponseForFalse_one_response_per_threat env tid w res w' :
  NoDup (List.map r_threatId (responses w)) ->
  generateResponseForFalse env tid w = (res, w') ->
  NoDup (List.map r_threatId (responses w'))
  /\ (forall old resp,
        find_response_by_threat tid w = Some old ->
        res = Ok resp ->
        List.length (responses w') = List.length (responses w)
        /\ find_response_by_threat tid w' = Some resp
        /\ r_id resp = r_id old
        /\ r_status resp = PENDING
        /\ postedAt resp = postedAt old)
  /\ (forall resp,
        find_response_by_threat tid w = None ->
        res = Ok resp ->
        List.length (responses w') = S (List.length (responses w))
        /\ find_response_by_threat tid w' = Some resp
        /\ r_status resp = PENDING
        /\ postedAt resp = None).
Proof.
  intros Hnd Hrun.
  destruct (generateResponseForFalse_cases env tid w res w' Hrun)
    as [[-> [e ->]]
       |(threat & dp & brand & c & resp & w2 & _ & _ & _ & _ & Hu & -> & ->)].
  { split; [exact Hnd|]. split; intros; discriminate. }
  match type of Hu with
  | response_upsert ?a ?b ?c0 ?d ?e0 w = _ =>
      pose proof (response_upsert_cases a b c0 d e0 w) as Hc
  end.
  unfold find_response_by_threat in *. rewrite responses_notify.
  destruct (find (fun r => str_eqb (r_threatId r) tid) (responses w))
    as [old|] eqn:Hf.
  - rewrite Hc in Hu. injection Hu as <- <-. simpl.
    split; [|split].
    + rewrite map_update_first by reflexivity. exact Hnd.
    + intros old' resp' [= <-] [= <-].
      split; [apply length_update_first|].
      split; [|repeat split].
      rewrite find_update_first by reflexivity. now rewrite Hf.
    + intros; discriminate.
  - cbv zeta in Hc. rewrite Hc in Hu. injection Hu as <- <-. simpl.
    split; [|split].
    + rewrite map_app. simpl. apply NoDup_snoc; [exact Hnd|].
      now apply find_none_not_in.
    + intros; discriminate.
    + intros resp' _ [= <-].
      split; [rewrite length_app; simpl; lia|].
      split; [|split; reflexivity].
      apply find_app_new; [exact Hf|]. simpl. apply str_eqb_refl.
Qed.

Lemma generateResponseForFalse_one_response_per_threat_witness :
  let w := world post1 RESPONDED [response_posted1] in
  exists resp w',
    generateResponseForFalse env_synthesis_ok (js "t1") w = (Ok resp, w')
    /\ NoDup (List.map r_threatId (responses w'))
    /\ List.length (responses w') = 1%nat
    /\ r_id resp = js "r1"
    /\ r_status resp = PENDING
    /\ postedAt resp = Some 500%Z.
Proof.
  intros w.
  destruct (generateResponseForFalse env_synthesis_ok (js "t1") w)
    as [[resp|e] w'] eqn:E; [|vm_compute in E; discriminate].
  assert (Hnd : NoDup (List.map r_threatId (responses w))).
  { constructor; [intros []|constructor]. }
  destruct (generateResponseForFalse_one_response_per_threat env_synthesis_ok
              (js "t1") w (Ok resp) w' Hnd E) as (H1 & H2 & _).
  destruct (H2 response_posted1 resp eq_refl eq_refl)
    as (Hl & _ & Hid & Hst & Hat).
  exists resp, w'. split; [reflexivity|]. split; [exact H1|].
  split; [exact Hl|]. split; [exact Hid|]. split; [exact Hst|exact Hat].
Defined.

(** X8. What synthesis tells the dashboard.  A run that throws sends
    nothing.  A run that returns hands the bound broadcaster exactly one
    [response_ready] event for the Response it returns, with a preview of at
    most 240 characters taken from the start of the correction text, the
    source URLs stored on the Response, of which there are at most three,
    and the confidence stored on it: that of the threat's verification, or
    80 when the threat has none. *)
Theorem generateResponseForFalse_announcement env tid w res w' :
  generateResponseForFalse env tid w = (res, w') ->
  match res with
  | Throw _ => emitted w' = emitted w
  | Ok resp =>
      exists threat text,
        find_threat tid w = Some threat
        /\ emitted w'
           = emitted w
             ++ (if wsBroadcast w then
                   [mkWsEvent (js "response_ready")
                      (ResponseReady tid (r_id resp) (firstn 240 text)
                         (r_confidence resp) (r_sourcesUsed resp))]
                 else [])
        /\ r_content resp
           = js "<p>" ++ text ++ footer
             ++ verifiedSourcesHTML (r_sourcesUsed resp)
        /\ (List.length (firstn 240 text) <= 240)%nat
        /\ (List.length (r_sourcesUsed resp) <= 3)%nat
        /\ r_confidence resp
           = match verificationConfidence threat with
             | Some n => n
             | None => num 80
             end
  end.
Proof.
  intros Hrun.
  destruct (generateResponseForFalse_cases env tid w res w' Hrun)
    as [[-> [e ->]]
       |(threat & dp & brand & c & resp & w2 & Ht & _ & _ & _ & Hu & -> & ->)];
    [reflexivity|].
  match type of Hu with
  | response_upsert ?a ?b ?c0 ?d ?e0 w = _ =>
      pose proof (response_upsert_cases a b c0 d e0 w) as Hc;
      destruct (response_upsert_spec a b c0 d e0 w)
        as (resp' & w2' & Hu' & _ & _ & Hcontent & Hsrc & _ & _ & _ & _ & _
            & Hem & _ & Hbound)
  end.
  rewrite Hu in Hu'. injection Hu' as <- <-.
  assert (Hconf : r_confidence resp
                  = num_or (num 80) (verificationConfidence threat)).
  { destruct (find_response_by_threat tid w);
      [|cbv zeta in Hc]; rewrite Hc in Hu; now injection Hu as <- _. }
  exists threat, (enforce_limit (rawContent_of c (b_name brand))).
  split; [exact Ht|]. split.
  { rewrite emitted_notify, Hem, Hbound, Hsrc. reflexivity. }
  split.
  { rewrite Hcontent, Hsrc. apply htmlContent_shape. }
  split; [apply firstn_le_length|]. split.
  - rewrite Hsrc, length_map. unfold scrapedItem_findMany.
    apply firstn_le_length.
  - exact Hconf.
Qed.

Lemma generateResponseForFalse_announcement_witness :
  let w := world post1 NEW [] in
  exists resp w' text,
    generateResponseForFalse env_long (js "t1") w = (Ok resp, w')
    /\ emitted w'
       = [mkWsEvent (js "response_ready")
            (ResponseReady (js "t1") (r_id resp) (firstn 240 text)
               (r_confidence resp) (r_sourcesUsed resp))]
    /\ (List.length (firstn 240 text) <= 240)%nat
    /\ (List.length (r_sourcesUsed resp) <= 3)%nat
    /\ r_confidence resp = num 80.
Proof.
  intros w.
  destruct (generateResponseForFalse env_long (js "t1") w)
    as [[resp|e] w'] eqn:E; [|vm_compute in E; discriminate].
  pose proof (generateResponseForFalse_announcement env_long (js "t1") w
                (Ok resp) w' E) as H.
  cbv beta iota in H.
  destruct H as (threat & text & Ht & Hem & _ & Hp & Hs & Hconf).
  injection Ht as <-.
  exists resp, w', text. split; [reflexivity|].
  split; [exact Hem|]. split; [exact Hp|]. split; [exact Hs|exact Hconf].
Defined.

(** ** Publication: every way a run can end *)

Lemma threats_notify ev p w : threats (notify ev p w) = threats w.
Proof. unfold notify. now destruct (wsBroadcast w). Qed.

Lemma detectedPosts_notify ev p w :
  detectedPosts (notify ev p w) = detectedPosts w.
Proof. unfold notify. now destruct (wsBroadcast w). Qed.

Lemma queued_notify ev p w : queued (notify ev p w) = queued w.
Proof. unfold notify. now destruct (wsBroadcast w). Qed.

Lemma wsBroadcast_notify ev p w : wsBroadcast (notify ev p w) = wsBroadcast w.
Proof. unfold notify. destruct (wsBroadcast w) eqn:E; [reflexivity|exact E]. Qed.

Lemma find_response_notify id ev p w :
  find_response id (notify ev p w) = find_response id w.
Proof. unfold find_response. now rewrite responses_notify. Qed.

Lemma find_threat_notify id ev p w :
  find_threat id (notify ev p w) = find_threat id w.
Proof. unfold find_threat. now rewrite threats_notify. Qed.

Lemma find_detectedPost_notify id ev p w :
  find_detectedPost id (notify ev p w) = find_detectedPost id w.
Proof. unfold find_detectedPost. now rewrite detectedPosts_notify. Qed.

(** A publication run threw before any request and changed nothing, or it
    sent one request and then either marked the Response POSTED and
    returned, or marked it FAILED and threw. *)
Lemma postResponseToXClone_cases env rid w res w' :
  postResponseToXClone env rid w = (res, w') ->
  (w' = w /\ exists e, res = Throw e)
  \/ (exists response req,
        find_response rid w = Some response
        /\ ((res = Ok tt
             /\ w' = notify (js "response_posted")
                       (ResponsePosted rid (r_threatId response) (now env))
                       (mark_response rid POSTED (Some (now env)) (sent req w)))
            \/ (exists err,
                  res = Throw err
                  /\ w' = notify (js "response_failed")
                            (ResponseFailed rid (r_threatId response)
                               (err_message err))
                            (mark_response rid FAILED None (sent req w))))).
Proof.
  intros Hrun.
  assert (Hearly : forall e, (res, w') = (Throw e, w) ->
            w' = w /\ exists e', res = Throw e').
  { intros e [= -> ->]. split; [reflexivity|]. now exists e. }
  destruct (find_response rid w) as [response|] eqn:Hr.
  2:{ unfold postResponseToXClone, bind, get in Hrun. rewrite Hr in Hrun.
      left. eapply Hearly. symmetry. exact Hrun. }
  destruct (find_threat (r_threatId response) w) as [threat|] eqn:Ht.
  2:{ unfold postResponseToXClone, bind, get in Hrun.
      rewrite Hr, Ht in Hrun. unfold ret at 1 in Hrun.
      cbn [missing] in Hrun.
      left. eapply Hearly. symmetry. exact Hrun. }
  destruct (find_detectedPost (t_detectedPostId threat) w) as [dp|] eqn:Hd.
  2:{ unfold postResponseToXClone, bind, get in Hrun.
      rewrite Hr, Ht, Hd in Hrun. unfold relation, throw in Hrun.
      left. eapply Hearly. symmetry. exact Hrun. }
  destruct (externalPostId dp) as [ext|] eqn:He.
  2:{ rewrite (postResponseToXClone_unfold env rid w response threat dp
                 Hr Ht Hd) in Hrun.
      rewrite He in Hrun. cbn [missing] in Hrun.
      left. eapply Hearly. symmetry. exact Hrun. }
  destruct (nonempty ext) eqn:Hn.
  2:{ rewrite (postResponseToXClone_unfold env rid w response threat dp
                 Hr Ht Hd) in Hrun.
      rewrite He in Hrun. unfold missing in Hrun. rewrite Hn in Hrun.
      cbn [negb] in Hrun.
      left. eapply Hearly. symmetry. exact Hrun. }
  right.
  rewrite (postResponseToXClone_outcome env rid w response threat dp
             Hr Ht Hd ext He Hn) in Hrun.
  cbv zeta in Hrun.
  exists response,
    (tweet_request env (authorHandle dp) (r_content response) ext).
  split; [reflexivity|].
  destruct (fetch env _) as [e|r].
  - injection Hrun as <- <-. right. now exists e.
  - destruct (ok r); injection Hrun as <- <-.
    + now left.
    + right. eexists. split; reflexivity.
Qed.

(** X9. With the reply target known and an answer from the platform in
    the range 200 to 299, [postResponseToXClone] returns; one request has
    gone out, whose text is the handle of the post's author followed by the
    content of the Response and which quotes the post; the Response is
    POSTED with the time of posting; and the bound broadcaster is handed
    one [response_posted] event. *)
Theorem postResponseToXClone_success env rid w response threat dp ext res :
  find_response rid w = Some response ->
  find_threat (r_threatId response) w = Some threat ->
  find_detectedPost (t_detectedPostId threat) w = Some dp ->
  externalPostId dp = Some ext ->
  nonempty ext = true ->
  let req := tweet_request env (authorHandle dp) (r_content response) ext in
  fetch env req = FetchResolves res ->
  ok res = true ->
  exists w',
    postResponseToXClone env rid w = (Ok tt, w')
    /\ requests w' = requests w ++ [req]
    /\ text (body req)
       = js "@" ++ authorHandle dp ++ js " " ++ r_content response
    /\ quote_tweet (body req) = ext
    /\ (exists r,
          find_response rid w' = Some r
          /\ r_status r = POSTED
          /\ postedAt r = Some (now env)
          /\ r_content r = r_content response)
    /\ emitted w'
       = emitted w
         ++ (if wsBroadcast w then
               [mkWsEvent (js "response_posted")
                  (ResponsePosted rid (r_threatId response) (now env))]
             else []).
Proof.
  intros Hr Ht Hd He Hn req Hf Hok.
  rewrite (postResponseToXClone_outcome env rid w response threat dp
             Hr Ht Hd ext He Hn).
  cbv zeta. fold req. rewrite Hf, Hok.
  eexists. split; [reflexivity|].
  split; [now rewrite requests_notify|].
  split; [reflexivity|]. split; [reflexivity|]. split.
  - eexists. split.
    + rewrite find_response_notify.
      eapply find_response_mark. exact Hr.
    + repeat split.
  - rewrite emitted_notify. reflexivity.
Qed.

Lemma postResponseToXClone_success_witness :
  let w := world post1 NEW [response1] in
  exists w',
    postResponseToXClone env_synthesis_ok (js "r1") w = (Ok tt, w')
    /\ option_map r_status (find_response (js "r1") w') = Some POSTED
    /\ List.map (fun q => text (body q)) (requests w')
       = [js "@ada <p>Not so.</p>"].
Proof.
  intros w.
  destruct (postResponseToXClone_success env_synthesis_ok (js "r1") w
              response1 (threat1 NEW) post1 (js "x1")
              (mkHttpResponse 200 (js "ok"))
              eq_refl eq_refl eq_refl eq_refl eq_refl eq_refl eq_refl)
    as (w' & Hrun & Hreq & _ & _ & (r & Hf & Hst & _) & _).
  exists w'. split; [exact Hrun|]. split.
  - now rewrite Hf, <- Hst.
  - rewrite Hreq. reflexivity.
Defined.

(** X10. When the request itself fails (the platform cannot be reached),
    [postResponseToXClone] throws the very error [fetch] rejected with; the
    request counts as sent, the Response is FAILED and keeps the posting
    time it had, and the bound broadcaster is handed one [response_failed]
    event carrying the error's message. *)
Theorem postResponseToXClone_network_failure
  env rid w response threat dp ext e :
  find_response rid w = Some response ->
  find_threat (r_threatId response) w = Some threat ->
  find_detectedPost (t_detectedPostId threat) w = Some dp ->
  externalPostId dp = Some ext ->
  nonempty ext = true ->
  let req := tweet_request env (authorHandle dp) (r_content response) ext in
  fetch env req = FetchRejects e ->
  exists w',
    postResponseToXClone env rid w = (Throw e, w')
    /\ requests w' = requests w ++ [req]
    /\ (exists r,
          find_response rid w' = Some r
          /\ r_status r = FAILED
          /\ postedAt r = postedAt response
          /\ r_content r = r_content response)
    /\ emitted w'
       = emitted w
         ++ (if wsBroadcast w then
               [mkWsEvent (js "response_failed")
                  (ResponseFailed rid (r_threatId response) (err_message e))]
             else []).
Proof.
  intros Hr Ht Hd He Hn req Hf.
  rewrite (postResponseToXClone_outcome env rid w response threat dp
             Hr Ht Hd ext He Hn).
  cbv zeta. fold req. rewrite Hf.
  eexists. split; [reflexivity|].
  split; [now rewrite requests_notify|]. split.
  - eexists. split.
    + rewrite find_response_notify.
      eapply find_response_mark. exact Hr.
    + repeat split.
  - rewrite emitted_notify. reflexivity.
Qed.

Lemma postResponseToXClone_network_failure_witness :
  let w := world post1 NEW [response_posted1] in
  exists w',
    postResponseToXClone env_platform_down (js "r1") w
    = (Throw network_error, w')
    /\ List.length (requests w') = 1%nat
    /\ option_map r_status (find_response (js "r1") w') = Some FAILED
    /\ option_map postedAt (find_response (js "r1") w') = Some (Some 500%Z).
Proof.
  intros w.
  destruct (postResponseToXClone_network_failure env_platform_down (js "r1") w
              response_posted1 (threat1 NEW) post1 (js "x1") network_error
              eq_refl eq_refl eq_refl eq_refl eq_refl eq_refl)
    as (w' & Hrun & Hreq & (r & Hf & Hst & Hat & _) & _).
  exists w'. split; [exact Hrun|]. split; [|split].
  - rewrite Hreq. reflexivity.
  - now rewrite Hf, <- Hst.
  - rewrite Hf. simpl. now rewrite Hat.
Defined.

(** X11. What publication never does, however it ends.  It leaves the
    threats, the posts and the queue alone; it adds and removes no
    Response and rewrites no content; it writes to no Response but the one
    named; it sends at most one request;
    and the status it leaves tells how it ended: POSTED when it returned,
    FAILED when it threw after the request went out. *)
Theorem postResponseToXClone_frame env rid w res w' :
  postResponseToXClone env rid w = (res, w') ->
  threats w' = threats w
  /\ detectedPosts w' = detectedPosts w
  /\ queued w' = queued w
  /\ List.map r_id (responses w') = List.map r_id (responses w)
  /\ List.map r_content (responses w') = List.map r_content (responses w)
  /\ (forall id, id <> rid -> find_response id w' = find_response id w)
  /\ (requests w' = requests w \/ exists req, requests w' = requests w ++ [req])
  /\ (res = Ok tt ->
      option_map r_status (find_response rid w') = Some POSTED)
  /\ (forall e, res = Throw e -> requests w' <> requests w ->
      option_map r_status (find_response rid w') = Some FAILED).
Proof.
  intros Hrun.
  destruct (postResponseToXClone_cases env rid w res w' Hrun)
    as [[-> [e ->]]|(response & req & Hr & Hend)].
  { repeat split; try reflexivity.
    - now left.
    - discriminate.
    - intros e' _ H. now elim H. }
  assert (Hframe : forall ev p st at_,
            let w2 := notify ev p (mark_response rid st at_ (sent req w)) in
            threats w2 = threats w
            /\ detectedPosts w2 = detectedPosts w
            /\ queued w2 = queued w
            /\ List.map r_id (responses w2) = List.map r_id (responses w)
            /\ List.map r_content (responses w2)
               = List.map r_content (responses w)
            /\ (forall id, id <> rid ->
                  find_response id w2 = find_response id w)
            /\ (requests w2 = requests w
                \/ exists req', requests w2 = requests w ++ [req'])
            /\ option_map r_status (find_response rid w2) = Some st).
  { intros ev p st at_ w2. subst w2.
    rewrite threats_notify, detectedPosts_notify, queued_notify,
      responses_notify, requests_notify.
    split; [reflexivity|]. split; [reflexivity|]. split; [reflexivity|].
    split; [apply map_update_first; reflexivity|].
    split; [apply map_update_first; reflexivity|].
    split; [|split].
    - intros id Hid. rewrite find_response_notify.
      unfold find_response, mark_response. simpl.
      apply find_update_first_neq; [reflexivity|].
      intros x Hx. apply str_eqb_eq in Hx. apply str_eqb_neq. congruence.
    - right. now exists req.
    - rewrite find_response_notify.
      erewrite find_response_mark by exact Hr. reflexivity. }
  destruct Hend as [[-> ->]|(err & -> & ->)].
  - destruct (Hframe (js "response_posted")
                (ResponsePosted rid (r_threatId response) (now env))
                POSTED (Some (now env)))
      as (H1 & H2 & H3 & H4 & H5 & H6 & H7 & H8).
    repeat (split; [assumption|]). split; [now intros _|].
    intros e He. discriminate.
  - destruct (Hframe (js "response_failed")
                (ResponseFailed rid (r_threatId response) (err_message err))
                FAILED None)
      as (H1 & H2 & H3 & H4 & H5 & H6 & H7 & H8).
    repeat (split; [assumption|]). split; [discriminate|].
    now intros e _ _.
Qed.

Lemma postResponseToXClone_frame_witness :
  let w := world post1 RESPONDED [response1] in
  exists res w',
    postResponseToXClone (env_verdict "FALSE" (http 503 "busy")) (js "r1") w
    = (res, w')
    /\ threats w' = threats w
    /\ List.map r_content (responses w') = [js "<p>Not so.</p>"]
    /\ List.length (requests w') = 1%nat
    /\ option_map r_status (find_response (js "r1") w') = Some FAILED.
Proof.
  intros w.
  destruct (postResponseToXClone (env_verdict "FALSE" (http 503 "busy"))
              (js "r1") w) as [res w'] eqn:E.
  destruct (postResponseToXClone_frame _ _ _ _ _ E)
    as (H1 & _ & _ & _ & H5 & _ & _ & _ & H9).
  exists res, w'. split; [reflexivity|]. split; [exact H1|].
  split; [exact H5|].
  assert (Hreq : List.length (requests w') = 1%nat).
  { vm_compute in E. now injection E as _ <-. }
  split; [exact Hreq|].
  destruct res as [[]|e]; [vm_compute in E; discriminate|].
  apply (H9 e eq_refl). intros H. rewrite H in Hreq. discriminate.
Defined.

(** X12. Publication does not look at the status of the Response: posting
    a Response that is POSTED already sends the same request a second time.
    With the reply target known and a platform that accepts, two runs in a
    row both return, and the requests sent are the same request twice. *)
Theorem postResponseToXClone_posts_again env rid w response threat dp ext res :
  find_response rid w = Some response ->
  find_threat (r_threatId response) w = Some threat ->
  find_detectedPost (t_detectedPostId threat) w = Some dp ->
  externalPostId dp = Some ext ->
  nonempty ext = true ->
  let req := tweet_request env (authorHandle dp) (r_content response) ext in
  fetch env req = FetchResolves res ->
  ok res = true ->
  exists w1 w2,
    postResponseToXClone env rid w = (Ok tt, w1)
    /\ option_map r_status (find_response rid w1) = Some POSTED
    /\ postResponseToXClone env rid w1 = (Ok tt, w2)
    /\ requests w2 = requests w ++ [req; req]
    /\ option_map r_status (find_response rid w2) = Some POSTED.
Proof.
  intros Hr Ht Hd He Hn req Hf Hok.
  pose proof (postResponseToXClone_outcome env rid w response threat dp
                Hr Ht Hd ext He Hn) as H1.
  cbv zeta in H1. fold req in H1. rewrite Hf, Hok in H1.
  set (w1 := notify (js "response_posted")
               (ResponsePosted rid (r_threatId response) (now env))
               (mark_response rid POSTED (Some (now env)) (sent req w)))
    in *.
  assert (Hr1 : find_response rid w1
                = Some (set_response_status POSTED (Some (now env)) response)).
  { unfold w1. rewrite find_response_notify.
    eapply find_response_mark. exact Hr. }
  assert (Ht1 : find_threat
                  (r_threatId
                     (set_response_status POSTED (Some (now env)) response))
                  w1 = Some threat).
  { unfold w1. rewrite find_threat_notify. exact Ht. }
  assert (Hd1 : find_detectedPost (t_detectedPostId threat) w1 = Some dp).
  { unfold w1. rewrite find_detectedPost_notify. exact Hd. }
  pose proof (postResponseToXClone_outcome env rid w1 _ threat dp
                Hr1 Ht1 Hd1 ext He Hn) as H2.
  cbv zeta in H2.
  change (r_content (set_response_status POSTED (Some (now env)) response))
    with (r_content response) in H2.
  fold req in H2. rewrite Hf, Hok in H2.
  exists w1. eexists.
  split; [exact H1|]. split; [now rewrite Hr1|].
  split; [exact H2|]. split.
  - rewrite requests_notify. simpl. unfold w1. rewrite requests_notify.
    simpl. now rewrite <- app_assoc.
  - rewrite find_response_notify.
    erewrite find_response_mark by exact Hr1. reflexivity.
Qed.

Lemma postResponseToXClone_posts_again_witness :
  let w := world post1 NEW [response1] in
  exists w1 w2,
    postResponseToXClone env_synthesis_ok (js "r1") w = (Ok tt, w1)
    /\ postResponseToXClone env_synthesis_ok (js "r1") w1 = (Ok tt, w2)
    /\ List.map (fun q => text (body q)) (requests w2)
       = [js "@ada <p>Not so.</p>"; js "@ada <p>Not so.</p>"].
Proof.
  intros w.
  destruct (postResponseToXClone_posts_again env_synthesis_ok (js "r1") w
              response1 (threat1 NEW) post1 (js "x1")
              (mkHttpResponse 200 (js "ok"))
              eq_refl eq_refl eq_refl eq_refl eq_refl eq_refl eq_refl)
    as (w1 & w2 & H1 & _ & H2 & Hreq & _).
  exists w1, w2. split; [exact H1|]. split; [exact H2|].
  rewrite Hreq. reflexivity.
Defined.

(** ** The chain, end to end *)

Lemma in_update_first {A} (p : A -> bool) (f : A -> A) l r :
  In r (update_first p f l) -> In r l \/ exists x, In x l /\ r = f x.
Proof.
  induction l as [|x l IH]; simpl; [tauto|].
  destruct (p x); simpl.
  - intros [<-|H]; [right; exists x; tauto|left; tauto].
  - intros [<-|H]; [left; tauto|].
    destruct (IH H) as [H'|(y & Hy & ->)]; [left; tauto|].
    right. exists y. tauto.
Qed.

(** Synthesis sends nothing to the platform and marks nothing as posted. *)
Lemma generateResponseForFalse_sends_nothing env tid w res w' :
  generateResponseForFalse env tid w = (res, w') ->
  requests w' = requests w
  /\ threats w' = threats w
  /\ detectedPosts w' = detectedPosts w
  /\ queued w' = queued w
  /\ wsBroadcast w' = wsBroadcast w
  /\ (forall r, In r (responses w') -> r_status r = POSTED ->
        In r (responses w)).
Proof.
  intros Hrun.
  destruct (generateResponseForFalse_cases env tid w res w' Hrun)
    as [[-> _]
       |(threat & dp & brand & c & resp & w2 & _ & _ & _ & _ & Hu & -> & ->)].
  { repeat split. tauto. }
  rewrite requests_notify, threats_notify, detectedPosts_notify,
    queued_notify, wsBroadcast_notify, responses_notify.
  match type of Hu with
  | response_upsert ?a ?b ?c0 ?d ?e0 w = _ =>
      pose proof (response_upsert_cases a b c0 d e0 w) as Hc
  end.
  destruct (find_response_by_threat tid w) as [old|].
  - rewrite Hc in Hu. injection Hu as _ <-. simpl.
    do 5 (split; [reflexivity|]).
    intros r Hin Hst. apply in_update_first in Hin.
    destruct Hin as [Hin|(x & _ & ->)]; [exact Hin|discriminate].
  - cbv zeta in Hc. rewrite Hc in Hu. injection Hu as _ <-. simpl.
    do 5 (split; [reflexivity|]).
    intros r Hin Hst. apply in_app_or in Hin.
    destruct Hin as [Hin|[<-|[]]]; [exact Hin|discriminate].
Qed.

(** X13. Without autopost the chain never reaches the platform.  However
    [handleThreatVerifyRespond] ends when called with autopost off (it may
    return, or throw at any stage), no request has been sent, nothing has
    been added to the queue, and every Response that is POSTED afterwards
    was so before. *)
Theorem handleThreatVerifyRespond_manual_sends_nothing env tid w res w' :
  handleThreatVerifyRespond env tid false w = (res, w') ->
  requests w' = requests w
  /\ queued w' = queued w
  /\ detectedPosts w' = detectedPosts w
  /\ (forall r, In r (responses w') -> r_status r = POSTED ->
        In r (responses w)).
Proof.
  intros Hrun. unfold handleThreatVerifyRespond in Hrun.
  unfold bind at 1 in Hrun.
  destruct (verifyThreat env tid w) as [[v|e] w1] eqn:Ev.
  2:{ injection Hrun as <- <-.
      destruct (verifyThreat_cases env tid w _ _ Ev)
        as [[-> _]|(v & ? & ? & ? & Hv & _)]; [|discriminate].
      repeat split. tauto. }
  assert (Hw1 : requests w1 = requests w /\ queued w1 = queued w
                /\ detectedPosts w1 = detectedPosts w
                /\ responses w1 = responses w).
  { destruct (verifyThreat_cases env tid w _ _ Ev)
      as [[-> _]|(v' & ? & ? & ? & _ & -> & _)]; repeat split. }
  destruct Hw1 as (Hq1 & Hq2 & Hq3 & Hq4).
  cbv zeta in Hrun.
  destruct (str_eqb (vr_verificationStatus v) (js "FALSE")
            || str_eqb (vr_verificationStatus v) (js "UNVERIFIED")).
  - unfold bind at 1 in Hrun.
    destruct (generateResponseForFalse env tid w1) as [[resp|e] w2] eqn:Eg;
      destruct (generateResponseForFalse_sends_nothing env tid w1 _ _ Eg)
        as (H1 & _ & H3 & H4 & _ & H6);
      unfold bind, ret in Hrun; injection Hrun as <- <-;
      rewrite H1, H3, H4, Hq1, Hq2, Hq3;
      (do 3 (split; [reflexivity|]));
      intros r Hin Hst; rewrite <- Hq4; now apply H6.
  - unfold bind, broadcast, modify, ret in Hrun. injection Hrun as <- <-.
    rewrite requests_notify, queued_notify, detectedPosts_notify,
      responses_notify, Hq1, Hq2, Hq3, Hq4.
    repeat split. tauto.
Qed.

Lemma handleThreatVerifyRespond_manual_sends_nothing_witness :
  let w := world post1 NEW [response_posted1] in
  exists res w',
    handleThreatVerifyRespond env_synthesis_ok (js "t1") false w = (res, w')
    /\ requests w' = []
    /\ queued w' = []
    /\ List.map r_status (responses w') = [PENDING].
Proof.
  intros w.
  destruct (handleThreatVerifyRespond env_synthesis_ok (js "t1") false w)
    as [res w'] eqn:E.
  destruct (handleThreatVerifyRespond_manual_sends_nothing _ _ _ _ _ E)
    as (H1 & H2 & _).
  exists res, w'. split; [reflexivity|]. split; [exact H1|].
  split; [exact H2|].
  vm_compute in E. now injection E as _ <-.
Defined.

Lemma not_in_find_none {A} (key : A -> jsstring) (k : jsstring) l :
  ~ In k (List.map key l) -> find (fun x => str_eqb (key x) k) l = None.
Proof.
  induction l as [|x l IH]; simpl; [reflexivity|].
  intros Hn. rewrite str_eqb_neq by tauto. apply IH. tauto.
Qed.

(** Under a unique key, the row an update rewrote is the row the key finds. *)
Lemma find_key_update_first {A} (key : A -> jsstring) (p : A -> bool)
  (f : A -> A) l old :
  NoDup (List.map key l) ->
  (forall x, key (f x) = key x) ->
  find p l = Some old ->
  find (fun x => str_eqb (key x) (key old)) (update_first p f l)
  = Some (f old).
Proof.
  intros Hnd Hk. induction l as [|x l IH]; simpl; [discriminate|].
  inversion Hnd as [|? ? Hx Hl]; subst.
  destruct (p x) eqn:Ep.
  - intros [= <-]. simpl. now rewrite Hk, str_eqb_refl.
  - intros Hf. simpl.
    rewrite str_eqb_neq.
    + now apply IH.
    + intros Heq. apply Hx. rewrite Heq. apply in_map.
      apply find_some in Hf. tauto.
Qed.

(** With unique Response ids and an unused next id, the Response synthesis
    returns is the one its id finds. *)
Lemma generateResponseForFalse_findable env tid w resp w2 :
  NoDup (List.map r_id (responses w)) ->
  ~ In (js "c" ++ decimal (idCounter w)) (List.map r_id (responses w)) ->
  generateResponseForFalse env tid w = (Ok resp, w2) ->
  find_response (r_id resp) w2 = Some resp.
Proof.
  intros Hnd Hfresh Hrun.
  destruct (generateResponseForFalse_cases env tid w _ _ Hrun)
    as [[_ [e He]]
       |(threat & dp & brand & c & resp' & w2' & _ & _ & _ & _ & Hu & Hr & ->)];
    [discriminate|].
  injection Hr as <-.
  rewrite find_response_notify.
  match type of Hu with
  | response_upsert ?a ?b ?c0 ?d ?e0 w = _ =>
      pose proof (response_upsert_cases a b c0 d e0 w) as Hc
  end.
  unfold find_response_by_threat in Hc.
  destruct (find (fun r => str_eqb (r_threatId r) tid) (responses w))
    as [old|] eqn:Hf.
  - rewrite Hc in Hu. injection Hu as <- <-.
    unfold find_response. simpl.
    apply (find_key_update_first r_id); [exact Hnd|reflexivity|exact Hf].
  - cbv zeta in Hc. rewrite Hc in Hu. injection Hu as <- <-.
    unfold find_response. simpl.
    apply find_app_new; [|simpl; apply str_eqb_refl].
    now apply not_in_find_none.
Qed.

(** X14. The chain with autopost on, end to end.  For a threat whose
    verification came out FALSE or UNVERIFIED, with the oracle's correction
    in hand, a post that has an external id, and Response ids that are
    unique: the chain synthesizes the Response and sends one request that
    carries its content.  If the platform accepts, the chain returns
    "responded" with the id of the Response, which is POSTED; if the
    platform refuses or cannot be reached, the chain throws the error of
    the publication and the Response stays in the table, FAILED, with its
    content. *)
Theorem handleThreatVerifyRespond_autopost
  env tid w threat dp brand v w1 c ext :
  find_threat tid w = Some threat ->
  find_detectedPost (t_detectedPostId threat) w = Some dp ->
  find_brand (t_brandId threat) w = Some brand ->
  NoDup (List.map r_id (responses w)) ->
  ~ In (js "c" ++ decimal (idCounter w)) (List.map r_id (responses w)) ->
  verifyThreat env tid w = (Ok v, w1) ->
  str_eqb (vr_verificationStatus v) (js "FALSE")
  || str_eqb (vr_verificationStatus v) (js "UNVERIFIED") = true ->
  groq_create env (correction_request (b_name brand) (dp_content dp))
  = GroqResolves c ->
  externalPostId dp = Some ext ->
  nonempty ext = true ->
  exists resp res w',
    handleThreatVerifyRespond env tid true w = (res, w')
    /\ r_threatId resp = tid
    /\ requests w'
       = requests w
         ++ [tweet_request env (authorHandle dp) (r_content resp) ext]
    /\ option_map r_content (find_response (r_id resp) w')
       = Some (r_content resp)
    /\ match fetch env
               (tweet_request env (authorHandle dp) (r_content resp) ext) with
       | FetchResolves answer =>
           if ok answer then
             res = Ok (mkHandleResult false (js "responded")
                         (Some (r_id resp)) None)
             /\ option_map r_status (find_response (r_id resp) w')
                = Some POSTED
           else
             res = Throw (Error (js "X-clone response: "
                                 ++ responseText answer))
             /\ option_map r_status (find_response (r_id resp) w')
                = Some FAILED
       | FetchRejects e =>
           res = Throw e
           /\ option_map r_status (find_response (r_id resp) w')
              = Some FAILED
       end.
Proof.
  intros Ht Hd Hb Hnd Hfresh Hv Hrespond Hg He Hn.
  pose proof (verifyThreat_ok_inv env tid w threat dp v w1 Ht Hd Hv) as Hw1.
  pose proof (find_threat_verified_as tid v w threat Ht) as Ht1.
  rewrite <- Hw1 in Ht1.
  set (threat' := set_verification (vr_verificationStatus v)
                    (vr_verificationConfidence v) (vr_verificationSummary v)
                    (vr_evidenceIds v) threat) in *.
  assert (Hd1 : find_detectedPost (t_detectedPostId threat') w1 = Some dp)
    by (rewrite Hw1; exact Hd).
  assert (Hb1 : find_brand (t_brandId threat') w1 = Some brand)
    by (rewrite Hw1; exact Hb).
  assert (Hnd1 : NoDup (List.map r_id (responses w1)))
    by (rewrite Hw1; exact Hnd).
  assert (Hfresh1 : ~ In (js "c" ++ decimal (idCounter w1))
                        (List.map r_id (responses w1)))
    by (rewrite Hw1; exact Hfresh).
  assert (Hreq1 : requests w1 = requests w) by (now rewrite Hw1).
  destruct (generateResponseForFalse_resolves env tid w1 threat' dp brand c
              Ht1 Hd1 Hb1 Hg)
    as (resp & w2 & Hgen & _ & Htid & _ & _ & Hth2 & Hdp2 & Hreq2).
  pose proof (generateResponseForFalse_findable env tid w1 resp w2
                Hnd1 Hfresh1 Hgen) as Hr2.
  assert (Ht2 : find_threat (r_threatId resp) w2 = Some threat').
  { rewrite Htid. unfold find_threat. rewrite Hth2. exact Ht1. }
  assert (Hd2 : find_detectedPost (t_detectedPostId threat') w2 = Some dp).
  { unfold find_detectedPost. rewrite Hdp2. exact Hd1. }
  pose proof (postResponseToXClone_outcome env (r_id resp) w2 resp threat' dp
                Hr2 Ht2 Hd2 ext He Hn) as Hpost.
  cbv zeta in Hpost.
  assert (Hrun : handleThreatVerifyRespond env tid true w
                 = bind (postResponseToXClone env (r_id resp))
                     (fun _ =>
                        ret (mkHandleResult false (js "responded")
                               (Some (r_id resp)) None)) w2).
  { unfold handleThreatVerifyRespond.
    erewrite bind_ok by exact Hv. cbv zeta. rewrite Hrespond.
    erewrite bind_ok by exact Hgen. reflexivity. }
  assert (Hstatus : forall ev p st at_,
            let w' := notify ev p
                        (mark_response (r_id resp) st at_
                           (sent (tweet_request env (authorHandle dp)
                                    (r_content resp) ext) w2)) in
            requests w'
            = requests w
              ++ [tweet_request env (authorHandle dp) (r_content resp) ext]
            /\ option_map r_content (find_response (r_id resp) w')
               = Some (r_content resp)
            /\ option_map r_status (find_response (r_id resp) w') = Some st).
  { intros ev p st at_ w'. subst w'.
    rewrite requests_notify, find_response_notify.
    erewrite find_response_mark by exact Hr2.
    simpl. rewrite Hreq2, Hreq1. repeat split. }
  exists resp.
  destruct (fetch env (tweet_request env (authorHandle dp) (r_content resp) ext))
    as [e|answer].
  - destruct (Hstatus (js "response_failed")
                (ResponseFailed (r_id resp) (r_threatId resp) (err_message e))
                FAILED None) as (H1 & H2 & H3).
    do 2 eexists. split.
    { rewrite Hrun. erewrite bind_throw by exact Hpost. reflexivity. }
    split; [exact Htid|]. split; [exact H1|]. split; [exact H2|].
    split; [reflexivity|exact H3].
  - destruct (ok answer).
    + destruct (Hstatus (js "response_posted")
                  (ResponsePosted (r_id resp) (r_threatId resp) (now env))
                  POSTED (Some (now env))) as (H1 & H2 & H3).
      do 2 eexists. split.
      { rewrite Hrun. erewrite bind_ok by exact Hpost. reflexivity. }
      split; [exact Htid|]. split; [exact H1|]. split; [exact H2|].
      split; [reflexivity|exact H3].
    + destruct (Hstatus (js "response_failed")
                  (ResponseFailed (r_id resp) (r_threatId resp)
                     (err_message
                        (Error (js "X-clone response: " ++ responseText answer))))
                  FAILED None) as (H1 & H2 & H3).
      do 2 eexists. split.
      { rewrite Hrun. erewrite bind_throw by exact Hpost. reflexivity. }
      split; [exact Htid|]. split; [exact H1|]. split; [exact H2|].
      split; [reflexivity|exact H3].
Qed.

Lemma handleThreatVerifyRespond_autopost_witness :
  let w := world post1 NEW [] in
  exists resp w',
    handleThreatVerifyRespond env_synthesis_ok (js "t1") true w
    = (Ok (mkHandleResult false (js "responded") (Some (r_id resp)) None), w')
    /\ r_threatId resp = js "t1"
    /\ List.length (requests w') = 1%nat
    /\ option_map r_status (find_response (r_id resp) w') = Some POSTED.
Proof.
  intros w.
  assert (Hfresh : ~ In (js "c" ++ decimal (idCounter w))
                     (List.map r_id (responses w))) by (intros []).
  destruct (handleThreatVerifyRespond_autopost env_synthesis_ok (js "t1") w
              (threat1 NEW) post1 brand1
              (mkVerifyResult (js "FALSE") (num 80) NO_TRUSTED_OUTLET [js "s1"])
              (verified_as (js "t1")
                 (mkVerifyResult (js "FALSE") (num 80) NO_TRUSTED_OUTLET
                    [js "s1"]) w)
              (mkChatCompletion [mkChoice (Some (js "This claim is not accurate."))])
              (js "x1")
              eq_refl eq_refl eq_refl (NoDup_nil _) Hfresh
              eq_refl eq_refl eq_refl eq_refl eq_refl)
    as (resp & res & w' & Hrun & Htid & Hreq & _ & Hm).
  change (fetch env_synthesis_ok
            (tweet_request env_synthesis_ok (authorHandle post1)
               (r_content resp) (js "x1")))
    with (FetchResolves (mkHttpResponse 200 (js "ok"))) in Hm.
  change (ok (mkHttpResponse 200 (js "ok"))) with true in Hm.
  cbv iota in Hm. destruct Hm as [-> Hst].
  exists resp, w'. split; [exact Hrun|]. split; [exact Htid|].
  split; [now rewrite Hreq|exact Hst].
Defined.

(** ** Detection: every way a run can end *)

Lemma sentiment_stage_total env content w :
  exists s, sentiment_stage env content w = (Ok s, w).
Proof.
  unfold sentiment_stage, try_catch.
  destruct (groq_sentiment env content w) as [[s|e] w1] eqn:E;
    apply groq_sentiment_world in E; subst w1; eexists; reflexivity.
Qed.

(** [detectAndStorePost] with its binds and its outer [catch] resolved. *)
Lemma detectAndStorePost_unfold env data w score tone summary :
  sentiment_stage env (pd_content data) w = (Ok (score, tone, summary), w) ->
  detectAndStorePost env data w
  = match find_monitor (pd_monitorId data) w with
    | None => (Ok None, w)
    | Some monitor =>
        match
          detectedPost_upsert data score tone
            (matched_of monitor (pd_content data))
            (triggered monitor score data)
            (reason_of monitor score data) (now env) w
        with
        | (Throw _, w3) => (Ok None, w3)
        | (Ok dp, w3) =>
            if triggered monitor score data then
              match summary with
              | JStr summary' =>
                  match
                    threat_upsert (dp_id dp) (pd_brandId data)
                      (pd_monitorId data)
                      (threat_data monitor score (emotionalTone dp) summary'
                         data)
                      (credibility_draw env 0) (credibility_draw env 1)
                      (pd_viewCount data) w3
                  with
                  | (Ok t, w5) => (Ok (Some t), enqueued (verify_job t) w5)
                  | (Throw _, w5) => (Ok None, w5)
                  end
              | _ => (Ok None, w3)
              end
            else (Ok None, w3)
        end
    end.
Proof.
  intros Hs. unfold detectAndStorePost.
  unfold try_catch at 1.
  fold (sentiment_stage env (pd_content data)).
  erewrite bind_ok by exact Hs.
  cbv beta iota zeta.
  unfold bind at 1. unfold get at 1.
  destruct (find_monitor (pd_monitorId data) w) as [monitor|]; [|reflexivity].
  fold (matched_of monitor (pd_content data)).
  fold (sentimentTrigger monitor score).
  fold (viralityTrigger monitor data).
  fold (keywordTrigger monitor (pd_content data)).
  fold (triggered monitor score data).
  unfold bind at 1.
  change (if triggered monitor score data
          then Some (flag_reason (sentimentTrigger monitor score)
                       (viralityTrigger monitor data))
          else None)
    with (reason_of monitor score data).
  destruct (detectedPost_upsert data score tone
              (matched_of monitor (pd_content data))
              (triggered monitor score data) (reason_of monitor score data)
              (now env) w) as [[dp|e] w3]; [|reflexivity].
  destruct (triggered monitor score data); [|reflexivity].
  unfold bind at 1.
  destruct summary as [| | |summary'| |]; try reflexivity.
  unfold expect_string, ret at 1.
  unfold bind at 1.
  change (mkThreatData _ _ _ _ _ _)
    with (threat_data monitor score (emotionalTone dp) summary' data).
  destruct (threat_upsert (dp_id dp) (pd_brandId data) (pd_monitorId data)
              (threat_data monitor score (emotionalTone dp) summary' data)
              (credibility_draw env 0) (credibility_draw env 1)
              (pd_viewCount data) w3) as [[t|e] w5]; reflexivity.
Qed.

(** The two branches of the post upsert, and its refusal of a tone that is
    not a string. *)
Lemma detectedPost_upsert_cases data pol tone m tr reason cap w :
  match tone with
  | JStr tone' =>
      match find (same_post (pd_externalPostId data) (pd_platform data))
              (detectedPosts w) with
      | Some d =>
          detectedPost_upsert data pol tone m tr reason cap w
          = (Ok (detectedPost_update data pol tone' m tr reason cap d),
             set_detectedPosts
               (update_first
                  (same_post (pd_externalPostId data) (pd_platform data))
                  (detectedPost_update data pol tone' m tr reason cap)) w)
      | None =>
          let d :=
            detectedPost_create (js "c" ++ decimal (idCounter w)) data pol
              tone' m tr cap in
          detectedPost_upsert data pol tone m tr reason cap w
          = (Ok d, set_detectedPosts (fun l => l ++ [d]) (snd (freshId w)))
      end
  | _ =>
      detectedPost_upsert data pol tone m tr reason cap w
      = (Throw (PrismaValidationError (js "emotionalTone")), w)
  end.
Proof.
  unfold detectedPost_upsert, bind, expect_string, get, ret, modify, freshId,
    throw.
  destruct tone; try reflexivity.
  destruct (find _ (detectedPosts w)); reflexivity.
Qed.

Lemma threat_upsert_cases dpid brandId monitorId td c1 c2 reach w :
  match find (fun t => str_eqb (t_detectedPostId t) dpid) (threats w) with
  | Some old =>
      threat_upsert dpid brandId monitorId td c1 c2 reach w
      = (Ok (threat_update td c1 old),
         set_threats
           (update_first (fun t => str_eqb (t_detectedPostId t) dpid)
              (threat_update td c1)) w)
  | None =>
      let t :=
        threat_create (js "c" ++ decimal (idCounter w)) dpid brandId monitorId
          td c2 reach in
      threat_upsert dpid brandId monitorId td c1 c2 reach w
      = (Ok t, set_threats (fun l => l ++ [t]) (snd (freshId w)))
  end.
Proof.
  unfold threat_upsert, bind, get, ret, modify, freshId.
  destruct (find _ (threats w)); reflexivity.
Qed.

Lemma in_update_first_found {A} (p : A -> bool) (f : A -> A) l d :
  find p l = Some d -> In (f d) (update_first p f l).
Proof.
  induction l as [|x l IH]; simpl; [discriminate|].
  destruct (p x).
  - intros [= ->]. now left.
  - intros H. right. now apply IH.
Qed.

(** What the post upsert leaves behind when it succeeds. *)
Lemma detectedPost_upsert_ok data pol tone m tr reason cap w dp w3 :
  detectedPost_upsert data pol tone m tr reason cap w = (Ok dp, w3) ->
  In dp (detectedPosts w3)
  /\ isFlagged dp = tr
  /\ tone = JStr (emotionalTone dp)
  /\ threats w3 = threats w
  /\ responses w3 = responses w
  /\ queued w3 = queued w
  /\ requests w3 = requests w
  /\ emitted w3 = emitted w
  /\ monitors w3 = monitors w.
Proof.
  intros H.
  pose proof (detectedPost_upsert_cases data pol tone m tr reason cap w) as Hc.
  destruct tone as [| | |tone'| |]; try (rewrite Hc in H; discriminate).
  destruct (find (same_post (pd_externalPostId data) (pd_platform data))
              (detectedPosts w)) as [d|] eqn:Hf.
  - rewrite Hc in H. injection H as <- <-. simpl.
    split; [now apply in_update_first_found|]. repeat split.
  - cbv zeta in Hc. rewrite Hc in H. injection H as <- <-. simpl.
    split; [apply in_or_app; right; now left|]. repeat split.
Qed.

Lemma detectedPost_upsert_throw data pol tone m tr reason cap w e w3 :
  detectedPost_upsert data pol tone m tr reason cap w = (Throw e, w3) ->
  w3 = w.
Proof.
  intros H.
  pose proof (detectedPost_upsert_cases data pol tone m tr reason cap w) as Hc.
  destruct tone as [| | |tone'| |];
    try (rewrite Hc in H; now injection H as _ <-).
  destruct (find (same_post (pd_externalPostId data) (pd_platform data))
              (detectedPosts w)).
  - rewrite Hc in H. discriminate.
  - cbv zeta in Hc. rewrite Hc in H. discriminate.
Qed.

(** X15. [detectAndStorePost] never throws: whatever fails inside it, it
    returns; and when the monitor named in the call does not exist it
    returns [null] and leaves the world as it was. *)
Theorem detectAndStorePost_returns env data w :
  exists r w',
    detectAndStorePost env data w = (Ok r, w')
    /\ (find_monitor (pd_monitorId data) w = None -> r = None /\ w' = w).
Proof.
  destruct (sentiment_stage_total env (pd_content data) w)
    as [[[score tone] summary] Hs].
  rewrite (detectAndStorePost_unfold env data w score tone summary Hs).
  destruct (find_monitor (pd_monitorId data) w) as [monitor|].
  2:{ exists None, w. split; [reflexivity|]. now split. }
  destruct (detectedPost_upsert _ _ _ _ _ _ _ w) as [[dp|e] w3].
  2:{ do 2 eexists. split; [reflexivity|]. discriminate. }
  destruct (triggered monitor score data).
  2:{ do 2 eexists. split; [reflexivity|]. discriminate. }
  destruct summary as [| | |summary'| |];
    try (do 2 eexists; split; [reflexivity|discriminate]).
  destruct (threat_upsert _ _ _ _ _ _ _ w3) as [[t|e] w5];
    do 2 eexists; (split; [reflexivity|discriminate]).
Qed.

(** X16. A verification job is queued exactly when a threat is returned.
    When [detectAndStorePost] returns [null], the queue and the table of
    threats are as before.  When it returns a threat, that threat is in the
    table, the post it points to is in the table and flagged, and one job
    has been added to the queue: [verify-one] for that threat with autopost
    off.  Either way no Response is written, no request is sent and no
    event is emitted. *)
Theorem detectAndStorePost_queues_what_it_returns env data w r w' :
  detectAndStorePost env data w = (Ok r, w') ->
  match r with
  | None => queued w' = queued w /\ threats w' = threats w
  | Some t =>
      queued w' = queued w ++ [mkJob (js "verify-one") (t_id t) false]
      /\ In t (threats w')
      /\ exists dp,
           In dp (detectedPosts w')
           /\ dp_id dp = t_detectedPostId t
           /\ isFlagged dp = true
  end
  /\ responses w' = responses w
  /\ requests w' = requests w
  /\ emitted w' = emitted w.
Proof.
  destruct (sentiment_stage_total env (pd_content data) w)
    as [[[score tone] summary] Hs].
  rewrite (detectAndStorePost_unfold env data w score tone summary Hs).
  destruct (find_monitor (pd_monitorId data) w) as [monitor|].
  2:{ intros [= <- <-]. repeat split. }
  destruct (detectedPost_upsert _ _ _ _ _ _ _ w) as [[dp|e] w3] eqn:Hdp.
  2:{ apply detectedPost_upsert_throw in Hdp. subst w3.
      intros [= <- <-]. repeat split. }
  destruct (detectedPost_upsert_ok _ _ _ _ _ _ _ _ _ _ Hdp)
    as (Hin & Hflag & _ & Hth & Hresp & Hq & Hreq & Hem & _).
  destruct (triggered monitor score data).
  2:{ intros [= <- <-]. repeat split; assumption. }
  destruct summary as [| | |summary'| |];
    try (intros [= <- <-]; repeat split; assumption).
  match goal with
  | |- context [threat_upsert ?d ?b ?m ?td ?c1 ?c2 ?rc w3] =>
      destruct (threat_upsert_spec d b m td c1 c2 rc w3)
        as (t & w5 & Hup & _ & Hfind & _ & _ & Hq5);
      pose proof (threat_upsert_cases d b m td c1 c2 rc w3) as Hc
  end.
  rewrite Hup. intros [= <- <-].
  assert (Hframe : detectedPosts w5 = detectedPosts w3
                   /\ responses w5 = responses w3
                   /\ requests w5 = requests w3
                   /\ emitted w5 = emitted w3).
  { destruct (find _ (threats w3)).
    - rewrite Hc in Hup. injection Hup as _ <-. repeat split.
    - cbv zeta in Hc. rewrite Hc in Hup. injection Hup as _ <-.
      repeat split. }
  destruct Hframe as (F1 & F2 & F3 & F4).
  apply find_some in Hfind. destruct Hfind as [Hint Hkey].
  apply str_eqb_eq in Hkey.
  simpl. rewrite Hq5, Hq, F1, F2, F3, F4.
  split; [|repeat split; assumption].
  split; [reflexivity|]. split; [exact Hint|].
  exists dp. split; [exact Hin|]. split; [now symmetry|exact Hflag].
Qed.

Lemma detectAndStorePost_queues_what_it_returns_witness :
  let w := world post1 RESPONDED [] in
  exists t w',
    detectAndStorePost env_silent (incoming 40) w = (Ok (Some t), w')
    /\ queued w' = [mkJob (js "verify-one") (t_id t) false]
    /\ In t (threats w').
Proof.
  intros w.
  destruct (detectAndStorePost env_silent (incoming 40) w)
    as [[[t|]|e] w'] eqn:E;
    try (vm_compute in E; discriminate).
  pose proof (detectAndStorePost_queues_what_it_returns env_silent
                (incoming 40) w (Some t) w' E) as H.
  cbv beta iota in H. destruct H as ((Hq & Hin & _) & _).
  exists t, w'. split; [reflexivity|]. split; [exact Hq|exact Hin].
Defined.

Lemma same_post_update ext platform data pol tone m tr reason cap d :
  same_post ext platform (detectedPost_update data pol tone m tr reason cap d)
  = same_post ext platform d.
Proof. reflexivity. Qed.






(** X18. Seeing a post again adds no row.  When the table already holds a
    post with the external id and platform of the call, every run of
    [detectAndStorePost] leaves the number of posts and their ids as they
    were; the row keeps its id, its monitor, its brand, its author and its
    time of posting, whatever the call says about them; and it is either
    untouched or carries the content and the counts of the call, captured
    now. *)
Theorem detectAndStorePost_reingestion env data w d r w' :
  find (same_post (pd_externalPostId data) (pd_platform data))
    (detectedPosts w) = Some d ->
  detectAndStorePost env data w = (Ok r, w') ->
  List.map dp_id (detectedPosts w') = List.map dp_id (detectedPosts w)
  /\ exists d',
       find (same_post (pd_externalPostId data) (pd_platform data))
         (detectedPosts w') = Some d'
       /\ dp_id d' = dp_id d
       /\ dp_monitorId d' = dp_monitorId d
       /\ dp_brandId d' = dp_brandId d
       /\ authorHandle d' = authorHandle d
       /\ dp_postedAt d' = dp_postedAt d
       /\ (d' = d
           \/ (dp_content d' = pd_content data
               /\ likeCount d' = pd_likeCount data
               /\ retweetCount d' = pd_retweetCount data
               /\ replyCount d' = pd_replyCount data
               /\ viewCount d' = pd_viewCount data
               /\ capturedAt d' = now env)).
Proof.
  intros Hf.
  destruct (sentiment_stage_total env (pd_content data) w)
    as [[[score tone] summary] Hs].
  rewrite (detectAndStorePost_unfold env data w score tone summary Hs).
  assert (Hsame : forall w0, detectedPosts w0 = detectedPosts w ->
            List.map dp_id (detectedPosts w0) = List.map dp_id (detectedPosts w)
            /\ exists d',
                 find (same_post (pd_externalPostId data) (pd_platform data))
                   (detectedPosts w0) = Some d'
                 /\ dp_id d' = dp_id d
                 /\ dp_monitorId d' = dp_monitorId d
                 /\ dp_brandId d' = dp_brandId d
                 /\ authorHandle d' = authorHandle d
                 /\ dp_postedAt d' = dp_postedAt d
                 /\ (d' = d
                     \/ (dp_content d' = pd_content data
                         /\ likeCount d' = pd_likeCount data
                         /\ retweetCount d' = pd_retweetCount data
                         /\ replyCount d' = pd_replyCount data
                         /\ viewCount d' = pd_viewCount data
                         /\ capturedAt d' = now env))).
  { intros w0 ->. split; [reflexivity|]. exists d.
    split; [exact Hf|]. repeat split. now left. }
  destruct (find_monitor (pd_monitorId data) w) as [monitor|].
  2:{ intros [= _ <-]. now apply Hsame. }
  pose proof (detectedPost_upsert_cases data score tone
                (matched_of monitor (pd_content data))
                (triggered monitor score data) (reason_of monitor score data)
                (now env) w) as Hc.
  destruct tone as [| | |tone'| |];
    try (rewrite Hc; intros [= _ <-]; now apply Hsame).
  rewrite Hf in Hc. rewrite Hc.
  assert (Hupd : forall w0,
            detectedPosts w0
            = update_first
                (same_post (pd_externalPostId data) (pd_platform data))
                (detectedPost_update data score tone'
                   (matched_of monitor (pd_content data))
                   (triggered monitor score data)
                   (reason_of monitor score data) (now env))
                (detectedPosts w) ->
            List.map dp_id (detectedPosts w0) = List.map dp_id (detectedPosts w)
            /\ exists d',
                 find (same_post (pd_externalPostId data) (pd_platform data))
                   (detectedPosts w0) = Some d'
                 /\ dp_id d' = dp_id d
                 /\ dp_monitorId d' = dp_monitorId d
                 /\ dp_brandId d' = dp_brandId d
                 /\ authorHandle d' = authorHandle d
                 /\ dp_postedAt d' = dp_postedAt d
                 /\ (d' = d
                     \/ (dp_content d' = pd_content data
                         /\ likeCount d' = pd_likeCount data
                         /\ retweetCount d' = pd_retweetCount data
                         /\ replyCount d' = pd_replyCount data
                         /\ viewCount d' = pd_viewCount data
                         /\ capturedAt d' = now env))).
  { intros w0 ->. split; [apply map_update_first; reflexivity|].
    eexists. split.
    { rewrite find_update_first by (intros; apply same_post_update).
      rewrite Hf. reflexivity. }
    repeat split. right. repeat split. }
  destruct (triggered monitor score data).
  2:{ intros [= _ <-]. now apply Hupd. }
  destruct summary as [| | |summary'| |];
    try (intros [= _ <-]; now apply Hupd).
  match goal with
  | |- context [threat_upsert ?a ?b ?m ?td ?c1 ?c2 ?rc ?w3] =>
      pose proof (threat_upsert_cases a b m td c1 c2 rc w3) as Ht;
      destruct (find (fun t => str_eqb (t_detectedPostId t) a) (threats w3))
  end.
  - rewrite Ht. intros [= _ <-]. now apply Hupd.
  - cbv zeta in Ht. rewrite Ht. intros [= _ <-]. now apply Hupd.
Qed.

Lemma detectAndStorePost_reingestion_witness :
  let w := world post1 NEW [] in
  exists r w' d',
    detectAndStorePost env_silent seen_again w = (Ok r, w')
    /\ List.map dp_id (detectedPosts w') = [js "d1"]
    /\ find (same_post (js "x1") (js "X_CLONE")) (detectedPosts w') = Some d'
    /\ dp_brandId d' = js "b1"
    /\ authorHandle d' = js "ada"
    /\ dp_postedAt d' = 0%Z.
Proof.
  intros w.
  destruct (detectAndStorePost env_silent seen_again w)
    as [[r|e] w'] eqn:E; [|vm_compute in E; discriminate].
  destruct (detectAndStorePost_reingestion env_silent seen_again w post1 r w'
              eq_refl E)
    as (Hids & d' & Hf & _ & _ & Hb & Ha & Hp & _).
  exists r, w', d'. split; [reflexivity|]. split; [exact Hids|].
  split; [exact Hf|]. split; [exact Hb|]. split; [exact Ha|exact Hp].
Defined.

(** X19. Detecting a post again keeps what verification wrote.  When
    [detectAndStorePost] returns a threat and the post already had one, the
    threat returned is that row rewritten: no threat is added, and the
    verification status, confidence, summary and evidence ids, the brand,
    the monitor and the predicted reach are those of the old row. *)
Theorem detectAndStorePost_retrigger_keeps_verification env data w t w' old :
  detectAndStorePost env data w = (Ok (Some t), w') ->
  find (fun x => str_eqb (t_detectedPostId x) (t_detectedPostId t)) (threats w)
  = Some old ->
  List.map t_id (threats w') = List.map t_id (threats w)
  /\ verificationStatus t = verificationStatus old
  /\ verificationConfidence t = verificationConfidence old
  /\ verificationSummary t = verificationSummary old
  /\ verificationEvidenceIds t = verificationEvidenceIds old
  /\ t_brandId t = t_brandId old
  /\ t_monitorId t = t_monitorId old
  /\ predictedReach t = predictedReach old.
Proof.
  destruct (sentiment_stage_total env (pd_content data) w)
    as [[[score tone] summary] Hs].
  rewrite (detectAndStorePost_unfold env data w score tone summary Hs).
  destruct (find_monitor (pd_monitorId data) w) as [monitor|];
    [|discriminate].
  destruct (detectedPost_upsert _ _ _ _ _ _ _ w) as [[dp|e] w3] eqn:Hdp;
    [|discriminate].
  destruct (detectedPost_upsert_ok _ _ _ _ _ _ _ _ _ _ Hdp)
    as (_ & _ & _ & Hth & _).
  destruct (triggered monitor score data); [|discriminate].
  destruct summary as [| | |summary'| |]; try discriminate.
  match goal with
  | |- context [threat_upsert ?d ?b ?m ?td ?c1 ?c2 ?rc w3] =>
      destruct (threat_upsert_spec d b m td c1 c2 rc w3)
        as (t0 & w5 & Hup & _ & Hfind & _ & _ & _);
      pose proof (threat_upsert_cases d b m td c1 c2 rc w3) as Hc
  end.
  rewrite Hup. intros [= <- <-] Hold.
  apply find_some in Hfind. destruct Hfind as [_ Hkey].
  apply str_eqb_eq in Hkey. rewrite Hkey, <- Hth in Hold.
  rewrite Hold in Hc. rewrite Hc in Hup. injection Hup as <- <-.
  simpl. rewrite <- Hth.
  split; [apply map_update_first; reflexivity|]. repeat split.
Qed.

Lemma detectAndStorePost_retrigger_keeps_verification_witness :
  exists t w',
    detectAndStorePost env_silent (incoming 40) world_verified
    = (Ok (Some t), w')
    /\ List.map t_id (threats w') = [js "t1"]
    /\ verificationStatus t = Some (js "FALSE")
    /\ verificationEvidenceIds t = [js "s1"]
    /\ t_status t = NEW.
Proof.
  destruct (detectAndStorePost env_silent (incoming 40) world_verified)
    as [[[t|]|e] w'] eqn:E;
    try (vm_compute in E; discriminate).
  assert (Hold : find (fun x => str_eqb (t_detectedPostId x)
                                  (t_detectedPostId t))
                   (threats world_verified) = Some threat_verified).
  { vm_compute in E. injection E as <- _. reflexivity. }
  destruct (detectAndStorePost_retrigger_keeps_verification env_silent
              (incoming 40) world_verified t w' threat_verified E Hold)
    as (Hids & Hst & _ & _ & Hev & _).
  exists t, w'. split; [reflexivity|]. split; [exact Hids|].
  split; [exact Hst|]. split; [exact Hev|].
  vm_compute in E. now injection E as <- _.
Defined.

(** X20. Detection keeps one threat per post: if no two threats point to
    the same post before a run of [detectAndStorePost], none do after it. *)
Theorem detectAndStorePost_one_threat_per_post env data w r w' :
  NoDup (List.map t_detectedPostId (threats w)) ->
  detectAndStorePost env data w = (Ok r, w') ->
  NoDup (List.map t_detectedPostId (threats w')).
Proof.
  intros Hnd.
  destruct (sentiment_stage_total env (pd_content data) w)
    as [[[score tone] summary] Hs].
  rewrite (detectAndStorePost_unfold env data w score tone summary Hs).
  destruct (find_monitor (pd_monitorId data) w) as [monitor|].
  2:{ now intros [= _ <-]. }
  destruct (detectedPost_upsert _ _ _ _ _ _ _ w) as [[dp|e] w3] eqn:Hdp.
  2:{ apply detectedPost_upsert_throw in Hdp. subst w3. now intros [= _ <-]. }
  destruct (detectedPost_upsert_ok _ _ _ _ _ _ _ _ _ _ Hdp)
    as (_ & _ & _ & Hth & _).
  rewrite <- Hth in Hnd.
  destruct (triggered monitor score data).
  2:{ now intros [= _ <-]. }
  destruct summary as [| | |summary'| |]; try (now intros [= _ <-]).
  match goal with
  | |- context [threat_upsert ?d ?b ?m ?td ?c1 ?c2 ?rc w3] =>
      pose proof (threat_upsert_cases d b m td c1 c2 rc w3) as Hc;
      destruct (find (fun t => str_eqb (t_detectedPostId t) d) (threats w3))
        eqn:Hf
  end.
  - rewrite Hc. intros [= _ <-]. simpl.
    rewrite map_update_first by reflexivity. exact Hnd.
  - cbv zeta in Hc. rewrite Hc. intros [= _ <-]. simpl.
    rewrite map_app. simpl. apply NoDup_snoc; [exact Hnd|].
    now apply find_none_not_in.
Qed.

Lemma detectAndStorePost_one_threat_per_post_witness :
  exists r w',
    detectAndStorePost env_silent (incoming 40) world_verified = (Ok r, w')
    /\ NoDup (List.map t_detectedPostId (threats w')).
Proof.
  destruct (detectAndStorePost env_silent (incoming 40) world_verified)
    as [[r|e] w'] eqn:E; [|vm_compute in E; discriminate].
  exists r, w'. split; [reflexivity|].
  apply (detectAndStorePost_one_threat_per_post env_silent (incoming 40)
           world_verified r w'); [|exact E].
  constructor; [intros []|constructor].
Defined.

(** ** Scores *)

Lemma engagementRate_nonneg data :
  (0 <= totalEngagement data)%Z -> (0 <= engagementRate data)%Q.
Proof.
  intros Ht. unfold engagementRate.
  destruct (0 <? pd_viewCount data)%Z eqn:Ev; [|apply Qle_refl].
  apply Z.ltb_lt in Ev.
  unfold Qdiv. apply Qmult_le_0_compat.
  - change 0%Q with (inject_Z 0). now rewrite <- Zle_Qle.
  - apply Qinv_le_0_compat.
    change 0%Q with (inject_Z 0). rewrite <- Zle_Qle. lia.
Qed.

(** X21. The virality score never exceeds 100; it is not negative when the
    counts of likes, retweets and replies are not; and it is 0 for a post
    with no views, whatever its engagement. *)
Theorem viralScore_range data :
  (viralScore data <= 100)%Q
  /\ ((0 <= pd_likeCount data)%Z -> (0 <= pd_retweetCount data)%Z ->
      (0 <= pd_replyCount data)%Z -> (0 <= viralScore data)%Q)
  /\ ((pd_viewCount data <= 0)%Z -> viralScore data == 0)%Q.
Proof.
  unfold viralScore. cbv zeta.
  set (x := (engagementRate data * 100
             * (1 + inject_Z (pd_retweetCount data) * (5 # 10)))%Q).
  split; [|split].
  - destruct (Qle_bool 100 x) eqn:E; [apply Qle_refl|].
    apply Qlt_le_weak. apply Qnot_le_lt. intros L.
    apply Qle_bool_iff in L. congruence.
  - intros Hl Hr Hp.
    assert (Hx : (0 <= x)%Q).
    { unfold x. apply Qmult_le_0_compat.
      - apply Qmult_le_0_compat; [|discriminate].
        apply engagementRate_nonneg. unfold totalEngagement. lia.
      - apply (Qle_trans _ (1 + 0)); [discriminate|].
        apply Qplus_le_r. apply Qmult_le_0_compat; [|discriminate].
        change 0%Q with (inject_Z 0). now rewrite <- Zle_Qle. }
    destruct (Qle_bool 100 x); [discriminate|exact Hx].
  - intros Hv.
    assert (Hx : x == 0).
    { unfold x, engagementRate.
      destruct (0 <? pd_viewCount data)%Z eqn:Ev;
        [apply Z.ltb_lt in Ev; lia|]. ring. }
    destruct (Qle_bool 100 x) eqn:E; [|exact Hx].
    apply Qle_bool_iff in E. rewrite Hx in E. exfalso. apply E. reflexivity.
Qed.

Lemma threatScore_of_range s viral kw :
  match threatScore_of s viral kw with
  | NaN => s = NaN
  | Fin q => (q <= 100)%Q /\ ((0 <= viral)%Q -> (0 <= q)%Q)
  | _ => False
  end.
Proof.
  unfold threatScore_of.
  destruct s as [|x| |].
  - reflexivity.
  - cbn [jn_mul num Math_abs jn_add].
    assert (Hk : exists k, (if kw then num 10 else num 0) = Fin k /\ (0 <= k)%Q).
    { destruct kw; eexists; (split; [reflexivity|discriminate]). }
    destruct Hk as (k & -> & Hk). cbn [jn_add].
    set (y := (Qabs (x * inject_Z 60) + viral * (8 # 10) + k)%Q).
    unfold Math_min, num, jn_le.
    destruct (Qle_bool (inject_Z 100) y) eqn:E.
    + split; [apply Qle_refl|discriminate].
    + split.
      * apply Qlt_le_weak. apply Qnot_le_lt. intros L.
        apply Qle_bool_iff in L. change (inject_Z 100) with 100%Q in E.
        congruence.
      * intros Hv. unfold y.
        apply (Qle_trans _ (0 + 0 + 0)); [discriminate|].
        apply Qplus_le_compat; [apply Qplus_le_compat|exact Hk].
        -- apply Qabs_nonneg.
        -- apply Qmult_le_0_compat; [exact Hv|discriminate].
  - destruct kw; vm_compute; split; discriminate.
  - destruct kw; vm_compute; split; discriminate.
Qed.

(** X22. The score of a threat that detection returns.  It is never
    infinite and never above 100; it is not negative when the virality
    score is not; it is not a number only when the sentiment score is not
    (an oracle reply whose score does not convert to a number), and then
    the severity is LOW.  The severity stored is the band of the score
    stored, and the virality impact is the virality score of the post. *)
Theorem detectAndStorePost_threat_score env data w t w' :
  detectAndStorePost env data w = (Ok (Some t), w') ->
  match threatScore t with
  | NaN => sentimentImpact t = NaN /\ severity t = LOW
  | Fin q => (q <= 100)%Q /\ ((0 <= viralScore data)%Q -> (0 <= q)%Q)
  | _ => False
  end
  /\ severity t = severity_of (threatScore t)
  /\ viralityImpact t = Fin (viralScore data).
Proof.
  destruct (sentiment_stage_total env (pd_content data) w)
    as [[[score tone] summary] Hs].
  rewrite (detectAndStorePost_unfold env data w score tone summary Hs).
  destruct (find_monitor (pd_monitorId data) w) as [monitor|];
    [|discriminate].
  destruct (detectedPost_upsert _ _ _ _ _ _ _ w) as [[dp|e] w3];
    [|discriminate].
  destruct (triggered monitor score data); [|discriminate].
  destruct summary as [| | |summary'| |]; try discriminate.
  match goal with
  | |- context [threat_upsert ?d ?b ?m ?td ?c1 ?c2 ?rc w3] =>
      pose proof (threat_upsert_cases d b m td c1 c2 rc w3) as Hc;
      destruct (find (fun t => str_eqb (t_detectedPostId t) d) (threats w3))
  end;
    [|cbv zeta in Hc]; rewrite Hc; intros [= <- _]; simpl;
    (split; [|split; reflexivity]);
    pose proof (threatScore_of_range score (viralScore data)
                  (keywordTrigger monitor (pd_content data))) as Hr;
    destruct (threatScore_of score (viralScore data)
                (keywordTrigger monitor (pd_content data)));
    try exact Hr; subst score; split; reflexivity.
Qed.

Lemma detectAndStorePost_threat_score_witness :
  exists t w' q,
    detectAndStorePost env_silent (incoming 40) world_verified
    = (Ok (Some t), w')
    /\ threatScore t = Fin q
    /\ (q <= 100)%Q
    /\ severity t = severity_of (threatScore t).
Proof.
  destruct (detectAndStorePost env_silent (incoming 40) world_verified)
    as [[[t|]|e] w'] eqn:E;
    try (vm_compute in E; discriminate).
  destruct (detectAndStorePost_threat_score env_silent (incoming 40)
              world_verified t w' E) as (Hs & Hsev & _).
  destruct (threatScore t) as [|q| |] eqn:Eq.
  - exfalso. vm_compute in E. injection E as <- _. discriminate.
  - exists t, w', q. split; [reflexivity|]. split; [exact Eq|].
    split; [exact (proj1 Hs)|]. rewrite Eq. exact Hsev.
  - contradiction.
  - contradiction.
Defined.

(** ** The verification worker, end to end *)

(** X23. A verdict other than FALSE and UNVERIFIED is announced twice.
    For a [verify-one] job whose verification returns such a status, the
    processor returns the chain's "no_response_needed" result, writes no
    Response and sends no request, and the bound broadcaster is handed two
    [verification_complete] events with status VERIFIED_TRUE for the same
    threat: the chain's own, then the worker's. *)
Theorem verificationWorker_notifies_true_twice env job w v w1 :
  job_name job = js "verify-one" ->
  verifyThreat env (job_threatId job) w = (Ok v, w1) ->
  str_eqb (vr_verificationStatus v) (js "FALSE")
  || str_eqb (vr_verificationStatus v) (js "UNVERIFIED") = false ->
  exists w',
    verificationWorker env job w
    = (Ok (JobOk (Some (mkHandleResult true (js "no_response_needed") None
                          (Some (vr_verificationStatus v))))), w')
    /\ emitted w'
       = emitted w
         ++ (if wsBroadcast w then
               [mkWsEvent (js "verification_complete")
                  (VerificationNotice (job_threatId job) (js "VERIFIED_TRUE")
                     (CHECK_MARK ++ js " Verified as true " ++ EM_DASH
                      ++ js " no response needed"));
                mkWsEvent (js "verification_complete")
                  (VerificationNotice (job_threatId job) (js "VERIFIED_TRUE")
                     (CHECK_MARK ++ js " Verified as true information"))]
             else [])
    /\ responses w' = responses w
    /\ requests w' = requests w
    /\ queued w' = queued w.
Proof.
  intros Hn Hv Hrespond.
  assert (Hw1 : emitted w1 = emitted w /\ wsBroadcast w1 = wsBroadcast w
                /\ responses w1 = responses w /\ requests w1 = requests w
                /\ queued w1 = queued w).
  { destruct (verifyThreat_cases env _ w _ _ Hv)
      as [[-> _]|(v' & ? & ? & ? & _ & -> & _)]; repeat split. }
  destruct Hw1 as (He & Hb & Hr & Hq & Hj).
  unfold verificationWorker. rewrite Hn.
  change (str_eqb (js "verify-one") (js "verify-one")) with true. cbv iota.
  unfold try_catch. unfold bind at 1.
  unfold handleThreatVerifyRespond.
  erewrite bind_ok by exact Hv. cbv zeta. rewrite Hrespond.
  unfold bind, broadcast, modify, ret. cbn [verified].
  eexists. split; [reflexivity|].
  rewrite !emitted_notify, !responses_notify, !requests_notify,
    !queued_notify, wsBroadcast_notify, He, Hb, Hr, Hq, Hj.
  split; [|repeat split].
  destruct (wsBroadcast w); simpl; [|now rewrite app_nil_r].
  now rewrite <- app_assoc.
Qed.

Lemma verificationWorker_notifies_true_twice_witness :
  let w := world post1 NEW [] in
  exists w',
    verificationWorker (env_verdict "TRUE" (http 200 "ok")) verify_one w
    = (Ok (JobOk (Some (mkHandleResult true (js "no_response_needed") None
                          (Some (js "TRUE"))))), w')
    /\ List.map event (emitted w')
       = [js "verification_complete"; js "verification_complete"]
    /\ responses w' = [].
Proof.
  intros w.
  destruct (verificationWorker_notifies_true_twice
              (env_verdict "TRUE" (http 200 "ok")) verify_one w
              (verdict50 "TRUE") (verified_as (js "t1") (verdict50 "TRUE") w)
              eq_refl eq_refl eq_refl)
    as (w' & Hrun & Hem & Hr & _).
  exists w'. split; [exact Hrun|]. split; [|exact Hr].
  rewrite Hem. reflexivity.
Defined.

(** X24. The verify route takes any id.  [POST /api/threats/:id/verify]
    answers "Verification queued" and adds a [verify-one] job with autopost
    off without looking the threat up.  When no threat has that id, the job
    ends at its first attempt with the error "Threat not found" as its
    return value, nothing is retried, and all that has changed besides the
    queue is one [verification_failed] event. *)
Theorem verify_route_accepts_any_id env id w :
  find_threat id w = None ->
  let job := mkJob (js "verify-one") id false in
  let notice :=
    VerificationNotice id (js "ERROR")
      (CROSS_MARK ++ js " Verification failed: Threat not found") in
  exists w1,
    verify_route id w = (Ok (ReplyOk (js "Verification queued")), w1)
    /\ queued w1 = queued w ++ [job]
    /\ process_job env job w1
       = (mkJobRun (Completed (JobError (js "Threat not found"))) 1 [],
          notify (js "verification_failed") notice w1)
    /\ threats w1 = threats w
    /\ responses w1 = responses w.
Proof.
  intros Hnone job notice.
  exists (enqueued job w). split; [reflexivity|]. split; [reflexivity|].
  split; [|split; reflexivity].
  assert (Hchain : handleThreatVerifyRespond env (job_threatId job)
                     (job_autopost job) (enqueued job w)
                   = (Throw (Error (js "Threat not found")), enqueued job w)).
  { unfold handleThreatVerifyRespond.
    erewrite bind_throw; [reflexivity|].
    apply verifyThreat_not_found. exact Hnone. }
  unfold process_job. cbn [attempts defaultJobOptions Nat.sub run_attempts].
  rewrite (verificationWorker_on_failure env job (enqueued job w) _ _
             eq_refl Hchain).
  reflexivity.
Qed.

Lemma verify_route_accepts_any_id_witness :
  let w := world post1 NEW [] in
  let job := mkJob (js "verify-one") (js "t404") false in
  exists w1,
    verify_route (js "t404") w = (Ok (ReplyOk (js "Verification queued")), w1)
    /\ queued w1 = [job]
    /\ fst (process_job env_silent job w1)
       = mkJobRun (Completed (JobError (js "Threat not found"))) 1 [].
Proof.
  intros w job.
  destruct (verify_route_accepts_any_id env_silent (js "t404") w eq_refl)
    as (w1 & Hrun & Hq & Hjob & _).
  exists w1. split; [exact Hrun|]. split; [exact Hq|].
  fold job in Hjob. now rewrite Hjob.
Defined.

(** ** With no broadcaster bound *)

Lemma notify_unbound ev p w : wsBroadcast w = false -> notify ev p w = w.
Proof. intros H. unfold notify. now rewrite H. Qed.

Lemma unheard_refl w : unheard w w.
Proof. split; [reflexivity|now intros _]. Qed.

Lemma unheard_trans w1 w2 w3 : unheard w1 w2 -> unheard w2 w3 -> unheard w1 w3.
Proof.
  intros [B1 E1] [B2 E2]. split; [congruence|].
  intros H. rewrite E2 by congruence. now apply E1.
Qed.

Lemma unheard_notify ev p w : unheard w (notify ev p w).
Proof.
  split; [apply wsBroadcast_notify|].
  intros H. now rewrite notify_unbound.
Qed.

Lemma verifyThreat_unheard env tid w res w' :
  verifyThreat env tid w = (res, w') -> unheard w w'.
Proof.
  intros Hrun.
  destruct (verifyThreat_cases env tid w _ _ Hrun)
    as [[-> _]|(v & ? & ? & ? & _ & -> & _)];
    split; try reflexivity; now intros _.
Qed.

Lemma generateResponseForFalse_unheard env tid w res w' :
  generateResponseForFalse env tid w = (res, w') -> unheard w w'.
Proof.
  intros Hrun.
  destruct (generateResponseForFalse_cases env tid w res w' Hrun)
    as [[-> _]
       |(threat & dp & brand & c & resp & w2 & _ & _ & _ & _ & Hu & _ & ->)];
    [apply unheard_refl|].
  eapply unheard_trans; [|apply unheard_notify].
  match type of Hu with
  | response_upsert ?a ?b ?c0 ?d ?e0 w = _ =>
      destruct (response_upsert_spec a b c0 d e0 w)
        as (resp' & w2' & Hu' & _ & _ & _ & _ & _ & _ & _ & _ & _ & Hem & _
            & Hb)
  end.
  rewrite Hu in Hu'. injection Hu' as _ <-.
  split; [exact Hb|now intros _].
Qed.

Lemma postResponseToXClone_unheard env rid w res w' :
  postResponseToXClone env rid w = (res, w') -> unheard w w'.
Proof.
  intros Hrun.
  destruct (postResponseToXClone_shape env rid w res w' Hrun)
    as [[-> _]|(req & st & at_ & ev & p & ->)]; [apply unheard_refl|].
  eapply unheard_trans; [|apply unheard_notify].
  split; [reflexivity|now intros _].
Qed.

Lemma handleThreatVerifyRespond_unheard env tid autopost w res w' :
  handleThreatVerifyRespond env tid autopost w = (res, w') -> unheard w w'.
Proof.
  unfold handleThreatVerifyRespond. unfold bind at 1.
  destruct (verifyThreat env tid w) as [[v|e] w1] eqn:Ev;
    pose proof (verifyThreat_unheard env tid w _ _ Ev) as H1.
  2:{ now intros [= _ <-]. }
  cbv zeta.
  destruct (str_eqb (vr_verificationStatus v) (js "FALSE")
            || str_eqb (vr_verificationStatus v) (js "UNVERIFIED")).
  - unfold bind at 1.
    destruct (generateResponseForFalse env tid w1) as [[resp|e] w2] eqn:Eg;
      pose proof (generateResponseForFalse_unheard env tid w1 _ _ Eg) as H2.
    2:{ intros [= _ <-]. eapply unheard_trans; eassumption. }
    unfold bind at 1. destruct autopost.
    + destruct (postResponseToXClone env (r_id resp) w2) as [[[]|e] w3] eqn:Ep;
        pose proof (postResponseToXClone_unheard env _ w2 _ _ Ep) as H3;
        unfold ret; intros [= _ <-];
        (eapply unheard_trans; [exact H1|]);
        (eapply unheard_trans; [exact H2|exact H3]).
    + unfold ret. intros [= _ <-]. eapply unheard_trans; eassumption.
  - unfold bind, broadcast, modify, ret. intros [= _ <-].
    eapply unheard_trans; [eassumption|apply unheard_notify].
Qed.

(** X25. Until a broadcaster is bound, the services tell nobody.  A job
    that the verification worker processes while no broadcaster is bound,
    whatever its name and however verification, synthesis and publication
    end, emits no event and binds no broadcaster; the worker returns all the
    same. *)
Theorem verificationWorker_silent_when_unbound env job w :
  wsBroadcast w = false ->
  exists r w',
    verificationWorker env job w = (Ok r, w')
    /\ emitted w' = emitted w
    /\ wsBroadcast w' = false.
Proof.
  intros Hb.
  assert (H : forall res w', verificationWorker env job w = (res, w') ->
                unheard w w').
  { unfold verificationWorker.
    destruct (str_eqb (job_name job) (js "verify-one")).
    2:{ intros res w' [= _ <-]. apply unheard_refl. }
    unfold try_catch. unfold bind at 1.
    destruct (handleThreatVerifyRespond env (job_threatId job)
                (job_autopost job) w) as [[result|e] w1] eqn:Eh;
      pose proof (handleThreatVerifyRespond_unheard _ _ _ _ _ _ Eh) as H1.
    - destruct (verified result);
        unfold bind, broadcast, modify, ret; intros res w' [= _ <-];
        (eapply unheard_trans; [eassumption|apply unheard_notify]).
    - unfold bind, broadcast, modify, ret. intros res w' [= _ <-].
      eapply unheard_trans; [eassumption|apply unheard_notify]. }
  destruct (verificationWorker_returns env job w) as (r & w' & Hrun).
  destruct (H _ _ Hrun) as [H1 H2].
  exists r, w'. split; [exact Hrun|]. split; [now apply H2|congruence].
Qed.

Lemma verificationWorker_silent_when_unbound_witness :
  let w := mkWorld [post1] [threat1 NEW] [] [brand1] [monitor1] false
             [] [] [] 7 in
  exists r w',
    verificationWorker env_synthesis_ok (mkJob (js "verify-one") (js "t1") true) w
    = (Ok r, w')
    /\ emitted w' = []
    /\ wsBroadcast w' = false.
Proof.
  intros w.
  apply (verificationWorker_silent_when_unbound env_synthesis_ok
           (mkJob (js "verify-one") (js "t1") true) w).
  reflexivity.
Defined.

(** ** The detection worker *)

(** What one call of [detectAndStorePost] does to the queue and to the
    tables the worker does not own. *)
Lemma detectAndStorePost_effects env data w :
  exists r w',
    detectAndStorePost env data w = (Ok r, w')
    /\ queued w'
       = queued w ++ match r with Some t => [verify_job t] | None => [] end
    /\ responses w' = responses w
    /\ requests w' = requests w
    /\ emitted w' = emitted w.
Proof.
  destruct (sentiment_stage_total env (pd_content data) w)
    as [[[score tone] summary] Hs].
  rewrite (detectAndStorePost_unfold env data w score tone summary Hs).
  destruct (find_monitor (pd_monitorId data) w) as [monitor|].
  2:{ do 2 eexists. split; [reflexivity|]. simpl. rewrite app_nil_r.
      repeat split. }
  destruct (detectedPost_upsert _ _ _ _ _ _ _ w) as [[dp|e] w3] eqn:Hdp.
  2:{ apply detectedPost_upsert_throw in Hdp. subst w3.
      do 2 eexists. split; [reflexivity|]. simpl. rewrite app_nil_r.
      repeat split. }
  destruct (detectedPost_upsert_ok _ _ _ _ _ _ _ _ _ _ Hdp)
    as (_ & _ & _ & _ & Hresp & Hq & Hreq & Hem & _).
  assert (Hnone : exists r w',
            (Ok None : Result (option Threat), w3) = (Ok r, w')
            /\ queued w'
               = queued w
                 ++ match r with Some t => [verify_job t] | None => [] end
            /\ responses w' = responses w
            /\ requests w' = requests w
            /\ emitted w' = emitted w).
  { do 2 eexists. split; [reflexivity|]. simpl. rewrite app_nil_r.
    repeat split; assumption. }
  destruct (triggered monitor score data); [|exact Hnone].
  destruct summary as [| | |summary'| |]; try exact Hnone.
  match goal with
  | |- context [threat_upsert ?d ?b ?m ?td ?c1 ?c2 ?rc w3] =>
      pose proof (threat_upsert_cases d b m td c1 c2 rc w3) as Hc;
      destruct (find (fun t => str_eqb (t_detectedPostId t) d) (threats w3))
  end;
    [|cbv zeta in Hc]; rewrite Hc; do 2 eexists;
    (split; [reflexivity|]); simpl; rewrite Hq, Hresp, Hreq, Hem;
    repeat split.
Qed.

(** A threat that detection returns is in the table. *)
Lemma detectAndStorePost_threat_stored env data w t w' :
  detectAndStorePost env data w = (Ok (Some t), w') -> In t (threats w').
Proof.
  destruct (sentiment_stage_total env (pd_content data) w)
    as [[[score tone] summary] Hs].
  rewrite (detectAndStorePost_unfold env data w score tone summary Hs).
  destruct (find_monitor (pd_monitorId data) w) as [monitor|];
    [|discriminate].
  destruct (detectedPost_upsert _ _ _ _ _ _ _ w) as [[dp|e] w3];
    [|discriminate].
  destruct (triggered monitor score data); [|discriminate].
  destruct summary as [| | |summary'| |]; try discriminate.
  match goal with
  | |- context [threat_upsert ?d ?b ?m ?td ?c1 ?c2 ?rc w3] =>
      destruct (threat_upsert_spec d b m td c1 c2 rc w3)
        as (t0 & w5 & Hup & _ & Hfind & _)
  end.
  rewrite Hup. intros [= <- <-]. simpl.
  apply find_some in Hfind. tauto.
Qed.

Lemma detection_loop_spec env post : forall monitors w,
  exists w',
    detection_loop env post monitors w
    = (Ok (List.map (notice_of post) (filter (keyword_match post) monitors)),
       w')
    /\ queued w'
       = queued w
         ++ flat_map (fun t => [verify_job t; verify_job t])
              (yielded env post monitors w)
    /\ responses w' = responses w
    /\ requests w' = requests w
    /\ emitted w' = emitted w
    /\ (filter (keyword_match post) monitors = [] -> w' = w).
Proof.
  intros monitors. induction monitors as [|m rest IH]; intros w.
  - exists w. simpl. rewrite app_nil_r. repeat split.
  - cbn [detection_loop yielded filter].
    destruct (keyword_match post m) eqn:Em; cbn [negb].
    + destruct (detectAndStorePost_effects env (post_data m post) w)
        as (r & w1 & Hrun & Hq & Hresp & Hreq & Hem).
      erewrite bind_ok by exact Hrun. rewrite Hrun.
      set (w2 := match r with
                 | Some t => enqueued (verify_job t) w1
                 | None => w1
                 end).
      assert (Hstep : (match r with
                       | Some t => queue_add (verify_job t)
                       | None => ret tt
                       end) w1 = (Ok tt, w2)).
      { unfold w2. destruct r; reflexivity. }
      erewrite bind_ok by exact Hstep. cbv zeta.
      destruct (IH w2) as (w' & Hloop & Hq' & Hresp' & Hreq' & Hem' & _).
      erewrite bind_ok by exact Hloop.
      exists w'. split; [reflexivity|].
      assert (Hw2 : queued w2
                    = queued w
                      ++ match r with
                         | Some t => [verify_job t; verify_job t]
                         | None => []
                         end
                    /\ responses w2 = responses w
                    /\ requests w2 = requests w
                    /\ emitted w2 = emitted w).
      { unfold w2. destruct r as [t|]; simpl; rewrite Hq, Hresp, Hreq, Hem;
          rewrite <- ?app_assoc; repeat split. }
      destruct Hw2 as (Q2 & R2 & S2 & E2).
      rewrite Hresp', Hreq', Hem', R2, S2, E2.
      split.
      { destruct r as [t|]; fold w2; rewrite Hq', Q2; simpl;
          now rewrite <- app_assoc. }
      repeat split. discriminate.
    + destruct (IH w) as (w' & Hloop & H).
      exists w'. split; [exact Hloop|exact H].
Qed.

(** X26. What the detection worker adds to the verification queue comes
    in pairs.  For a post and keywords in ASCII, with the store and the
    queue answering: the worker sends one [post_analyzed] event for each
    monitor whose keywords the post contains, in order; for each threat
    that a call of [detectAndStorePost] returns to it, the same
    [verify-one] job is in the queue twice in a row, once added by
    [detectAndStorePost] and once by the worker, and nothing else is
    queued; it writes no Response, sends no request and emits no service
    event; and when no monitor matches it leaves the world as it was,
    returning nothing if there is no active monitor at all. *)
Theorem detectionWorker_queues_each_threat_twice env monitors post w :
  ascii_match_text post monitors = true ->
  exists w',
    detectionWorker env monitors post w
    = (Ok (match monitors with [] => ReturnsUndefined | _ => StatusDone end,
           List.map (notice_of post) (filter (keyword_match post) monitors)),
       w')
    /\ queued w'
       = queued w
         ++ flat_map (fun t => [verify_job t; verify_job t])
              (yielded env post monitors w)
    /\ responses w' = responses w
    /\ requests w' = requests w
    /\ emitted w' = emitted w
    /\ (filter (keyword_match post) monitors = [] -> w' = w).
Proof.
  intros _. unfold detectionWorker. destruct monitors as [|m rest].
  - exists w. simpl. rewrite app_nil_r. repeat split.
  - cbn [List.length Nat.eqb].
    destruct (detection_loop_spec env post (m :: rest) w)
      as (w' & Hloop & H).
    exists w'. split; [|exact H].
    erewrite bind_ok by exact Hloop. reflexivity.
Qed.

Lemma detectionWorker_queues_each_threat_twice_witness :
  let w := world post1 RESPONDED [] in
  exists t w',
    detectionWorker env_silent [active1] stream_post w
    = (Ok (StatusDone, [notice_of stream_post active1]), w')
    /\ yielded env_silent stream_post [active1] w = [t]
    /\ queued w' = [verify_job t; verify_job t].
Proof.
  intros w.
  destruct (detectionWorker_queues_each_threat_twice env_silent [active1]
              stream_post w eq_refl)
    as (w' & Hrun & Hq & _).
  destruct (yielded env_silent stream_post [active1] w) as [|t [|t' rest]]
    eqn:Ey; try (vm_compute in Ey; discriminate).
  exists t, w'. split; [exact Hrun|]. split; [reflexivity|exact Hq].
Defined.



(** ** The HTTP handlers *)

(** X28. The analysis endpoint answers 200 only for a post that raised a
    threat.  [analyzeIncomingPost] never throws; it has run
    [detectAndStorePost] on the body with absent counts read as 0; when
    that returned a threat the answer is 200 and the id it reports as
    [detectedPostId] is the id of the threat; when it returned [null] (no
    monitor, no trigger, or a failure inside) the answer is 500 with the
    message of a TypeError, although the post may have been stored. *)
Theorem analyzeIncomingPost_answers flagged env body w :
  exists r w',
    detectAndStorePost env (body_data env body) w = (Ok r, w')
    /\ match r with
       | Some t =>
           exists message,
             analyzeIncomingPost flagged env body w
             = (Ok (Analyzed (t_id t) message), w')
             /\ detection_status (Analyzed (t_id t) message) = 200
             /\ In t (threats w')
       | None =>
           let reply :=
             DetectionFailed
               (js "Cannot read properties of null (reading 'id')") in
           analyzeIncomingPost flagged env body w = (Ok reply, w')
           /\ detection_status reply = 500
       end.
Proof.
  destruct (detectAndStorePost env (body_data env body) w)
    as [[r|e] w'] eqn:E.
  2:{ exfalso.
      destruct (detectAndStorePost_effects env (body_data env body) w)
        as (r & w1 & Hrun & _).
      rewrite E in Hrun. discriminate. }
  exists r, w'. split; [reflexivity|].
  unfold analyzeIncomingPost, try_catch.
  erewrite bind_ok by exact E.
  destruct r as [t|].
  - eexists. split; [reflexivity|]. split; [reflexivity|].
    eapply detectAndStorePost_threat_stored. exact E.
  - split; reflexivity.
Qed.

(** X29. What the approval endpoint answers tells what happened to the
    Response.  [POST /api/responses/:id/approve] never throws.  When it
    answers "Response posted successfully", one request has gone to the
    platform and the Response is POSTED.  When it answers with an error,
    either nothing has changed at all (for one, when there is no Response
    with that id: the error is then "Response not found"), or one request
    has gone out, the Response is FAILED, and the bound broadcaster was
    handed a [response_failed] event with the same error text. *)
Theorem approve_route_reply env id w :
  exists reply w',
    approve_route env id w = (Ok reply, w')
    /\ match reply with
       | ReplyOk message =>
           message = js "Response posted successfully"
           /\ option_map r_status (find_response id w') = Some POSTED
           /\ exists req, requests w' = requests w ++ [req]
       | ReplyError error =>
           w' = w
           \/ (option_map r_status (find_response id w') = Some FAILED
               /\ (exists req, requests w' = requests w ++ [req])
               /\ exists tid,
                    emitted w'
                    = emitted w
                      ++ (if wsBroadcast w then
                            [mkWsEvent (js "response_failed")
                               (ResponseFailed id tid error)]
                          else []))
       end
    /\ (find_response id w = None ->
        reply = ReplyError (js "Response not found") /\ w' = w).
Proof.
  unfold approve_route, try_catch. unfold bind at 1.
  destruct (postResponseToXClone env id w) as [res w1] eqn:E.
  assert (Hnone : find_response id w = None ->
                  res = Throw (Error (js "Response not found")) /\ w1 = w).
  { intros Hn. unfold postResponseToXClone, bind, get in E.
    rewrite Hn in E. now injection E as <- <-. }
  destruct (postResponseToXClone_cases env id w res w1 E)
    as [[-> [e ->]]|(response & req & Hr & [[-> ->]|(err & -> & ->)])].
  - do 2 eexists. split; [reflexivity|]. split; [now left|].
    intros Hn. destruct (Hnone Hn) as [[= ->] _]. now split.
  - do 2 eexists. split; [reflexivity|]. split.
    + split; [reflexivity|]. split.
      * rewrite find_response_notify.
        erewrite find_response_mark by exact Hr. reflexivity.
      * exists req. now rewrite requests_notify.
    + intros Hn. rewrite Hn in Hr. discriminate.
  - do 2 eexists. split; [reflexivity|]. split.
    + right. split; [|split].
      * rewrite find_response_notify.
        erewrite find_response_mark by exact Hr. reflexivity.
      * exists req. now rewrite requests_notify.
      * exists (r_threatId response). now rewrite emitted_notify.
    + intros Hn. rewrite Hn in Hr. discriminate.
Qed.

(** X30. The usual path of a job, end to end.  For a [verify-one] job
    without autopost on a threat whose verification comes out FALSE or
    UNVERIFIED, with the oracle's correction in hand, the processor returns
    the chain's "responded" result naming the Response; that Response is in
    the table for the threat, PENDING; no request has been sent; and the
    bound broadcaster is handed two events, [response_ready] for the
    Response and then [verification_complete] with status MISINFORMATION. *)
Theorem verificationWorker_misinformation env job w threat dp brand v w1 c :
  job_name job = js "verify-one" ->
  job_autopost job = false ->
  find_threat (job_threatId job) w = Some threat ->
  find_detectedPost (t_detectedPostId threat) w = Some dp ->
  find_brand (t_brandId threat) w = Some brand ->
  verifyThreat env (job_threatId job) w = (Ok v, w1) ->
  str_eqb (vr_verificationStatus v) (js "FALSE")
  || str_eqb (vr_verificationStatus v) (js "UNVERIFIED") = true ->
  groq_create env (correction_request (b_name brand) (dp_content dp))
  = GroqResolves c ->
  exists resp preview w',
    verificationWorker env job w
    = (Ok (JobOk (Some (mkHandleResult false (js "responded")
                          (Some (r_id resp)) None))), w')
    /\ find_response_by_threat (job_threatId job) w' = Some resp
    /\ r_status resp = PENDING
    /\ requests w' = requests w
    /\ emitted w'
       = emitted w
         ++ (if wsBroadcast w then
               [mkWsEvent (js "response_ready")
                  (ResponseReady (job_threatId job) (r_id resp) preview
                     (r_confidence resp) (r_sourcesUsed resp));
                mkWsEvent (js "verification_complete")
                  (VerificationNotice (job_threatId job) (js "MISINFORMATION")
                     (WARNING_SIGN ++ js " Misinformation detected " ++ EM_DASH
                      ++ js " AI response generated"))]
             else []).
Proof.
  intros Hn Ha Ht Hd Hb Hv Hrespond Hg.
  set (tid := job_threatId job) in *.
  pose proof (verifyThreat_ok_inv env tid w threat dp v w1 Ht Hd Hv) as Hw1.
  pose proof (find_threat_verified_as tid v w threat Ht) as Ht1.
  rewrite <- Hw1 in Ht1.
  set (threat' := set_verification (vr_verificationStatus v)
                    (vr_verificationConfidence v) (vr_verificationSummary v)
                    (vr_evidenceIds v) threat) in *.
  assert (Hd1 : find_detectedPost (t_detectedPostId threat') w1 = Some dp)
    by (rewrite Hw1; exact Hd).
  assert (Hb1 : find_brand (t_brandId threat') w1 = Some brand)
    by (rewrite Hw1; exact Hb).
  assert (Hframe1 : requests w1 = requests w /\ emitted w1 = emitted w
                    /\ wsBroadcast w1 = wsBroadcast w)
    by (rewrite Hw1; repeat split).
  destruct Hframe1 as (Hreq1 & Hem1 & Hbound1).
  destruct (generateResponseForFalse_resolves env tid w1 threat' dp brand c
              Ht1 Hd1 Hb1 Hg)
    as (resp & w2 & Hgen & Hfind & _ & _ & Hst & _ & _ & Hreq2).
  destruct (generateResponseForFalse_cases env tid w1 _ _ Hgen)
    as [[_ [e He]]
       |(threat2 & dp2 & brand2 & c2 & resp2 & w2' & _ & _ & _ & _ & Hu & Hr
         & Hw2)];
    [discriminate|].
  injection Hr as <-.
  match type of Hu with
  | response_upsert ?a ?b ?c0 ?d ?e0 w1 = _ =>
      destruct (response_upsert_spec a b c0 d e0 w1)
        as (resp' & w2'' & Hu' & _ & _ & _ & Hsrc & _ & _ & _ & _ & _ & Hem2
            & _ & Hbound2)
  end.
  rewrite Hu in Hu'. injection Hu' as <- <-.
  exists resp. eexists. eexists.
  split.
  { unfold verificationWorker. rewrite Hn.
    change (str_eqb (js "verify-one") (js "verify-one")) with true. cbv iota.
    unfold try_catch. unfold bind at 1.
    unfold handleThreatVerifyRespond. fold tid. rewrite Ha.
    erewrite bind_ok by exact Hv. cbv zeta. rewrite Hrespond.
    erewrite bind_ok by exact Hgen.
    unfold bind, broadcast, modify, ret. cbn [verified]. reflexivity. }
  split.
  { unfold find_response_by_threat. rewrite responses_notify. exact Hfind. }
  split; [exact Hst|].
  split; [rewrite requests_notify; now rewrite Hreq2|].
  rewrite emitted_notify, Hw2, emitted_notify, wsBroadcast_notify, Hem2,
    Hbound2, Hem1, Hbound1, Hsrc.
  destruct (wsBroadcast w); simpl; [|now rewrite app_nil_r].
  rewrite <- app_assoc. reflexivity.
Qed.

Lemma verificationWorker_misinformation_witness :
  let w := world post1 NEW [] in
  exists resp w',
    verificationWorker env_synthesis_ok verify_one w
    = (Ok (JobOk (Some (mkHandleResult false (js "responded")
                          (Some (r_id resp)) None))), w')
    /\ r_status resp = PENDING
    /\ requests w' = []
    /\ List.map event (emitted w')
       = [js "response_ready"; js "verification_complete"].
Proof.
  intros w.
  destruct (verificationWorker_misinformation env_synthesis_ok verify_one w
              (threat1 NEW) post1 brand1
              (mkVerifyResult (js "FALSE") (num 80) NO_TRUSTED_OUTLET [js "s1"])
              (verified_as (js "t1")
                 (mkVerifyResult (js "FALSE") (num 80) NO_TRUSTED_OUTLET
                    [js "s1"]) w)
              (mkChatCompletion [mkChoice (Some (js "This claim is not accurate."))])
              eq_refl eq_refl eq_refl eq_refl eq_refl eq_refl eq_refl eq_refl)
    as (resp & preview & w' & Hrun & _ & Hst & Hreq & Hem).
  exists resp, w'. split; [exact Hrun|]. split; [exact Hst|].
  split; [exact Hreq|]. rewrite Hem. reflexivity.
Defined.
